(** * Exit-ticket teacher portal: authoring workflow and flag analytics

    A shallow embedding of [src/app.py].  The Streamlit script is run once
    per user interaction; every run reads and writes [st.session_state].
    The embedding has three layers:

    - [Py]: the few Python built-ins the script relies on ([str.strip],
      [int], [str], list indexing, truthiness);
    - [Flags]: [calculate_flag_statistics] and the per-response answer
      listing of [view_ticket_analytics];
    - [Workflow]: the "Create Exit Ticket" page ([teacher_dashboard],
      [show_teacher_input_page], [show_teacher_questions_page],
      [generate_mcqs], [regenerate_teacher_question],
      [publish_exit_ticket]) as one script run per widget event, over the
      session state, the list objects it references, and the history of
      calls to the external services.

    The generative model and the functions of [firebase_helper] are
    parameters of the script.  Widgets are modelled by the values they
    return and by the exceptions their arguments can raise; their layout
    is not. *)

From Stdlib Require Import ZArith Lia String Ascii List DecimalString.
From stdpp Require Import gmap strings list fin_maps.

Open Scope Z_scope.

(** ** Exceptions and the error monad *)

Inductive exn : Type :=
  | ValueError
  | IndexError
  | KeyError
  | AttributeError
  | TypeError.

Inductive result (A : Type) : Type :=
  | Ok (a : A)
  | Raise (e : exn).
Arguments Ok {A} a.
Arguments Raise {A} e.

Definition bind {A B} (r : result A) (k : A → result B) : result B :=
  match r with
  | Ok a => k a
  | Raise e => Raise e
  end.

Notation "x ←! r ; k" := (bind r (λ x, k))
  (at level 100, r at next level, k at level 200, right associativity,
   format "x  ←!  r ;  '/' k").

Definition returns {A} (r : result A) : Prop := ∃ a, r = Ok a.

(** ** Python built-ins *)

Module Py.

(** ASCII white space, as removed by [str.strip()] and skipped by [int]. *)
Definition is_space (c : ascii) : bool :=
  let n := nat_of_ascii c in
  ((9 <=? n) && (n <=? 13) || (28 <=? n) && (n <=? 32))%nat.

Fixpoint lstrip (s : string) : string :=
  match s with
  | EmptyString => EmptyString
  | String c s' => if is_space c then lstrip s' else s
  end.

Fixpoint rstrip (s : string) : string :=
  match s with
  | EmptyString => EmptyString
  | String c s' =>
      match rstrip s' with
      | EmptyString => if is_space c then EmptyString else String c EmptyString
      | r => String c r
      end
  end.

Definition strip (s : string) : string := lstrip (rstrip s).

(** Truthiness of a [str]: the empty string is falsy. *)
Definition truthy_str (s : string) : bool :=
  match s with EmptyString => false | _ => true end.

Definition digit_val (c : ascii) : option Z :=
  let n := nat_of_ascii c in
  if ((48 <=? n) && (n <=? 57))%nat then Some (Z.of_nat n - 48) else None.

(** Decimal digits with single underscores between digits; [prev] tells
    whether the previous character was a digit. *)
Fixpoint digits (acc : Z) (prev : bool) (s : string) : option Z :=
  match s with
  | EmptyString => if prev then Some acc else None
  | String c s' =>
      match digit_val c with
      | Some d => digits (10 * acc + d) true s'
      | None =>
          if (Ascii.eqb c "_" && prev)%bool then digits acc false s' else None
      end
  end.

(** [int(s)] for a [str] in base 10: surrounding white space, an optional
    sign, then digits.  [None] stands for [ValueError].  Strings are byte
    strings here, so only ASCII digits and white space are recognised. *)
Definition int_of_str (s : string) : option Z :=
  match strip s with
  | String "-" s' => Z.opp <$> digits 0 false s'
  | String "+" s' => digits 0 false s'
  | s' => digits 0 false s'
  end.

(** [str(n)] for an [int]. *)
Definition str_of_int (n : Z) : string := NilZero.string_of_int (Z.to_int n).

(** Keys of a mapping read back from the document store: strings, or
    integers when the mapping was built in memory. *)
Inductive key : Type :=
  | KStr (s : string)
  | KInt (n : Z).

#[global] Instance key_eq_dec : EqDecision key.
Proof. solve_decision. Defined.

(** [int(k)]. *)
Definition int (k : key) : result Z :=
  match k with
  | KInt n => Ok n
  | KStr s =>
      match int_of_str s with
      | Some n => Ok n
      | None => Raise ValueError
      end
  end.

(** [d.get(k, default)] on a dict given by its items in iteration order. *)
Fixpoint dict_get {V} (d : list (key * V)) (k : key) (default : V) : V :=
  match d with
  | [] => default
  | (k', v) :: d' => if decide (k' = k) then v else dict_get d' k default
  end.

(** [l[i]] with Python's negative indices. *)
Definition index {A} (l : list A) (i : Z) : result A :=
  let n := Z.of_nat (length l) in
  let j := if 0 <=? i then i else n + i in
  if (0 <=? j) && (j <? n) then
    match l !! Z.to_nat j with
    | Some x => Ok x
    | None => Raise IndexError
    end
  else Raise IndexError.

End Py.

(** ** Questions

    A question is the JSON object produced by the generator: a dict from
    field names to values.  The script reads a text value under
    ["question"], ["correct_answer"], ["explanation"], ["topic"],
    ["subtopic"] and ["subject"], and a mapping from option letters to
    option texts under ["options"]. *)

Inductive field : Type :=
  | FStr (s : string)
  | FOptions (o : gmap string string).

#[global] Instance field_eq_dec : EqDecision field.
Proof. solve_decision. Defined.

Abbreviation question := (gmap string field).

(** [q[name]]: a missing key raises [KeyError]. *)
Definition getitem (q : question) (name : string) : result field :=
  match q !! name with
  | Some v => Ok v
  | None => Raise KeyError
  end.

(** [q['options']] used as a mapping: [.get] on a text value raises
    [AttributeError]. *)
Definition options_of (q : question) : result (gmap string string) :=
  v ←! getitem q "options";
  match v with
  | FOptions o => Ok o
  | FStr _ => Raise AttributeError
  end.

(** ** Flag aggregation and the answer listing *)

Module Flags.

(** A student response as stored by the student-facing flow.  Each field is
    read with [response.get(name, default)], so each may be absent.  A dict
    is given by its items in iteration order. *)
Record StudentResponse : Type := {
  student_name : option string;
  flags : option (list (Py.key * bool));
  responses : option (list (Py.key * string));
}.

Definition name_of (r : StudentResponse) : string :=
  default "Unknown"%string (student_name r).
Definition flags_of (r : StudentResponse) : list (Py.key * bool) :=
  default [] (flags r).
Definition answers_of (r : StudentResponse) : list (Py.key * string) :=
  default [] (responses r).

Record QuestionFlagDetail : Type := {
  question_text : field;
  flag_count : nat;
  flagged_by : list string;
}.

Record FlagStats : Type := {
  total_flags : nat;
  flagged_questions : nat;
  question_flag_details : gmap Z QuestionFlagDetail;
}.

(** [for i, question in enumerate(questions)]: one zeroed entry per index. *)
Fixpoint init_details (i : Z) (questions : list question)
    (d : gmap Z QuestionFlagDetail) : gmap Z QuestionFlagDetail :=
  match questions with
  | [] => d
  | q :: qs =>
      init_details (i + 1) qs
        (<[i := {| question_text := default (FStr "Unknown") (q !! "question"%string);
                   flag_count := 0;
                   flagged_by := [] |}]> d)
  end.

(** The body of [if q_idx in flag_stats['question_flag_details']]. *)
Definition add_flag (name : string) (q_idx : Z) (st : FlagStats) : FlagStats :=
  match question_flag_details st !! q_idx with
  | Some d =>
      {| total_flags := total_flags st + 1;
         flagged_questions := flagged_questions st;
         question_flag_details :=
           <[q_idx := {| question_text := question_text d;
                         flag_count := flag_count d + 1;
                         flagged_by := flagged_by d ++ [name] |}]>
             (question_flag_details st) |}
  | None => st
  end.

(** [for q_idx_str, is_flagged in flags.items()]. *)
Fixpoint count_flags (name : string) (items : list (Py.key * bool))
    (st : FlagStats) : result FlagStats :=
  match items with
  | [] => Ok st
  | (q_idx_str, is_flagged) :: rest =>
      if is_flagged then
        q_idx ←! Py.int q_idx_str;
        count_flags name rest (add_flag name q_idx st)
      else count_flags name rest st
  end.

(** [for response in responses]. *)
Fixpoint count_responses (rs : list StudentResponse) (st : FlagStats)
    : result FlagStats :=
  match rs with
  | [] => Ok st
  | r :: rest =>
      st' ←! count_flags (name_of r) (flags_of r) st;
      count_responses rest st'
  end.

(** [len([q for q in details.values() if q['flag_count'] > 0])]. *)
Definition count_flagged (d : gmap Z QuestionFlagDetail) : nat :=
  length (filter (λ q, (0 < flag_count q)%nat) (map_to_list d).*2).

Definition calculate_flag_statistics (rs : list StudentResponse)
    (questions : list question) : result FlagStats :=
  let flag_stats :=
    {| total_flags := 0;
       flagged_questions := 0;
       question_flag_details := init_details 0 questions ∅ |} in
  st ←! count_responses rs flag_stats;
  Ok {| total_flags := total_flags st;
        flagged_questions := count_flagged (question_flag_details st);
        question_flag_details := question_flag_details st |}.

(** What [view_ticket_analytics] prints for one answered question. *)
Inductive line : Type :=
  | AnswerLine (is_correct : bool) (number : Z)
      (student_answer answer_text : string) (is_flagged : bool)
  | CorrectLine (correct_answer correct_text : string)
  | FlagWarning.

(** The body of [for q_idx_str, student_answer in responses_dict.items()]. *)
Definition show_answer (questions : list question)
    (student_flags : list (Py.key * bool)) (entry : Py.key * string)
    : result (list line) :=
  q_idx ←! Py.int entry.1;
  let student_answer := entry.2 in
  if q_idx <? Z.of_nat (length questions) then
    question ←! Py.index questions q_idx;
    correct_answer ←! getitem question "correct_answer";
    let is_flagged :=
      Py.dict_get student_flags (Py.KStr (Py.str_of_int q_idx)) false in
    let is_correct := bool_decide (FStr student_answer = correct_answer) in
    opts ←! options_of question;
    let answer_text := default "N/A"%string (opts !! student_answer) in
    correction ←!
      (if is_correct then Ok []
       else match correct_answer with
            | FStr c => Ok [CorrectLine c (default "N/A"%string (opts !! c))]
            | FOptions _ => Raise TypeError
            end);
    Ok (AnswerLine is_correct (q_idx + 1) student_answer answer_text is_flagged
          :: correction ++ (if is_flagged then [FlagWarning] else []))
  else Ok [].

Fixpoint show_answers (questions : list question)
    (student_flags : list (Py.key * bool)) (entries : list (Py.key * string))
    : result (list line) :=
  match entries with
  | [] => Ok []
  | e :: rest =>
      ls ←! show_answer questions student_flags e;
      ls' ←! show_answers questions student_flags rest;
      Ok (ls ++ ls')
  end.

(** The "Answers:" part of the expander of one response. *)
Definition response_detail (questions : list question) (r : StudentResponse)
    : result (list line) :=
  show_answers questions (flags_of r) (answers_of r).

End Flags.

(** ** The authoring workflow *)

Module Workflow.

(** *** External services *)

(** Modelled from the spec: the ticket returned by [create_exit_ticket] of
    [firebase_helper], which is not part of the sources; the script reads
    its [ticket_id], [title], [subject] and [total_questions]. *)
Record Ticket : Type := {
  ticket_id : string;
  ticket_title : string;
  ticket_subject : string;
  ticket_total_questions : nat;
}.

(** The arguments of [generate_mcqs]; the prompt sent to the model is a
    function of these four values. *)
Record GenArgs : Type := {
  ga_lecture_topics : string;
  ga_ai_instructions : string;
  ga_num_questions : Z;
  ga_subject : string;
}.

(** What comes back from [model.generate_content(prompt)] followed by
    [json.loads] on the text between the first opening and the last closing
    brace: an exception, undecodable text, or a JSON object, of which the
    script reads the list of question objects under ["questions"] when that
    key is present. *)
Inductive Reply : Type :=
  | ReplyRaises (e : string)
  | ReplyBadJson (raw e : string)
  | ReplyJson (questions : option (list question)).

(** What comes back from [create_exit_ticket]: an exception, a falsy value,
    or a ticket. *)
Inductive Created : Type :=
  | CreateRaises (e : string)
  | CreateFalsy
  | CreateTicket (t : Ticket).

(** Calls made to the outside world, oldest first. *)
Inductive call : Type :=
  | GenerateContent (args : GenArgs)
  | SaveQuestion (q : question) (source : string)
  | CreateExitTicket (questions : list question)
      (teacher_name subject lecture_topics : string).

(** *** Session state *)

Abbreviation loc := positive.

(** [st.session_state].  A field is [None] while its key is absent.  The
    two draft keys hold Python's [None] or a reference to a list object;
    [teacher_edit_mode] holds the keys [teacher_edit_mode_{i}]. *)
Record Session : Type := {
  teacher_mcqs : option (option loc);
  teacher_all_mcqs : option (option loc);
  teacher_ready_for_review : option bool;
  teacher_subject : option string;
  teacher_lecture_topics : option string;
  teacher_ai_instructions : option string;
  teacher_num_questions : option Z;
  published_ticket : option Ticket;
  teacher_edit_mode : gmap nat bool;
}.

Definition empty_session : Session :=
  {| teacher_mcqs := None; teacher_all_mcqs := None;
     teacher_ready_for_review := None; teacher_subject := None;
     teacher_lecture_topics := None; teacher_ai_instructions := None;
     teacher_num_questions := None; published_ticket := None;
     teacher_edit_mode := ∅ |}.

(** What the script prints with [st.error], [st.warning], [st.success], and
    an uncaught exception shown by the framework. *)
Inductive notice : Type :=
  | ErrorApiKeyNotFound
  | ErrorParsingResponse (raw e : string)
  | ErrorGeneratingMCQs (e : string)
  | ErrorTopicsMissing
  | ErrorOnlyGenerated (n : nat)
  | ErrorFailedToGenerate
  | WarningNoQuestions
  | SuccessRegenerated
  | ErrorFailedToRegenerate
  | SuccessUpdated
  | SuccessNewSet
  | ErrorFailedNewSet
  | ErrorNoQuestionsToPublish
  | SuccessPublished (t : Ticket)
  | ErrorFailedToPublish
  | ErrorPublishing (e : string)
  | Uncaught (e : exn).

(** The session, the list objects it refers to, the calls made so far, and
    what the current run has printed. *)
Record World : Type := {
  session_state : Session;
  heap : gmap loc (list question);
  history : list call;
  screen : list notice;
}.

Definition empty_world : World :=
  {| session_state := empty_session; heap := ∅; history := []; screen := [] |}.

Definition with_session (f : Session → Session) (w : World) : World :=
  {| session_state := f (session_state w); heap := heap w;
     history := history w; screen := screen w |}.

Definition with_heap (f : gmap loc (list question) → gmap loc (list question))
    (w : World) : World :=
  {| session_state := session_state w; heap := f (heap w);
     history := history w; screen := screen w |}.

Definition called (c : call) (w : World) : World :=
  {| session_state := session_state w; heap := heap w;
     history := history w ++ [c]; screen := screen w |}.

Definition say (n : notice) (w : World) : World :=
  {| session_state := session_state w; heap := heap w;
     history := history w; screen := screen w ++ [n] |}.

Definition clear_screen (w : World) : World :=
  {| session_state := session_state w; heap := heap w;
     history := history w; screen := [] |}.

(** Assignments to single session keys. *)
Definition set_mcqs (v : option loc) (s : Session) : Session :=
  {| teacher_mcqs := Some v; teacher_all_mcqs := teacher_all_mcqs s;
     teacher_ready_for_review := teacher_ready_for_review s;
     teacher_subject := teacher_subject s;
     teacher_lecture_topics := teacher_lecture_topics s;
     teacher_ai_instructions := teacher_ai_instructions s;
     teacher_num_questions := teacher_num_questions s;
     published_ticket := published_ticket s;
     teacher_edit_mode := teacher_edit_mode s |}.

Definition set_all_mcqs (v : option loc) (s : Session) : Session :=
  {| teacher_mcqs := teacher_mcqs s; teacher_all_mcqs := Some v;
     teacher_ready_for_review := teacher_ready_for_review s;
     teacher_subject := teacher_subject s;
     teacher_lecture_topics := teacher_lecture_topics s;
     teacher_ai_instructions := teacher_ai_instructions s;
     teacher_num_questions := teacher_num_questions s;
     published_ticket := published_ticket s;
     teacher_edit_mode := teacher_edit_mode s |}.

Definition set_ready_for_review (b : bool) (s : Session) : Session :=
  {| teacher_mcqs := teacher_mcqs s; teacher_all_mcqs := teacher_all_mcqs s;
     teacher_ready_for_review := Some b;
     teacher_subject := teacher_subject s;
     teacher_lecture_topics := teacher_lecture_topics s;
     teacher_ai_instructions := teacher_ai_instructions s;
     teacher_num_questions := teacher_num_questions s;
     published_ticket := published_ticket s;
     teacher_edit_mode := teacher_edit_mode s |}.

Definition set_inputs (subject lecture_topics ai_instructions : string)
    (s : Session) : Session :=
  {| teacher_mcqs := teacher_mcqs s; teacher_all_mcqs := teacher_all_mcqs s;
     teacher_ready_for_review := teacher_ready_for_review s;
     teacher_subject := Some subject;
     teacher_lecture_topics := Some lecture_topics;
     teacher_ai_instructions := Some ai_instructions;
     teacher_num_questions := teacher_num_questions s;
     published_ticket := published_ticket s;
     teacher_edit_mode := teacher_edit_mode s |}.

Definition set_published_ticket (t : Ticket) (s : Session) : Session :=
  {| teacher_mcqs := teacher_mcqs s; teacher_all_mcqs := teacher_all_mcqs s;
     teacher_ready_for_review := teacher_ready_for_review s;
     teacher_subject := teacher_subject s;
     teacher_lecture_topics := teacher_lecture_topics s;
     teacher_ai_instructions := teacher_ai_instructions s;
     teacher_num_questions := teacher_num_questions s;
     published_ticket := Some t;
     teacher_edit_mode := teacher_edit_mode s |}.

Definition set_edit_mode (i : nat) (b : bool) (s : Session) : Session :=
  {| teacher_mcqs := teacher_mcqs s; teacher_all_mcqs := teacher_all_mcqs s;
     teacher_ready_for_review := teacher_ready_for_review s;
     teacher_subject := teacher_subject s;
     teacher_lecture_topics := teacher_lecture_topics s;
     teacher_ai_instructions := teacher_ai_instructions s;
     teacher_num_questions := teacher_num_questions s;
     published_ticket := published_ticket s;
     teacher_edit_mode := <[i := b]> (teacher_edit_mode s) |}.

(** The list object behind [st.session_state.teacher_all_mcqs], if the key
    holds one. *)
Definition all_mcqs (w : World) : option (list question) :=
  match teacher_all_mcqs (session_state w) with
  | Some (Some l) => heap w !! l
  | _ => None
  end.

(** [st.session_state.teacher_all_mcqs[i] = q]: the list object is updated
    in place, for every key that refers to it. *)
Definition assign_item (i : nat) (q : question) (w : World) : World :=
  match teacher_all_mcqs (session_state w) with
  | Some (Some l) => with_heap (alter (λ qs, <[i := q]> qs) l) w
  | _ => w
  end.

(** *** Widgets *)

(** The presets of the "AI Instructions" select box. *)
Inductive instruction_preset : Type :=
  | PresetNone
  | FocusConceptualClarity
  | IncludeNumerical
  | EmphasizeRealWorld
  | IncludeMisunderstood
  | PrioritizeDefinitions
  | ConvertTextQuestions.

Definition ai_instruction_options (k : instruction_preset) : string :=
  match k with
  | PresetNone => ""
  | FocusConceptualClarity =>
      "Emphasize conceptual understanding of the topics."
  | IncludeNumerical =>
      "Include numerical problems or questions requiring application of formulas."
  | EmphasizeRealWorld =>
      "Generate questions that relate the concepts to real-world engineering applications."
  | IncludeMisunderstood =>
      "Focus on common misconceptions or tricky areas in the lecture topics."
  | PrioritizeDefinitions =>
      "Ask for precise definitions and terminology-based MCQs."
  | ConvertTextQuestions =>
      "Take the provided descriptive or paragraph-style questions and convert them into multiple-choice format."
  end.

(** Values of the widgets of [teacher_mcq_form]; the slider keeps
    [in_num_questions] between 3 and 10. *)
Record InputForm : Type := {
  in_subject : string;
  in_lecture_topics : string;
  in_instruction : instruction_preset;
  in_num_questions : Z;
}.

(** Values of the widgets of one question in editing mode; [option_text]
    gives the text input of each option letter. *)
Record EditForm : Type := {
  edited_question : string;
  correct_option : string;
  option_text : string → string;
  edited_explanation : string;
  edited_topic : string;
  edited_subtopic : string;
}.

(** The widget, if any, that triggered the current run of the script. *)
Inductive event : Type :=
  | NoEvent
  | Submit (form : InputForm)
  | EditBtn (i : nat)
  | RegenerateBtn (i : nat)
  | SaveBtn (i : nat) (form : EditForm)
  | CancelBtn (i : nat)
  | GenerateNewSetBtn
  | PublishBtn.

(** How a run proceeds after a statement: on to the next one, stopped by
    [st.rerun()], by [return], or by an uncaught exception. *)
Inductive control : Type :=
  | Continue
  | Rerun
  | Return
  | Aborted.

Inductive page : Type :=
  | InputPage
  | QuestionsPage.

(** The dict assigned by the Save button. *)
Definition edited (form : EditForm) (options : gmap string string) : question :=
  <["question" := FStr (edited_question form)]>
  (<["options" :=
       FOptions (map_imap (λ option _, Some (option_text form option)) options)]>
  (<["correct_answer" := FStr (correct_option form)]>
  (<["explanation" := FStr (edited_explanation form)]>
  (<["topic" := FStr (edited_topic form)]>
  (<["subtopic" := FStr (edited_subtopic form)]> ∅))))).

(** The expander title [question_data['question'][:50]]. *)
Definition render_title (question_data : question) : result unit :=
  v ←! getitem question_data "question";
  match v with
  | FStr _ => Ok tt
  | FOptions _ => Raise TypeError
  end.

(** Reading mode: the loop over [question_data['options'].items()] compares
    each letter with [question_data['correct_answer']]. *)
Definition render_view (question_data : question) : result unit :=
  options ←! options_of question_data;
  if decide (options = ∅) then Ok tt
  else (_ ←! getitem question_data "correct_answer"; Ok tt).

(** Editing mode: the select box needs the position of
    [question_data['correct_answer']] among the option letters. *)
Definition render_edit (question_data : question)
    : result (gmap string string) :=
  options ←! options_of question_data;
  c ←! getitem question_data "correct_answer";
  match c with
  | FStr c => if decide (c ∈ dom options) then Ok options else Raise ValueError
  | FOptions _ => Raise ValueError
  end.

(** Flow control of [teacher_dashboard], once the three keys are set: the
    input page when [teacher_mcqs] is [None], the questions page when
    [teacher_ready_for_review] is false, the input page otherwise. *)
Definition route (s : Session) : page :=
  match teacher_mcqs s with
  | None | Some None => InputPage
  | Some (Some _) =>
      if negb (default false (teacher_ready_for_review s)) then QuestionsPage
      else InputPage
  end.

(** [if key not in st.session_state: st.session_state[key] = default]. *)
Definition init_session (s : Session) : Session :=
  {| teacher_mcqs := Some (default None (teacher_mcqs s));
     teacher_all_mcqs := Some (default None (teacher_all_mcqs s));
     teacher_ready_for_review :=
       Some (default false (teacher_ready_for_review s));
     teacher_subject := teacher_subject s;
     teacher_lecture_topics := teacher_lecture_topics s;
     teacher_ai_instructions := teacher_ai_instructions s;
     teacher_num_questions := teacher_num_questions s;
     published_ticket := published_ticket s;
     teacher_edit_mode := teacher_edit_mode s |}.

Definition init_edit_mode (i : nat) (s : Session) : Session :=
  match teacher_edit_mode s !! i with
  | Some _ => s
  | None => set_edit_mode i false s
  end.

Definition edit_mode (i : nat) (s : Session) : bool :=
  default false (teacher_edit_mode s !! i).

(** Storing a freshly generated list under both draft keys: the two keys
    refer to one list object. *)
Definition store_draft (qs : list question) (w : World) : World :=
  let l := fresh (dom (heap w)) in
  with_session (λ s, set_mcqs (Some l) (set_all_mcqs (Some l) s))
    (with_heap (insert l qs) w).

(** *** The script *)

Section Services.

(** The API key read from the secrets file. *)
Variable GOOGLE_API_KEY : string.

(** The generative model and the two functions of [firebase_helper] the
    authoring pages call.  Each may answer differently depending on the
    calls made before.  [save_question] gives [Some e] when it raises. *)
Variable generate_content : list call → GenArgs → Reply.
Variable save_question : list call → question → string → option string.
Variable create_exit_ticket :
  list call → list question → string → string → string → Created.

(** [for q in mcqs.get("questions", []): q["subject"] = subject;
    save_question(db, q, source="ai")].  An exception leaves the loop. *)
Fixpoint attach_and_save (subject : string) (qs : list question) (w : World)
    : World * (string + list question) :=
  match qs with
  | [] => (w, inr [])
  | q :: rest =>
      let q := <["subject" := FStr subject]> q in
      let outcome := save_question (history w) q "ai" in
      let w := called (SaveQuestion q "ai") w in
      match outcome with
      | Some e => (w, inl e)
      | None =>
          let '(w, r) := attach_and_save subject rest w in
          (w, match r with inl e => inl e | inr qs' => inr (q :: qs') end)
      end
  end.

(** [generate_mcqs]: [None] is Python's [None]; [Some questions] is the
    parsed object, with the list under ["questions"] if it has that key. *)
Definition generate_mcqs (lecture_topics ai_instructions : string)
    (num_questions : Z) (subject : string) (w : World)
    : World * option (option (list question)) :=
  if negb (Py.truthy_str GOOGLE_API_KEY) then (say ErrorApiKeyNotFound w, None)
  else
    let args := {| ga_lecture_topics := lecture_topics;
                   ga_ai_instructions := ai_instructions;
                   ga_num_questions := num_questions;
                   ga_subject := subject |} in
    let reply := generate_content (history w) args in
    let w := called (GenerateContent args) w in
    match reply with
    | ReplyRaises e => (say (ErrorGeneratingMCQs e) w, None)
    | ReplyBadJson raw e => (say (ErrorParsingResponse raw e) w, None)
    | ReplyJson questions =>
        match attach_and_save subject (default [] questions) w with
        | (w, inl e) => (say (ErrorGeneratingMCQs e) w, None)
        | (w, inr qs) => (w, Some ((λ _, qs) <$> questions))
        end
    end.

Definition regenerate_teacher_question (question_index : nat)
    (subject topics instructions : string) (w : World) : World * control :=
  let '(w, mcqs) := generate_mcqs topics instructions 1 subject w in
  match mcqs with
  | Some (Some (q :: _)) =>
      (say SuccessRegenerated (assign_item question_index q w), Rerun)
  | _ => (say ErrorFailedToRegenerate w, Continue)
  end.

Definition show_teacher_input_page (ev : event) (w : World) : World * control :=
  match ev with
  | Submit form =>
      let subject := in_subject form in
      let lecture_topics := in_lecture_topics form in
      let ai_instructions := ai_instruction_options (in_instruction form) in
      let num_questions := in_num_questions form in
      if negb (Py.truthy_str (Py.strip lecture_topics)) then
        (say ErrorTopicsMissing w, Return)
      else
        let '(w, mcqs) :=
          generate_mcqs lecture_topics ai_instructions num_questions subject w in
        match mcqs with
        | Some (Some questions) =>
            if Z.of_nat (length questions) <? num_questions then
              (say (ErrorOnlyGenerated (length questions)) w, Return)
            else
              (with_session
                 (λ s, set_ready_for_review false
                         (set_inputs subject lecture_topics ai_instructions s))
                 (store_draft questions w),
               Rerun)
        | _ => (say ErrorFailedToGenerate w, Continue)
        end
  | _ => (w, Continue)
  end.

Definition publish_exit_ticket (w : World) : World :=
  match all_mcqs w with
  | None | Some [] => say ErrorNoQuestionsToPublish w
  | Some questions =>
      let teacher_name := "Professor"%string in
      let subject :=
        default "Unknown Subject"%string (teacher_subject (session_state w)) in
      let lecture_topics :=
        default "No topics specified"%string
          (teacher_lecture_topics (session_state w)) in
      let ticket :=
        create_exit_ticket (history w) questions teacher_name subject
          lecture_topics in
      let w :=
        called (CreateExitTicket questions teacher_name subject lecture_topics)
          w in
      match ticket with
      | CreateTicket t =>
          with_session
            (λ s, set_ready_for_review false
                    (set_all_mcqs None
                       (set_mcqs None (set_published_ticket t s))))
            (say (SuccessPublished t) w)
      | CreateFalsy => say ErrorFailedToPublish w
      | CreateRaises e => say (ErrorPublishing e) w
      end
  end.

(** The "Generate New Set" button. *)
Definition generate_new_set (w : World) : World :=
  let s := session_state w in
  let subject := default ""%string (teacher_subject s) in
  let topics := default ""%string (teacher_lecture_topics s) in
  let instructions := default ""%string (teacher_ai_instructions s) in
  let num_questions := default 5 (teacher_num_questions s) in
  let '(w, new_mcqs) :=
    generate_mcqs topics instructions num_questions subject w in
  match new_mcqs with
  | Some (Some questions) =>
      say SuccessNewSet
        (with_session (set_ready_for_review true) (store_draft questions w))
  | _ => say ErrorFailedNewSet w
  end.

(** One iteration of [for i, question_data in enumerate(all_mcqs)]. *)
Definition show_question (ev : event) (subject topics instructions : string)
    (i : nat) (question_data : question) (w : World) : World * control :=
  let w := with_session (init_edit_mode i) w in
  match render_title question_data with
  | Raise e => (say (Uncaught e) w, Aborted)
  | Ok _ =>
      if negb (edit_mode i (session_state w)) then
        match render_view question_data with
        | Raise e => (say (Uncaught e) w, Aborted)
        | Ok _ =>
            match ev with
            | EditBtn j =>
                if decide (j = i) then
                  (with_session (set_edit_mode i true) w, Continue)
                else (w, Continue)
            | RegenerateBtn j =>
                if decide (j = i) then
                  regenerate_teacher_question i subject topics instructions w
                else (w, Continue)
            | _ => (w, Continue)
            end
        end
      else
        match render_edit question_data with
        | Raise e => (say (Uncaught e) w, Aborted)
        | Ok options =>
            match ev with
            | SaveBtn j form =>
                if decide (j = i) then
                  (say SuccessUpdated
                     (with_session (set_edit_mode i false)
                        (assign_item i (edited form options) w)),
                   Rerun)
                else (w, Continue)
            | CancelBtn j =>
                if decide (j = i) then
                  (with_session (set_edit_mode i false) w, Rerun)
                else (w, Continue)
            | _ => (w, Continue)
            end
        end
  end.

Fixpoint show_questions (ev : event) (subject topics instructions : string)
    (i : nat) (qs : list question) (w : World) : World * control :=
  match qs with
  | [] => (w, Continue)
  | question_data :: rest =>
      match show_question ev subject topics instructions i question_data w with
      | (w, Continue) =>
          show_questions ev subject topics instructions (S i) rest w
      | stopped => stopped
      end
  end.

Definition show_teacher_questions_page (ev : event) (w : World)
    : World * control :=
  match all_mcqs w with
  | None | Some [] => (say WarningNoQuestions w, Return)
  | Some all_mcqs =>
      let s := session_state w in
      let subject := default ""%string (teacher_subject s) in
      let topics := default ""%string (teacher_lecture_topics s) in
      let instructions := default ""%string (teacher_ai_instructions s) in
      match show_questions ev subject topics instructions 0 all_mcqs w with
      | (w, Continue) =>
          match ev with
          | GenerateNewSetBtn => (generate_new_set w, Continue)
          | PublishBtn => (publish_exit_ticket w, Continue)
          | _ => (w, Continue)
          end
      | stopped => stopped
      end
  end.

(** One run of the script on the "Create Exit Ticket" page. *)
Definition teacher_dashboard (ev : event) (w : World) : World * control :=
  let w := with_session init_session (clear_screen w) in
  match route (session_state w) with
  | InputPage => show_teacher_input_page ev w
  | QuestionsPage => show_teacher_questions_page ev w
  end.

(** A user interaction: the run it triggers and, after [st.rerun()], the
    run that follows with no widget triggered. *)
Definition interact (ev : event) (w : World) : World :=
  match teacher_dashboard ev w with
  | (w, Rerun) => (teacher_dashboard NoEvent w).1
  | (w, _) => w
  end.

Fixpoint interactions (evs : list event) (w : World) : World :=
  match evs with
  | [] => w
  | ev :: rest => interactions rest (interact ev w)
  end.

End Services.

(** The state of the authoring workflow is the page the router shows. *)
Inductive state : Type :=
  | Input
  | Reviewing.

Definition workflow_state (w : World) : state :=
  match route (init_session (session_state w)) with
  | InputPage => Input
  | QuestionsPage => Reviewing
  end.

End Workflow.

(** ** Vocabulary of the statements and invariants *)

Import Flags Workflow.

Definition is_ok {A} (r : result A) : bool :=
  match r with Ok _ => true | Raise _ => false end.

(** The indices of a question list, [0 .. len(questions) - 1]. *)
Definition indices (questions : list question) : list Z :=
  seqZ 0 (Z.of_nat (length questions)).

Definition flag_count_at (st : FlagStats) (i : Z) : nat :=
  from_option flag_count 0%nat (question_flag_details st !! i).

Definition flagged_by_at (st : FlagStats) (i : Z) : list string :=
  from_option flagged_by [] (question_flag_details st !! i).

(** An item of a flags dict that flags question [i]: a truthy value under a
    key that denotes [i]. *)
Definition flags_index (i : Z) (e : Py.key * bool) : bool :=
  match Py.int e.1 with
  | Ok j => e.2 && (j =? i)
  | Raise _ => false
  end.

(** The names of the flagging responses of question [i], in the order of
    the response list, one per flagging item. *)
Definition flagging_names (i : Z) (rs : list StudentResponse) : list string :=
  r ← rs; (λ _, name_of r) <$> filter (λ e, flags_index i e = true) (flags_of r).

(** The responses that flag question [i], in the order of the list. *)
Definition flagging_responses (i : Z) (rs : list StudentResponse)
    : list StudentResponse :=
  filter (λ r, existsb (flags_index i) (flags_of r) = true) rs.

(** Every truthy flag has a key [int] accepts. *)
Definition decodable_flags (rs : list StudentResponse) : bool :=
  forallb (λ r, forallb (λ e : Py.key * bool, negb e.2 || is_ok (Py.int e.1))
                  (flags_of r)) rs.

(** The key of a dict item denotes an index of [questions]. *)
Definition key_in_range {V} (questions : list question) (e : Py.key * V) : bool :=
  match Py.int e.1 with
  | Ok i => (0 <=? i) && (i <? Z.of_nat (length questions))
  | Raise _ => false
  end.

(** The key of a dict item denotes a non-negative integer. *)
Definition natural_key {V} (e : Py.key * V) : bool :=
  match Py.int e.1 with
  | Ok i => 0 <=? i
  | Raise _ => false
  end.

(** A response without the flags that lie outside the question list. *)
Definition flags_within (questions : list question) (r : StudentResponse)
    : StudentResponse :=
  {| student_name := student_name r;
     flags := Some (filter (λ e, key_in_range questions e = true) (flags_of r));
     responses := responses r |}.

(** A response without the answers that lie outside the question list. *)
Definition answers_within (questions : list question) (r : StudentResponse)
    : StudentResponse :=
  {| student_name := student_name r;
     flags := flags r;
     responses :=
       Some (filter (λ e, key_in_range questions e = true) (answers_of r)) |}.

(** Increment of the count of question [q], seen from question [i]. *)
Definition bump (q i : Z) : nat := if decide (i = q) then 1%nat else 0%nat.

(** Invariant of the counting loops: the details dict has the indices of
    [idx], the running total is the sum of the per-question counts, and each
    count is the length of its list of names. *)
Definition tallied (idx : list Z) (st : FlagStats) : Prop :=
  (∀ i, is_Some (question_flag_details st !! i) ↔ i ∈ idx)
  ∧ total_flags st = sum_list (flag_count_at st <$> idx)
  ∧ ∀ i, flag_count_at st i = length (flagged_by_at st i).

(** A stored question has a text under ["correct_answer"] and a mapping
    under ["options"]. *)
Definition answerable (q : question) : bool :=
  match q !! "correct_answer"%string, q !! "options"%string with
  | Some (FStr _), Some (FOptions _) => true
  | _, _ => false
  end.

(** The value [f] takes on what a computation returns, if it returns. *)
Definition on_result {A B} (f : A → B) (r : result A) : option B :=
  match r with Ok a => Some (f a) | Raise _ => None end.

(** The session keys other than the per-question editing flags. *)
Definition forget_edit_mode (s : Session) : Session :=
  {| teacher_mcqs := teacher_mcqs s; teacher_all_mcqs := teacher_all_mcqs s;
     teacher_ready_for_review := teacher_ready_for_review s;
     teacher_subject := teacher_subject s;
     teacher_lecture_topics := teacher_lecture_topics s;
     teacher_ai_instructions := teacher_ai_instructions s;
     teacher_num_questions := teacher_num_questions s;
     published_ticket := published_ticket s;
     teacher_edit_mode := ∅ |}.

(** The counts passed to the generator, oldest call first. *)
Definition requested_counts (w : World) : list Z :=
  omap (λ c, match c with
             | GenerateContent args => Some (ga_num_questions args)
             | _ => None
             end) (history w).


(** ** Sample data *)

Module Sample.

Definition options : gmap string string :=
  <["A"%string := "TCP"%string]> (<["B"%string := "UDP"%string]>
  (<["C"%string := "ICMP"%string]> (<["D"%string := "ARP"%string]> ∅))).

Definition mcq (text : string) : question :=
  <["question"%string := FStr text]>
  (<["options"%string := FOptions options]>
  (<["correct_answer"%string := FStr "A"]> ∅)).

(** A generator that returns [n] questions whatever count is asked for. *)
Definition generator (n : nat) (_ : list call) (_ : GenArgs) : Reply :=
  ReplyJson (Some (replicate n (mcq "Which protocol is connection-oriented?"))).

(** A generator that returns as many questions as asked for. *)
Definition obedient (_ : list call) (args : GenArgs) : Reply :=
  ReplyJson (Some (replicate (Z.to_nat (ga_num_questions args))
                     (mcq "Which protocol is connection-oriented?"))).

Definition save_ok (_ : list call) (_ : question) (_ : string) : option string :=
  None.


Definition ticket (n : nat) : Ticket :=
  {| ticket_id := "ABC123"; ticket_title := "Exit Ticket";
     ticket_subject := "Networking"; ticket_total_questions := n |}.

Definition create_ok (_ : list call) (questions : list question)
    (_ _ _ : string) : Created :=
  CreateTicket (ticket (length questions)).

Definition create_down (_ : list call) (_ : list question) (_ _ _ : string)
    : Created :=
  CreateRaises "deadline exceeded".

Definition input (n : Z) : InputForm :=
  {| in_subject := "Networking";
     in_lecture_topics := "OSI model, TCP handshake";
     in_instruction := PresetNone;
     in_num_questions := n |}.

Definition edit : EditForm :=
  {| edited_question := "Which protocol uses a three-way handshake?";
     correct_option := "A";
     option_text := λ option, (option +:+ " (edited)")%string;
     edited_explanation := "TCP opens with SYN, SYN-ACK, ACK.";
     edited_topic := "Transport layer";
     edited_subtopic := "TCP" |}.

(** Responses of the flag scenario: A flags questions 0 and 2, B flags
    question 0. *)
Definition response_A : StudentResponse :=
  {| student_name := Some "Asha"%string;
     flags := Some [(Py.KStr "0", true); (Py.KStr "2", true)];
     responses := Some [(Py.KStr "0", "A"%string); (Py.KStr "5", "B"%string)] |}.

Definition response_B : StudentResponse :=
  {| student_name := Some "Bilal"%string;
     flags := Some [(Py.KInt 0, true); (Py.KStr "7", true)];
     responses := None |}.

(** A response whose flags dict has a key that is not a number. *)
Definition response_malformed : StudentResponse :=
  {| student_name := Some "Chen"%string;
     flags := Some [(Py.KStr "first", true)];
     responses := None |}.

(** A response whose flags dict names question 0 under two keys. *)
Definition response_twice : StudentResponse :=
  {| student_name := Some "Dana"%string;
     flags := Some [(Py.KStr "0", true); (Py.KStr "00", true)];
     responses := None |}.

Definition three_questions : list question :=
  [mcq "Q one?"; mcq "Q two?"; mcq "Q three?"].

Definition api_key : string := "sample-api-key".

(** A session from its first run, with a generator that returns as many
    questions as asked for. *)
Definition session (evs : list event) : World :=
  interactions api_key obedient save_ok create_ok evs empty_world.

(** The first page, before any widget is used. *)
Definition first_page : World := session [NoEvent].

End Sample.

(** ** More of the script

    The parts of [src/app.py] around the code above: the text handed to
    [json.loads], the flag section and the response headers of
    [view_ticket_analytics], and [view_published_tickets_page]. *)

Module Text.

(** [s.find(c)] for a one-character [c]: the first position, or -1. *)
Fixpoint find (c : ascii) (s : string) : Z :=
  match s with
  | EmptyString => -1
  | String a s' =>
      if Ascii.eqb a c then 0
      else let r := find c s' in if r <? 0 then -1 else r + 1
  end.

(** [s.rfind(c)]: the last position, or -1. *)
Fixpoint rfind (c : ascii) (s : string) : Z :=
  match s with
  | EmptyString => -1
  | String a s' =>
      let r := rfind c s' in
      if 0 <=? r then r + 1 else if Ascii.eqb a c then 0 else -1
  end.

(** [s[start:stop]]: a negative bound counts from the end, and both bounds
    are brought back into the string. *)
Definition slice (s : string) (start stop : Z) : string :=
  let n := Z.of_nat (String.length s) in
  let bound i := if i <? 0 then Z.max 0 (n + i) else Z.min i n in
  substring (Z.to_nat (bound start)) (Z.to_nat (bound stop - bound start)) s.

(** The text [generate_mcqs] parses: from the first opening brace to the
    last closing brace of the reply. *)
Definition extract_json (response_text : string) : string :=
  let start_idx := find "{" response_text in
  let end_idx := rfind "}" response_text + 1 in
  slice response_text start_idx end_idx.

(** [c in s]. *)
Fixpoint occurs (c : ascii) (s : string) : bool :=
  match s with
  | EmptyString => false
  | String a s' => Ascii.eqb a c || occurs c s'
  end.

(** Every character of [s] is white space. *)
Fixpoint blank (s : string) : bool :=
  match s with
  | EmptyString => true
  | String a s' => Py.is_space a && blank s'
  end.

End Text.

Module Analytics.

(** [len([f for f in student_flags.values() if f])], the count in the header
    of a response. *)
Definition student_flag_count (r : StudentResponse) : nat :=
  length (filter (λ e : Py.key * bool, e.2 = true) (flags_of r)).

(** The expanders of "Flags per Question": the entries of the details dict
    with a positive count.  The dict was filled in the order of the
    indices, which is the order of its items. *)
Definition flagged_entries (questions : list question) (st : FlagStats)
    : list (Z * QuestionFlagDetail) :=
  filter (λ p : Z * QuestionFlagDetail, (0 < flag_count p.2)%nat)
    (omap (λ i, (λ d, (i, d)) <$> question_flag_details st !! i)
       (indices questions)).

(** What the flag section of [view_ticket_analytics] shows: nothing without
    responses or without flags, else the two metrics and the expanders. *)
Record FlagSection : Type := {
  metric_total_flags : nat;
  metric_flagged : nat * nat;
  expanders : list (Z * QuestionFlagDetail);
}.

Definition flag_section (total_responses : Z) (rs : list StudentResponse)
    (questions : list question) : result (option FlagSection) :=
  if 0 <? total_responses then
    flag_stats ←! calculate_flag_statistics rs questions;
    if (0 <? total_flags flag_stats)%nat then
      Ok (Some {| metric_total_flags := total_flags flag_stats;
                  metric_flagged :=
                    (flagged_questions flag_stats, length questions);
                  expanders := flagged_entries questions flag_stats |})
    else Ok None
  else Ok None.

End Analytics.

Module Tickets.

Import Analytics.

(** What the preview of a published ticket prints. *)
Inductive preview_line : Type :=
  | PreviewHeader
  | PreviewQuestion (number : nat) (question_text : field)
  | PreviewMore (remaining : nat).

(** [if len(question_text) > 60: question_text = question_text[:60] + "..."].
    A mapping of more than 60 entries cannot be sliced: the subscript
    raises (a [TypeError] up to Python 3.11, where a slice is unhashable). *)
Definition shorten (question_text : field) : result field :=
  match question_text with
  | FStr s =>
      if (60 <? String.length s)%nat then
        Ok (FStr (substring 0 60 s +:+ "..."))
      else Ok (FStr s)
  | FOptions o =>
      if (60 <? size o)%nat then Raise TypeError else Ok (FOptions o)
  end.

(** [for i, q in enumerate(questions[:2])], from index [i]. *)
Fixpoint preview_lines (i : nat) (qs : list question)
    : result (list preview_line) :=
  match qs with
  | [] => Ok []
  | q :: rest =>
      question_text ←!
        shorten (default (FStr "No question text") (q !! "question"%string));
      ls ←! preview_lines (S i) rest;
      Ok (PreviewQuestion (S i) question_text :: ls)
  end.

(** The "Questions Preview" of one ticket. *)
Definition questions_preview (questions : list question)
    : result (list preview_line) :=
  match questions with
  | [] => Ok []
  | _ =>
      ls ←! preview_lines 0 (take 2 questions);
      Ok (PreviewHeader :: ls
            ++ (if (2 <? length questions)%nat
                then [PreviewMore (length questions - 2)] else []))
  end.

(** A ticket as listed by [get_all_tickets_by_teacher]: its code, its
    status when it has one, and its questions ([[]] when it has none). *)
Record Listed : Type := {
  listed_id : string;
  listed_status : option string;
  listed_questions : list question;
}.

(** What the page reads of the answer of [get_ticket_analytics]. *)
Record TicketAnalytics : Type := {
  total_responses : Z;
  stored_responses : option (list StudentResponse);
}.

(** Calls to the repository. *)
Inductive request : Type :=
  | GetAllTickets (teacher_name : string)
  | GetExitTicket (ticket_id : string)
  | GetTicketAnalytics (ticket_id : string)
  | UpdateTicketStatus (ticket_id status : string).

(** The buttons of the page; at most one is pressed in a run. *)
Inductive button : Type :=
  | NoButton
  | BackBtn
  | CopyCodeBtn (idx : nat)
  | ViewAnalyticsBtn (idx : nat)
  | DeactivateBtn (idx : nat)
  | ActivateBtn (idx : nat).

#[global] Instance button_eq_dec : EqDecision button.
Proof. solve_decision. Defined.

(** The ticket whose column holds the pressed button. *)
Definition pressed (b : button) : option nat :=
  match b with
  | CopyCodeBtn idx | ViewAnalyticsBtn idx | DeactivateBtn idx
  | ActivateBtn idx => Some idx
  | NoButton | BackBtn => None
  end.

Inductive message : Type :=
  | InfoNoTickets
  | CodeReady (ticket_id : string)
  | SuccessDeactivated
  | ErrorDeactivate
  | SuccessActivated
  | ErrorActivate
  | QuestionsPreview (ls : list preview_line)
  | ErrorTicketNotFound
  | FlagAnalysis (s : FlagSection)
  | ResponseExpander (name : string) (flag_count : nat) (answers : list line)
  | InfoNoResponses.

(** The session key of the page, the requests made so far, and what the
    current run has printed. *)
Record Page : Type := {
  show_analytics_for : option string;
  requests : list request;
  messages : list message;
}.

Definition requested (r : request) (p : Page) : Page :=
  {| show_analytics_for := show_analytics_for p;
     requests := requests p ++ [r];
     messages := messages p |}.

Definition printed (m : message) (p : Page) : Page :=
  {| show_analytics_for := show_analytics_for p;
     requests := requests p;
     messages := messages p ++ [m] |}.

Definition set_show_analytics_for (v : option string) (p : Page) : Page :=
  {| show_analytics_for := v; requests := requests p;
     messages := messages p |}.

Definition start_run (p : Page) : Page :=
  {| show_analytics_for := show_analytics_for p; requests := requests p;
     messages := [] |}.

(** The status changes asked of the repository, oldest first. *)
Definition updates (rs : list request) : list (string * string) :=
  omap (λ r, match r with
             | UpdateTicketStatus ticket_id status => Some (ticket_id, status)
             | _ => None
             end) rs.

Section Repository.

(** The functions of [firebase_helper] whose answers the page branches on;
    each may depend on the requests made before, and each is taken to
    return, with the keys the page subscripts ([ticket_id],
    [total_responses], [average_score]).  [get_exit_ticket] gives the
    questions of the ticket ([ticket_data.get('questions', [])]), or [None]
    for a ticket that is not found. *)
Variable get_all_tickets_by_teacher : list request → string → list Listed.
Variable update_ticket_status : list request → string → string → bool.
Variable get_exit_ticket : list request → string → option (list question).
Variable get_ticket_analytics : list request → string → TicketAnalytics.

(** [for i, response in enumerate(responses)]: one expander per response,
    with the flag count in its header.  The score and the time stamp of a
    response are left out. *)
Fixpoint show_responses (questions : list question)
    (rs : list StudentResponse) (p : Page) : Page * control :=
  match rs with
  | [] => (p, Continue)
  | response :: rest =>
      let flag_count := student_flag_count response in
      match response_detail questions response with
      | Ok ls =>
          show_responses questions rest
            (printed (ResponseExpander (name_of response) flag_count ls) p)
      | Raise _ => (p, Aborted)
      end
  end.

Definition view_ticket_analytics (ticket_id : string) (p : Page)
    : Page * control :=
  let ticket_data := get_exit_ticket (requests p) ticket_id in
  let p := requested (GetExitTicket ticket_id) p in
  match ticket_data with
  | None => (printed ErrorTicketNotFound p, Continue)
  | Some questions =>
      let analytics := get_ticket_analytics (requests p) ticket_id in
      let p := requested (GetTicketAnalytics ticket_id) p in
      let responses := default [] (stored_responses analytics) in
      match flag_section (total_responses analytics) responses questions with
      | Raise _ => (p, Aborted)
      | Ok section =>
          let p :=
            match section with
            | Some s => printed (FlagAnalysis s) p
            | None => p
            end in
          if 0 <? total_responses analytics then
            show_responses questions responses p
          else (printed InfoNoResponses p, Continue)
      end
  end.

(** The column of buttons of ticket [idx]. *)
Definition ticket_buttons (b : button) (idx : nat) (ticket : Listed) (p : Page)
    : Page * control :=
  let p :=
    match b with
    | CopyCodeBtn i =>
        if decide (i = idx) then printed (CodeReady (listed_id ticket)) p else p
    | _ => p
    end in
  match b with
  | ViewAnalyticsBtn i =>
      if decide (i = idx) then
        (set_show_analytics_for (Some (listed_id ticket)) p, Rerun)
      else (p, Continue)
  | _ =>
      if decide (listed_status ticket = Some "active"%string) then
        match b with
        | DeactivateBtn i =>
            if decide (i = idx) then
              let ok :=
                update_ticket_status (requests p) (listed_id ticket) "inactive" in
              let p :=
                requested (UpdateTicketStatus (listed_id ticket) "inactive") p in
              if ok then (printed SuccessDeactivated p, Rerun)
              else (printed ErrorDeactivate p, Continue)
            else (p, Continue)
        | _ => (p, Continue)
        end
      else
        match b with
        | ActivateBtn i =>
            if decide (i = idx) then
              let ok :=
                update_ticket_status (requests p) (listed_id ticket) "active" in
              let p :=
                requested (UpdateTicketStatus (listed_id ticket) "active") p in
              if ok then (printed SuccessActivated p, Rerun)
              else (printed ErrorActivate p, Continue)
            else (p, Continue)
        | _ => (p, Continue)
        end
  end.

(** The expander of ticket [idx]: the response count, the buttons, then the
    preview of its questions. *)
Definition ticket_expander (b : button) (idx : nat) (ticket : Listed)
    (p : Page) : Page * control :=
  let p := requested (GetTicketAnalytics (listed_id ticket)) p in
  let '(p, c) := ticket_buttons b idx ticket p in
  match c with
  | Continue =>
      match questions_preview (listed_questions ticket) with
      | Ok [] => (p, Continue)
      | Ok ls => (printed (QuestionsPreview ls) p, Continue)
      | Raise _ => (p, Aborted)
      end
  | _ => (p, c)
  end.

(** [for idx, ticket in enumerate(tickets)]. *)
Fixpoint list_tickets (b : button) (idx : nat) (tickets : list Listed)
    (p : Page) : Page * control :=
  match tickets with
  | [] => (p, Continue)
  | ticket :: rest =>
      let '(p, c) := ticket_expander b idx ticket p in
      match c with
      | Continue => list_tickets b (S idx) rest p
      | _ => (p, c)
      end
  end.

Definition view_published_tickets_page (b : button) (p : Page)
    : Page * control :=
  let p := start_run p in
  let teacher_name := "Professor"%string in
  let tickets := get_all_tickets_by_teacher (requests p) teacher_name in
  let p := requested (GetAllTickets teacher_name) p in
  match tickets with
  | [] => (printed InfoNoTickets p, Return)
  | _ =>
      match show_analytics_for p with
      | Some ticket_id =>
          let '(p, c) := view_ticket_analytics ticket_id p in
          match c with
          | Continue =>
              match b with
              | BackBtn => (set_show_analytics_for None p, Rerun)
              | _ => (p, Return)
              end
          | _ => (p, c)
          end
      | None => list_tickets b 0 tickets p
      end
  end.

End Repository.

End Tickets.

(** ** More vocabulary *)

(** The question whose buttons an event belongs to. *)
Definition targets (ev : event) (k : nat) : bool :=
  match ev with
  | EditBtn j | RegenerateBtn j | SaveBtn j _ | CancelBtn j => bool_decide (j = k)
  | _ => false
  end.

(** What drawing one question evaluates, in reading or in editing mode. *)
Definition render_question (editing : bool) (q : question) : result unit :=
  _ ←! render_title q;
  if editing then (_ ←! render_edit q; Ok tt) else render_view q.

(** A question that can be drawn in both modes: it has a text, a mapping of
    options, and a correct answer among the option letters. *)
Definition well_formed (q : question) : bool :=
  is_ok (render_title q) && is_ok (render_edit q).

(** [init_edit_mode] for the questions [k .. k + n - 1]. *)
Fixpoint init_edit_modes (k n : nat) (s : Session) : Session :=
  match n with
  | O => s
  | S n => init_edit_modes (S k) n (init_edit_mode k s)
  end.

(** The two draft keys hold the same value, and the list they refer to
    exists. *)
Definition coherent (w : World) : Prop :=
  teacher_mcqs (session_state w) = teacher_all_mcqs (session_state w)
  ∧ ∀ l, teacher_all_mcqs (session_state w) = Some (Some l) →
         is_Some (heap w !! l).

(** The calls a successful or failed [generate_mcqs] makes for the first
    [k] questions of a reply. *)
Definition generation_calls (args : GenArgs) (qs : list question) (k : nat)
    : list call :=
  GenerateContent args
  :: ((λ q, SaveQuestion (<["subject"%string := FStr (ga_subject args)]> q) "ai")
        <$> take k qs).

(** ** More sample data *)

Module Scenario.

Import Tickets.

(** A reply with a remark before and after the object. *)
Definition reply_text : string := "Sure: { questions: [] } done".

(** A question without a text, and a generator that returns such
    questions. *)
Definition untitled : question :=
  <["options"%string := FOptions Sample.options]>
  (<["correct_answer"%string := FStr "A"]> ∅).

Definition careless (_ : list call) (args : GenArgs) : Reply :=
  ReplyJson (Some (replicate (Z.to_nat (ga_num_questions args)) untitled)).

Definition blank_input : InputForm :=
  {| in_subject := "Networking";
     in_lecture_topics := "   ";
     in_instruction := PresetNone;
     in_num_questions := 3 |}.

(** A response whose flags dict was built in memory, with an integer key. *)
Definition response_C : StudentResponse :=
  {| student_name := Some "Chen"%string;
     flags := Some [(Py.KInt 1, true)];
     responses := Some [(Py.KStr "1", "B"%string)] |}.

(** Two published tickets, and a repository that lists them. *)
Definition listed : list Listed :=
  [ {| listed_id := "ABC123"; listed_status := Some "active"%string;
       listed_questions := Sample.three_questions |};
    {| listed_id := "XYZ789"; listed_status := Some "inactive"%string;
       listed_questions := [] |} ].

Definition all_tickets (_ : list request) (_ : string) : list Listed := listed.

Definition update_ok (_ : list request) (_ _ : string) : bool := true.

Definition exit_ticket (_ : list request) (_ : string)
    : option (list question) :=
  Some Sample.three_questions.

Definition analytics_of (rs : list StudentResponse) (_ : list request)
    (_ : string) : TicketAnalytics :=
  {| total_responses := Z.of_nat (length rs); stored_responses := Some rs |}.

Definition list_page : Page :=
  {| show_analytics_for := None; requests := []; messages := [] |}.

Definition analytics_page : Page :=
  {| show_analytics_for := Some "ABC123"%string; requests := [];
     messages := [] |}.

End Scenario.

(** ** Flag aggregation: the counting loops *)

Lemma init_details_outside qs : ∀ i d j,
  ¬ (i ≤ j < i + Z.of_nat (length qs)) → init_details i qs d !! j = d !! j.
Proof.
  induction qs as [|q qs IH]; intros i d j Hj; simpl in *; [done|].
  rewrite IH by lia. apply lookup_insert_ne. lia.
Qed.

Lemma init_details_inside qs : ∀ i d j,
  i ≤ j < i + Z.of_nat (length qs) →
  ∃ t, init_details i qs d !! j
       = Some {| question_text := t; flag_count := 0; flagged_by := [] |}.
Proof.
  induction qs as [|q qs IH]; intros i d j Hj; simpl in *; [lia|].
  destruct (decide (j = i)) as [->|Hne].
  - rewrite init_details_outside by lia. rewrite lookup_insert_eq. eauto.
  - apply IH. lia.
Qed.

Lemma elem_of_indices questions i :
  i ∈ indices questions ↔ 0 ≤ i < Z.of_nat (length questions).
Proof. unfold indices. rewrite elem_of_seqZ. lia. Qed.

Lemma NoDup_indices questions : NoDup (indices questions).
Proof. apply NoDup_seqZ. Qed.

Lemma sum_list_bump (f g : Z → nat) (q : Z) (idx : list Z) :
  NoDup idx → q ∈ idx → (∀ i, g i = (f i + bump q i)%nat) →
  sum_list (g <$> idx) = (sum_list (f <$> idx) + 1)%nat.
Proof.
  intros Hnd Hq Hg. induction Hnd as [|x l Hx Hnd IH]; [by inversion Hq|].
  csimpl. rewrite Hg. unfold bump at 1. apply elem_of_cons in Hq. case_decide.
  - subst x. assert (g <$> l = f <$> l) as ->; [|lia].
    apply list_fmap_ext. intros _ i Hi%list_elem_of_lookup_2. rewrite Hg. unfold bump.
    case_decide; [congruence|lia].
  - destruct Hq as [->|Hq]; [done|]. rewrite IH by done. lia.
Qed.

Lemma add_flag_outside name q st :
  question_flag_details st !! q = None → add_flag name q st = st.
Proof. intros H. unfold add_flag. by rewrite H. Qed.

Lemma add_flag_is_Some name q st i :
  is_Some (question_flag_details (add_flag name q st) !! i)
  ↔ is_Some (question_flag_details st !! i).
Proof.
  unfold add_flag. destruct (question_flag_details st !! q) as [d|] eqn:Hq; [|done].
  simpl. destruct (decide (q = i)) as [->|Hne].
  - rewrite lookup_insert_eq, Hq. split; eauto.
  - by rewrite lookup_insert_ne.
Qed.

Lemma add_flag_flagged_by name q st i :
  is_Some (question_flag_details st !! q) →
  flagged_by_at (add_flag name q st) i
  = flagged_by_at st i ++ (if decide (i = q) then [name] else []).
Proof.
  intros [d Hq]. unfold flagged_by_at, add_flag. rewrite Hq. simpl.
  case_decide as Hi.
  - subst i. by rewrite lookup_insert_eq, Hq.
  - rewrite lookup_insert_ne by done. by rewrite app_nil_r.
Qed.

Lemma add_flag_flag_count name q st i :
  is_Some (question_flag_details st !! q) →
  flag_count_at (add_flag name q st) i = (flag_count_at st i + bump q i)%nat.
Proof.
  intros [d Hq]. unfold flag_count_at, add_flag, bump. rewrite Hq. simpl.
  case_decide as Hi.
  - subst i. by rewrite lookup_insert_eq, Hq.
  - rewrite lookup_insert_ne by done. lia.
Qed.

Lemma add_flag_tallied idx name q st :
  NoDup idx → tallied idx st → tallied idx (add_flag name q st).
Proof.
  intros Hnd (Hdom & Htot & Hlen).
  destruct (question_flag_details st !! q) as [d|] eqn:Hq.
  2:{ by rewrite add_flag_outside. }
  assert (is_Some (question_flag_details st !! q)) as Hs by eauto.
  split; [|split].
  - intros i. by rewrite add_flag_is_Some.
  - rewrite (sum_list_bump (flag_count_at st) _ q idx Hnd).
    + rewrite <- Htot. unfold add_flag. by rewrite Hq.
    + by apply Hdom.
    + intros i. by apply add_flag_flag_count.
  - intros i. rewrite add_flag_flag_count, add_flag_flagged_by by done.
    rewrite length_app, Hlen. unfold bump. by case_decide.
Qed.

Lemma flags_index_spec i k b :
  flags_index i (k, b) = true ↔ b = true ∧ Py.int k = Ok i.
Proof.
  unfold flags_index. simpl. destruct (Py.int k) as [j|e].
  - rewrite andb_true_iff, Z.eqb_eq. intuition congruence.
  - intuition congruence.
Qed.

Lemma count_flags_spec idx name items : ∀ st,
  NoDup idx → tallied idx st →
  forallb (λ e : Py.key * bool, negb e.2 || is_ok (Py.int e.1)) items = true →
  ∃ st', count_flags name items st = Ok st'
    ∧ tallied idx st'
    ∧ ∀ i, i ∈ idx →
        flagged_by_at st' i
        = flagged_by_at st i
          ++ ((λ _, name) <$> filter (λ e, flags_index i e = true) items).
Proof.
  induction items as [|[k b] items IH]; intros st Hnd Hst Hok.
  - exists st. split_and!; [done..|]. intros i _. by rewrite app_nil_r.
  - simpl in Hok. apply andb_true_iff in Hok as [Hk Hok]. simpl.
    destruct b; simpl in Hk.
    + destruct (Py.int k) as [q|e] eqn:Hint; [|done]. simpl.
      destruct (IH (add_flag name q st) Hnd (add_flag_tallied _ _ _ _ Hnd Hst) Hok)
        as (st' & Hrun & Htal & Hby).
      exists st'. split_and!; [done..|]. intros i Hi. rewrite Hby by done.
      rewrite filter_cons. destruct (decide (i = q)) as [->|Hne].
      * rewrite decide_True by (apply flags_index_spec; done).
        rewrite add_flag_flagged_by by (by apply Hst).
        rewrite decide_True by done. by rewrite <- app_assoc.
      * rewrite decide_False.
        2:{ rewrite flags_index_spec. intros [_ ?]. congruence. }
        destruct (question_flag_details st !! q) as [d|] eqn:Hq.
        -- rewrite add_flag_flagged_by by eauto. rewrite decide_False by done.
           by rewrite app_nil_r.
        -- by rewrite add_flag_outside.
    + destruct (IH st Hnd Hst Hok) as (st' & Hrun & Htal & Hby).
      exists st'. split_and!; [done..|]. intros i Hi. rewrite Hby by done.
      rewrite filter_cons, decide_False; [done|].
      rewrite flags_index_spec. intuition congruence.
Qed.

Lemma flagging_names_cons i r rs :
  flagging_names i (r :: rs)
  = ((λ _, name_of r) <$> filter (λ e, flags_index i e = true) (flags_of r))
    ++ flagging_names i rs.
Proof. reflexivity. Qed.

Lemma count_responses_spec idx rs : ∀ st,
  NoDup idx → tallied idx st → decodable_flags rs = true →
  ∃ st', count_responses rs st = Ok st'
    ∧ tallied idx st'
    ∧ ∀ i, i ∈ idx →
        flagged_by_at st' i = flagged_by_at st i ++ flagging_names i rs.
Proof.
  induction rs as [|r rs IH]; intros st Hnd Hst Hok.
  - exists st. split_and!; [done..|]. intros i _. by rewrite app_nil_r.
  - simpl in Hok. apply andb_true_iff in Hok as [Hr Hok].
    destruct (count_flags_spec idx (name_of r) (flags_of r) st Hnd Hst Hr)
      as (st1 & Hrun1 & Htal1 & Hby1).
    destruct (IH st1 Hnd Htal1 Hok) as (st' & Hrun & Htal & Hby).
    exists st'. cbn [count_responses]. rewrite Hrun1. split_and!; [done..|].
    intros i Hi. rewrite Hby, Hby1 by done.
    by rewrite flagging_names_cons, app_assoc.
Qed.

Lemma length_filter_fmap {A B} (f : A → B) (P : B → Prop) (Q : A → Prop)
    `{∀ y, Decision (P y)} `{∀ x, Decision (Q x)} (l : list A) :
  (∀ x, x ∈ l → (P (f x) ↔ Q x)) →
  length (filter P (f <$> l)) = length (filter Q l).
Proof.
  induction l as [|x l IH]; intros HPQ; [done|].
  rewrite fmap_cons, !filter_cons.
  assert (P (f x) ↔ Q x) as Hx by (apply HPQ; left).
  assert (length (filter P (f <$> l)) = length (filter Q l)) as IH'.
  { apply IH. intros y Hy. apply HPQ. by right. }
  destruct (decide (P (f x))), (decide (Q x)); simpl; intuition congruence.
Qed.

Lemma count_flagged_indices idx st :
  NoDup idx → tallied idx st →
  count_flagged (question_flag_details st)
  = length (filter (λ i, (0 < flag_count_at st i)%nat) idx).
Proof.
  intros Hnd (Hdom & _ & _). unfold count_flagged.
  set (d := question_flag_details st) in *.
  transitivity (length (filter (λ p : Z * QuestionFlagDetail,
                                  (0 < flag_count_at st p.1)%nat) (map_to_list d))).
  { apply length_filter_fmap. intros [i x] Hix%elem_of_map_to_list. simpl.
    unfold flag_count_at. fold d. by rewrite Hix. }
  transitivity (length (filter (λ i, (0 < flag_count_at st i)%nat)
                          (map_to_list d).*1)).
  { symmetry. by apply length_filter_fmap. }
  apply Permutation_length, filter_Permutation, NoDup_Permutation; [|done|].
  - apply NoDup_fst_map_to_list.
  - intros i. rewrite <- Hdom, list_elem_of_fmap. split.
    + intros ([j x] & -> & Hx%elem_of_map_to_list). eauto.
    + intros [x Hx]. exists (i, x). by rewrite elem_of_map_to_list.
Qed.

Lemma tallied_initial questions :
  tallied (indices questions)
    {| total_flags := 0; flagged_questions := 0;
       question_flag_details := init_details 0 questions ∅ |}.
Proof.
  assert (∀ i, flag_count_at
                 {| total_flags := 0; flagged_questions := 0;
                    question_flag_details := init_details 0 questions ∅ |} i
               = 0%nat
             ∧ flagged_by_at
                 {| total_flags := 0; flagged_questions := 0;
                    question_flag_details := init_details 0 questions ∅ |} i
               = []) as Hzero.
  { intros i. unfold flag_count_at, flagged_by_at. simpl.
    destruct (decide (0 ≤ i < 0 + Z.of_nat (length questions))) as [Hi|Hi].
    - by destruct (init_details_inside questions 0 ∅ i Hi) as [t ->].
    - by rewrite init_details_outside, lookup_empty. }
  split; [|split].
  - intros i. rewrite elem_of_indices. simpl. split.
    + intros Hs. destruct (decide (0 ≤ i < 0 + Z.of_nat (length questions)));
        [lia|]. rewrite init_details_outside, lookup_empty in Hs by done.
      by destruct Hs.
    + intros Hi. destruct (init_details_inside questions 0 ∅ i) as [t ->];
        [lia|eauto].
  - simpl. induction (indices questions) as [|i l IH]; [done|].
    csimpl. rewrite <- IH. by rewrite (proj1 (Hzero i)).
  - intros i. destruct (Hzero i) as [-> ->]. done.
Qed.

(** At most one flagging item per response: the names are those of the
    flagging responses. *)
Lemma flagging_names_responses i rs :
  Forall (λ r, (length (filter (λ e, flags_index i e = true) (flags_of r)) ≤ 1)%nat) rs →
  flagging_names i rs = name_of <$> flagging_responses i rs.
Proof.
  induction 1 as [|r rs Hr _ IH]; [done|].
  rewrite flagging_names_cons, IH. unfold flagging_responses.
  rewrite filter_cons.
  assert (existsb (flags_index i) (flags_of r) = true
          ↔ filter (λ e, flags_index i e = true) (flags_of r) ≠ []) as Hex.
  { rewrite existsb_exists. split.
    - intros (e & He%list_elem_of_In & Hi) Hnil.
      assert (e ∈ filter (λ e, flags_index i e = true) (flags_of r)) as Hin
        by (by apply list_elem_of_filter).
      rewrite Hnil in Hin. by apply not_elem_of_nil in Hin.
    - intros Hne. destruct (filter _ (flags_of r)) as [|e l] eqn:Hf; [done|].
      assert (e ∈ filter (λ e, flags_index i e = true) (flags_of r)) as Hin
        by (rewrite Hf; left).
      apply list_elem_of_filter in Hin as [Hi He]. exists e.
      by rewrite <- list_elem_of_In. }
  destruct (filter (λ e, flags_index i e = true) (flags_of r)) as [|e [|e' l]] eqn:Hf.
  - rewrite decide_False; [done|]. rewrite Hex. tauto.
  - rewrite decide_True; [done|]. by rewrite Hex.
  - simpl in Hr. lia.
Qed.

(** C2, amended.  On responses whose truthy flags have decodable keys,
    [calculate_flag_statistics] returns statistics in which [total_flags] is
    the sum of the per-question counts over the indices of the question
    list, [flagged_questions] is the number of indices with a positive
    count, and [flagged_by] of each index lists, in the order of the
    response list and without removing duplicates, the name of the response
    of each flagging item; when no response has two items for the same
    index, that is the list of names of the flagging responses. *)
Theorem C2_flag_statistics_relations (rs : list StudentResponse)
    (questions : list question) :
  decodable_flags rs = true →
  ∃ st, calculate_flag_statistics rs questions = Ok st
    ∧ total_flags st = sum_list (flag_count_at st <$> indices questions)
    ∧ flagged_questions st
      = length (filter (λ i, (0 < flag_count_at st i)%nat) (indices questions))
    ∧ (∀ i, i ∈ indices questions →
         flagged_by_at st i = flagging_names i rs
         ∧ flag_count_at st i = length (flagging_names i rs))
    ∧ (∀ i, i ∈ indices questions →
         Forall (λ r, (length (filter (λ e, flags_index i e = true)
                                 (flags_of r)) ≤ 1)%nat) rs →
         flagged_by_at st i = name_of <$> flagging_responses i rs).
Proof.
  intros Hok. unfold calculate_flag_statistics.
  destruct (count_responses_spec (indices questions) rs _
              (NoDup_indices questions) (tallied_initial questions) Hok)
    as (st & Hrun & Htal & Hby).
  rewrite Hrun. simpl. eexists. split; [done|].
  assert (∀ i, flagged_by_at st i
               = flagged_by_at
                   {| total_flags := 0; flagged_questions := 0;
                      question_flag_details := init_details 0 questions ∅ |} i
                 ++ flagging_names i rs → flagged_by_at st i = flagging_names i rs)
    as Hstart.
  { intros i ->. destruct (tallied_initial questions) as (_ & _ & Hlen).
    specialize (Hlen i).
    destruct (flagged_by_at _ i) eqn:E in |- *; [done|].
    rewrite E in Hlen. simpl in Hlen.
    exfalso. revert Hlen. unfold flag_count_at. simpl.
    destruct (decide (0 ≤ i < 0 + Z.of_nat (length questions))) as [Hi|Hi].
    - by destruct (init_details_inside questions 0 ∅ i Hi) as [t ->].
    - by rewrite init_details_outside, lookup_empty. }
  pose proof (count_flagged_indices _ _ (NoDup_indices questions) Htal) as Hcnt.
  destruct Htal as (Hdom & Htot & Hlen).
  split_and!.
  - done.
  - done.
  - intros i Hi. split.
    + by apply Hstart, Hby.
    + change (flag_count_at st i = length (flagging_names i rs)).
      rewrite Hlen. f_equal. by apply Hstart, Hby.
  - intros i Hi Hone. rewrite <- flagging_names_responses by done.
    by apply Hstart, Hby.
Qed.

(** ** Defensive skips *)

Lemma returns_Ok {A} (a : A) : returns (Ok a).
Proof. by exists a. Qed.

Lemma not_returns_Raise {A} (e : exn) : ¬ returns (@Raise A e).
Proof. by intros [a Ha]. Qed.

Lemma count_flags_returns name items : ∀ st,
  returns (count_flags name items st) →
  forallb (λ e : Py.key * bool, negb e.2 || is_ok (Py.int e.1)) items = true.
Proof.
  induction items as [|[k b] items IH]; intros st Hret; [done|].
  simpl in *. destruct b; simpl in *.
  - destruct (Py.int k) as [q|e]; simpl in *.
    + eauto.
    + by apply not_returns_Raise in Hret.
  - eauto.
Qed.

Lemma count_responses_returns rs : ∀ st,
  returns (count_responses rs st) → decodable_flags rs = true.
Proof.
  induction rs as [|r rs IH]; intros st Hret; [done|].
  cbn [count_responses] in Hret. simpl.
  destruct (count_flags (name_of r) (flags_of r) st) as [st1|e] eqn:Hrun;
    simpl in Hret.
  - rewrite (count_flags_returns (name_of r) _ st) by (rewrite Hrun; apply returns_Ok).
    simpl. eauto.
  - by apply not_returns_Raise in Hret.
Qed.

(** Aggregation returns exactly on the response lists whose truthy flags
    have decodable keys. *)
Lemma calculate_flag_statistics_returns rs questions :
  returns (calculate_flag_statistics rs questions) ↔ decodable_flags rs = true.
Proof.
  split.
  - unfold calculate_flag_statistics. intros Hret.
    destruct (count_responses rs _) as [st|e] eqn:Hrun; simpl in Hret.
    + eapply count_responses_returns. rewrite Hrun. apply returns_Ok.
    + by apply not_returns_Raise in Hret.
  - intros Hok. unfold calculate_flag_statistics.
    destruct (count_responses_spec (indices questions) rs _
                (NoDup_indices questions) (tallied_initial questions) Hok)
      as (st & -> & _).
    apply returns_Ok.
Qed.

Lemma key_in_range_indices {V} questions (k : Py.key) (v : V) q :
  Py.int k = Ok q →
  key_in_range questions (k, v) = true ↔ q ∈ indices questions.
Proof.
  intros Hq. unfold key_in_range. simpl. rewrite Hq, elem_of_indices.
  rewrite andb_true_iff, Z.leb_le, Z.ltb_lt. done.
Qed.

Lemma count_flags_within questions name items : ∀ st,
  tallied (indices questions) st →
  forallb (λ e : Py.key * bool, negb e.2 || is_ok (Py.int e.1)) items = true →
  count_flags name (filter (λ e, key_in_range questions e = true) items) st
  = count_flags name items st.
Proof.
  induction items as [|[k b] items IH]; intros st Hst Hok; [done|].
  simpl in Hok. apply andb_true_iff in Hok as [Hk Hok].
  rewrite filter_cons. cbn [count_flags].
  destruct (Py.int k) as [q|e] eqn:Hint.
  - destruct (decide (q ∈ indices questions)) as [Hq|Hq].
    + rewrite decide_True by (by eapply key_in_range_indices).
      cbn [count_flags]. rewrite Hint. destruct b; simpl; [|by apply IH].
      apply IH; [|done]. apply add_flag_tallied; [apply NoDup_indices|done].
    + rewrite decide_False.
      2:{ intros Hin. by eapply Hq, key_in_range_indices. }
      destruct b; simpl; [|by apply IH].
      rewrite add_flag_outside; [by apply IH|].
      destruct Hst as (Hdom & _). apply eq_None_not_Some. by rewrite Hdom.
  - destruct b; [done|]. simpl.
    rewrite decide_False; [by apply IH|].
    unfold key_in_range. simpl. by rewrite Hint.
Qed.

Lemma count_responses_within questions rs : ∀ st,
  tallied (indices questions) st → decodable_flags rs = true →
  count_responses (flags_within questions <$> rs) st = count_responses rs st.
Proof.
  induction rs as [|r rs IH]; intros st Hst Hok; [done|].
  simpl in Hok. apply andb_true_iff in Hok as [Hr Hok].
  rewrite fmap_cons. cbn [count_responses].
  change (flags_of (flags_within questions r))
    with (filter (λ e, key_in_range questions e = true) (flags_of r)).
  change (name_of (flags_within questions r)) with (name_of r).
  rewrite count_flags_within by done.
  destruct (count_flags_spec (indices questions) (name_of r) (flags_of r) st
              (NoDup_indices _) Hst Hr) as (st1 & -> & Hst1 & _).
  simpl. by apply IH.
Qed.

Lemma index_in_range {A} (l : list A) (i : Z) :
  0 ≤ i < Z.of_nat (length l) → ∃ x, Py.index l i = Ok x ∧ l !! Z.to_nat i = Some x.
Proof.
  intros Hi. unfold Py.index.
  destruct (Z.leb_spec 0 i); [|lia].
  destruct (Z.leb_spec 0 i); [|lia].
  destruct (Z.ltb_spec i (Z.of_nat (length l))); [|lia]. simpl.
  destruct (lookup_lt_is_Some_2 l (Z.to_nat i)) as [x Hx]; [lia|].
  rewrite Hx. eauto.
Qed.

Lemma show_answer_natural questions student_flags (e : Py.key * string) :
  forallb answerable questions = true → natural_key e = true →
  ∃ ls, show_answer questions student_flags e = Ok ls
        ∧ (key_in_range questions e = false → ls = []).
Proof.
  intros Hqs He. unfold natural_key in He. unfold show_answer, key_in_range.
  destruct (Py.int e.1) as [q_idx|?]; [|done]. cbn [bind].
  apply Z.leb_le in He. rewrite (proj2 (Z.leb_le 0 q_idx)) by done.
  destruct (Z.ltb_spec q_idx (Z.of_nat (length questions))) as [Hlt|Hge].
  2:{ eauto. }
  destruct (index_in_range questions q_idx) as (q & -> & Hq); [lia|].
  cbn [bind].
  assert (answerable q = true) as Hans.
  { rewrite forallb_forall in Hqs. apply Hqs, list_elem_of_In.
    by eapply list_elem_of_lookup_2. }
  unfold answerable in Hans. unfold options_of, getitem.
  destruct (q !! "correct_answer"%string) as [[c|]|]; [|done..].
  destruct (q !! "options"%string) as [[|o]|]; [done| |done].
  cbn [bind]. case_bool_decide; cbn [bind]; eexists; (split; [done|done]).
Qed.

Lemma show_answers_within questions student_flags entries :
  forallb answerable questions = true → forallb natural_key entries = true →
  ∃ ls, show_answers questions student_flags entries = Ok ls
        ∧ show_answers questions student_flags
            (filter (λ e, key_in_range questions e = true) entries) = Ok ls.
Proof.
  intros Hqs. induction entries as [|e entries IH]; intros Hnat.
  - by exists [].
  - simpl in Hnat. apply andb_true_iff in Hnat as [He Hnat].
    destruct (IH Hnat) as (ls' & Hrun' & Hfil').
    destruct (show_answer_natural questions student_flags e Hqs He)
      as (ls & Hrun & Hout).
    exists (ls ++ ls'). cbn [show_answers]. rewrite Hrun, Hrun'. split; [done|].
    rewrite filter_cons. case_decide as Hin.
    + cbn [show_answers]. by rewrite Hrun, Hfil'.
    + rewrite Hout; [done|]. by destruct (key_in_range questions e).
Qed.

(** C7, amended.  Aggregation returns exactly when every truthy flag has a
    decodable key, and its result is then that of the responses without the
    flags that lie outside the question list.  When the stored questions
    have a correct answer and options, and the answer keys of a response
    denote non-negative integers, the answer listing returns, and it prints
    what it prints for the response without the answers outside the
    question list. *)
Theorem C7_decodable_keys_never_raise (rs : list StudentResponse)
    (questions : list question) (r : StudentResponse) :
  (returns (calculate_flag_statistics rs questions)
   ↔ decodable_flags rs = true)
  ∧ (decodable_flags rs = true →
     ∃ st, calculate_flag_statistics rs questions = Ok st
           ∧ calculate_flag_statistics (flags_within questions <$> rs) questions
             = Ok st)
  ∧ (forallb answerable questions = true →
     forallb natural_key (answers_of r) = true →
     ∃ ls, response_detail questions r = Ok ls
           ∧ response_detail questions (answers_within questions r) = Ok ls).
Proof.
  split; [apply calculate_flag_statistics_returns|]. split.
  - intros Hflags. unfold calculate_flag_statistics.
    rewrite count_responses_within by (apply tallied_initial || done).
    destruct (count_responses_spec (indices questions) rs _
                (NoDup_indices questions) (tallied_initial questions) Hflags)
      as (st & -> & _).
    eexists. split; reflexivity.
  - intros Hqs Hanswers. unfold response_detail.
    destruct (show_answers_within questions (flags_of r) (answers_of r) Hqs
                Hanswers) as (ls & Hrun & Hfil).
    exists ls. split; [done|]. exact Hfil.
Qed.

(** ** The authoring pages *)

Section Authoring.

Variable GOOGLE_API_KEY : string.
Variable generate_content : list call → GenArgs → Reply.
Variable save_question : list call → question → string → option string.
Variable create_exit_ticket :
  list call → list question → string → string → string → Created.

Abbreviation generate_mcqs :=
  (generate_mcqs GOOGLE_API_KEY generate_content save_question).
Abbreviation attach_and_save := (attach_and_save save_question).
Abbreviation teacher_dashboard :=
  (teacher_dashboard GOOGLE_API_KEY generate_content save_question create_exit_ticket).
Abbreviation publish_exit_ticket := (publish_exit_ticket create_exit_ticket).
Abbreviation generate_new_set :=
  (generate_new_set GOOGLE_API_KEY generate_content save_question).
Abbreviation show_question :=
  (show_question GOOGLE_API_KEY generate_content save_question).
Abbreviation show_questions :=
  (show_questions GOOGLE_API_KEY generate_content save_question).

(** Generation touches neither the session nor the list objects. *)
Lemma attach_and_save_frame subject qs : ∀ w,
  session_state (attach_and_save subject qs w).1 = session_state w
  ∧ heap (attach_and_save subject qs w).1 = heap w.
Proof.
  induction qs as [|q qs IH]; intros w; [done|]. cbn [Workflow.attach_and_save].
  destruct (save_question _ _ _); [done|].
  specialize (IH (called (SaveQuestion (<["subject"%string := FStr subject]> q) "ai") w)).
  destruct (attach_and_save subject qs _) as [w' r]. exact IH.
Qed.

Lemma generate_mcqs_frame topics instructions n subject w :
  session_state (generate_mcqs topics instructions n subject w).1 = session_state w
  ∧ heap (generate_mcqs topics instructions n subject w).1 = heap w.
Proof.
  unfold Workflow.generate_mcqs. destruct (negb _); [done|].
  destruct (generate_content _ _) as [e|raw e|questions]; [done..|].
  match goal with |- context [attach_and_save ?s ?q ?w] =>
    pose proof (attach_and_save_frame s q w) as Hf;
    destruct (attach_and_save s q w) as [w' [e|qs]] end; exact Hf.
Qed.


(** When [save_question] never raises, the loop returns every question,
    with its subject. *)
Lemma attach_and_save_returns subject qs : ∀ w,
  (∀ h q source, save_question h q source = None) →
  (attach_and_save subject qs w).2
  = inr ((λ q, <["subject"%string := FStr subject]> q) <$> qs).
Proof.
  induction qs as [|q qs IH]; intros w Hsave; [done|].
  cbn [Workflow.attach_and_save]. rewrite Hsave.
  specialize (IH (called (SaveQuestion (<["subject"%string := FStr subject]> q) "ai") w)
                Hsave).
  destruct (attach_and_save subject qs _) as [w' r]. simpl in *. by rewrite IH.
Qed.


Lemma init_session_idemp s : init_session (init_session s) = init_session s.
Proof. by destruct s as [[?|] [?|] [?|] ? ? ? ? ? ?]. Qed.

(** C1.  A form submitted on the input page with non-blank topics and a
    count N between 3 and 10, when [generate_mcqs] returns a list of
    questions.  Fewer than N questions: the run stops with the "Only ...
    questions were generated" error, the session keys and the list objects
    are as before, and the workflow stays in [Input].  At least N: the run
    ends in [st.rerun()], the draft is exactly the returned list (nothing
    is cut off), and the workflow is in [Reviewing]. *)
Theorem C1_request_draft (form : InputForm) (w w1 : World)
    (questions : list question) :
  let N := in_num_questions form in
  let w0 := with_session init_session (clear_screen w) in
  3 ≤ N ≤ 10 →
  workflow_state w = Input →
  Py.truthy_str (Py.strip (in_lecture_topics form)) = true →
  generate_mcqs (in_lecture_topics form)
    (ai_instruction_options (in_instruction form)) N (in_subject form) w0
  = (w1, Some (Some questions)) →
  let w' := (teacher_dashboard (Submit form) w).1 in
  let c := (teacher_dashboard (Submit form) w).2 in
  (Z.of_nat (length questions) < N →
     c = Return
     ∧ screen w' = screen w1 ++ [ErrorOnlyGenerated (length questions)]
     ∧ session_state w' = init_session (session_state w)
     ∧ heap w' = heap w
     ∧ all_mcqs w' = all_mcqs w
     ∧ workflow_state w' = Input)
  ∧ (N ≤ Z.of_nat (length questions) →
     c = Rerun
     ∧ all_mcqs w' = Some questions
     ∧ (3 ≤ length questions)%nat
     ∧ workflow_state w' = Reviewing).
Proof.
  intros N w0 HN Hin Htopics Hgen w' c. subst w' c.
  unfold Workflow.teacher_dashboard. fold w0.
  unfold workflow_state in Hin.
  change (session_state w0) with (init_session (session_state w)).
  destruct (route (init_session (session_state w))) eqn:Hroute; [|done].
  unfold show_teacher_input_page. rewrite Htopics. cbn [negb].
  fold N. rewrite Hgen.
  pose proof (generate_mcqs_frame (in_lecture_topics form)
                (ai_instruction_options (in_instruction form)) N
                (in_subject form) w0) as [Hs Hh].
  rewrite Hgen in Hs, Hh. simpl in Hs, Hh.
  split; intros Hlen.
  - rewrite (proj2 (Z.ltb_lt _ _) Hlen). simpl.
    split_and!; try done.
    + unfold all_mcqs. simpl. rewrite Hs, Hh. simpl.
      by destruct (teacher_all_mcqs (session_state w)) as [[?|]|].
    + unfold workflow_state.
      change (session_state (say _ w1)) with (session_state w1).
      by rewrite Hs, init_session_idemp, Hroute.
  - rewrite (proj2 (Z.ltb_ge _ _) Hlen). simpl.
    split_and!; try done; [|lia].
    unfold all_mcqs. simpl. apply lookup_insert_eq.
Qed.


(** *** Frame properties of the questions page *)

Lemma forget_init_edit_mode i s :
  forget_edit_mode (init_edit_mode i s) = forget_edit_mode s.
Proof. unfold init_edit_mode. by destruct (teacher_edit_mode s !! i). Qed.

Lemma all_mcqs_key_init_edit_mode i s :
  teacher_all_mcqs (init_edit_mode i s) = teacher_all_mcqs s.
Proof. unfold init_edit_mode. by destruct (teacher_edit_mode s !! i). Qed.

Lemma session_assign_item i q w :
  session_state (assign_item i q w) = session_state w.
Proof.
  unfold assign_item. by destruct (teacher_all_mcqs (session_state w)) as [[?|]|].
Qed.

Lemma regenerate_teacher_question_session i subject topics instructions w :
  session_state
    (regenerate_teacher_question GOOGLE_API_KEY generate_content save_question
       i subject topics instructions w).1
  = session_state w.
Proof.
  unfold regenerate_teacher_question.
  pose proof (generate_mcqs_frame topics instructions 1 subject w) as [Hs _].
  destruct (generate_mcqs topics instructions 1 subject w) as [w1 [[[|q ?]|]|]];
    simpl in *; by rewrite ?session_assign_item.
Qed.

Lemma show_question_session ev subject topics instructions i q w :
  forget_edit_mode
    (session_state (show_question ev subject topics instructions i q w).1)
  = forget_edit_mode (session_state w).
Proof.
  unfold Workflow.show_question.
  set (w0 := with_session (init_edit_mode i) w).
  assert (forget_edit_mode (session_state w0) = forget_edit_mode (session_state w))
    as <- by apply forget_init_edit_mode.
  destruct (render_title q); [|done].
  destruct (negb (edit_mode i (session_state w0))).
  - destruct (render_view q); [|done].
    destruct ev; try done; case_decide; try done.
    by rewrite regenerate_teacher_question_session.
  - destruct (render_edit q); [|done].
    destruct ev; try done; case_decide; try done.
    simpl. by rewrite session_assign_item.
Qed.

Lemma show_questions_session ev subject topics instructions qs : ∀ i w,
  forget_edit_mode
    (session_state (show_questions ev subject topics instructions i qs w).1)
  = forget_edit_mode (session_state w).
Proof.
  induction qs as [|q qs IH]; intros i w; [done|]. cbn [Workflow.show_questions].
  pose proof (show_question_session ev subject topics instructions i q w) as Hq.
  destruct (show_question ev subject topics instructions i q w) as [w1 []];
    simpl in Hq; [|done..].
  by rewrite IH.
Qed.

(** What the Save button of question [i] does to the list objects. *)
Lemma heap_assign_item_ext i q w1 w2 :
  teacher_all_mcqs (session_state w1) = teacher_all_mcqs (session_state w2) →
  heap w1 = heap w2 → heap (assign_item i q w1) = heap (assign_item i q w2).
Proof.
  intros Hk Hh. unfold assign_item. rewrite Hk.
  destruct (teacher_all_mcqs (session_state w2)) as [[?|]|]; simpl; by rewrite Hh.
Qed.

Lemma forget_all_mcqs_key s1 s2 :
  forget_edit_mode s1 = forget_edit_mode s2 →
  teacher_all_mcqs s1 = teacher_all_mcqs s2.
Proof. intros H. by injection H. Qed.

Lemma show_question_save i form subject topics instructions k q w :
  let r := show_question (SaveBtn i form) subject topics instructions k q w in
  history r.1 = history w
  ∧ ((r.2 ≠ Rerun ∧ heap r.1 = heap w)
     ∨ (r.2 = Rerun ∧ k = i
        ∧ ∃ options, heap r.1 = heap (assign_item i (edited form options) w))).
Proof.
  unfold Workflow.show_question.
  set (w0 := with_session (init_edit_mode k) w).
  destruct (render_title q); [|by split; [|left]].
  destruct (negb (edit_mode k (session_state w0))).
  - destruct (render_view q); by split; [|left].
  - destruct (render_edit q) as [options|]; [|by split; [|left]].
    case_decide as Hik; [|by split; [|left]]. subst k.
    split.
    + simpl. unfold assign_item. simpl.
      by destruct (teacher_all_mcqs (init_edit_mode i (session_state w))) as [[?|]|].
    + right. split_and!; try done. exists options. simpl.
      apply heap_assign_item_ext; [|done]. simpl. apply all_mcqs_key_init_edit_mode.
Qed.

Lemma show_questions_save i form subject topics instructions qs : ∀ k w,
  let r := show_questions (SaveBtn i form) subject topics instructions k qs w in
  history r.1 = history w
  ∧ ((r.2 ≠ Rerun ∧ heap r.1 = heap w)
     ∨ (r.2 = Rerun ∧ (k ≤ i < k + length qs)%nat
        ∧ ∃ options, heap r.1 = heap (assign_item i (edited form options) w))).
Proof.
  induction qs as [|q qs IH]; intros k w; [by split; [|left]|].
  cbn [Workflow.show_questions].
  pose proof (show_question_save i form subject topics instructions k q w) as Hq.
  pose proof (show_question_session (SaveBtn i form) subject topics instructions
                k q w) as Hs.
  destruct (show_question (SaveBtn i form) subject topics instructions k q w)
    as [w1 c1]. simpl in Hq, Hs. destruct Hq as [Hh1 Hq].
  destruct c1.
  - destruct Hq as [[_ Hheap]|[? _]]; [|done].
    destruct (IH (S k) w1) as [Hh2 Hrest]. split; [congruence|].
    destruct Hrest as [[Hc Hh]|(Hc & Hk & options & Hh)].
    + left. split; [done|congruence].
    + right. split; [done|]. split; [simpl; lia|]. exists options. rewrite Hh.
      apply heap_assign_item_ext; [by apply forget_all_mcqs_key|done].
  - destruct Hq as [[? _]|(_ & -> & options & Hh)]; [done|].
    split; [done|]. right. split; [done|]. split; [simpl; lia|eauto].
  - destruct Hq as [[_ Hh]|[? _]]; [|done]. split; [done|]. left. by split.
  - destruct Hq as [[_ Hh]|[? _]]; [|done]. split; [done|]. left. by split.
Qed.


Lemma all_mcqs_ext w1 w2 :
  teacher_all_mcqs (session_state w1) = teacher_all_mcqs (session_state w2) →
  heap w1 = heap w2 → all_mcqs w1 = all_mcqs w2.
Proof. intros Hk Hh. unfold all_mcqs. by rewrite Hk, Hh. Qed.

Lemma all_mcqs_assign_item i q w w1 draft :
  all_mcqs w = Some draft →
  teacher_all_mcqs (session_state w1) = teacher_all_mcqs (session_state w) →
  heap w1 = heap (assign_item i q w) →
  all_mcqs w1 = Some (<[i := q]> draft).
Proof.
  unfold all_mcqs, assign_item. intros Hd -> ->.
  destruct (teacher_all_mcqs (session_state w)) as [[l|]|]; [|done..].
  simpl. by rewrite lookup_alter_eq, Hd.
Qed.

Lemma route_forget s1 s2 :
  forget_edit_mode s1 = forget_edit_mode s2 →
  route (init_session s1) = route (init_session s2).
Proof. intros H. injection H as H1 _ H3 _. unfold route. simpl. by rewrite H1, H3. Qed.

Lemma all_mcqs_init w :
  all_mcqs (with_session init_session (clear_screen w)) = all_mcqs w.
Proof.
  unfold all_mcqs. simpl.
  by destruct (teacher_all_mcqs (session_state w)) as [[?|]|].
Qed.

(** The whole effect of a run triggered by the Save button of question
    [i]: either the draft is as before, or the run ended in [st.rerun()]
    and entry [i] of the draft is the edited dict. *)
Lemma save_button_effect (i : nat) (form : EditForm) (w : World) :
  let r := teacher_dashboard (SaveBtn i form) w in
  workflow_state r.1 = workflow_state w
  ∧ history r.1 = history w
  ∧ ((r.2 ≠ Rerun ∧ all_mcqs r.1 = all_mcqs w)
     ∨ (r.2 = Rerun
        ∧ ∃ draft options,
            all_mcqs w = Some draft ∧ (i < length draft)%nat
            ∧ all_mcqs r.1 = Some (<[i := edited form options]> draft))).
Proof.
  unfold Workflow.teacher_dashboard.
  set (w0 := with_session init_session (clear_screen w)).
  assert (workflow_state w0 = workflow_state w) as Hw0.
  { unfold workflow_state. simpl. by rewrite init_session_idemp. }
  rewrite <- Hw0, <- (all_mcqs_init w). fold w0.
  change (history w) with (history w0).
  destruct (route (session_state w0)).
  { simpl. split_and!; try done. by left. }
  unfold show_teacher_questions_page.
  destruct (all_mcqs w0) as [[|q qs]|] eqn:Hdraft.
  1,3: (split_and!; try done; left; split; [done|exact Hdraft]).
  set (subject := default ""%string (teacher_subject (session_state w0))).
  set (topics := default ""%string (teacher_lecture_topics (session_state w0))).
  set (instructions :=
         default ""%string (teacher_ai_instructions (session_state w0))).
  pose proof (show_questions_save i form subject topics instructions (q :: qs)
                0%nat w0) as [Hhist Hsave].
  pose proof (show_questions_session (SaveBtn i form) subject topics
                instructions (q :: qs) 0%nat w0) as Hsess.
  destruct (show_questions (SaveBtn i form) subject topics instructions 0
              (q :: qs) w0) as [w1 c]. simpl in Hhist, Hsave, Hsess.
  assert (∀ X : World * control,
            X = (w1, c) →
            workflow_state X.1 = workflow_state w0
            ∧ history X.1 = history w0
            ∧ ((X.2 ≠ Rerun ∧ all_mcqs X.1 = Some (q :: qs))
               ∨ (X.2 = Rerun
                  ∧ ∃ draft options,
                      Some (q :: qs) = Some draft ∧ (i < length draft)%nat
                      ∧ all_mcqs X.1 = Some (<[i := edited form options]> draft))))
    as Hgoal.
  { intros X ->. simpl. split_and!.
    - unfold workflow_state.
      by rewrite (route_forget _ (session_state w0) Hsess).
    - done.
    - destruct Hsave as [[Hc Hh]|(Hc & Hi & options & Hh)].
      + left. split; [done|]. rewrite <- Hdraft.
        apply all_mcqs_ext; [by apply forget_all_mcqs_key|done].
      + right. split; [done|]. exists (q :: qs), options.
        split_and!; [done|simpl; lia|].
        eapply all_mcqs_assign_item; [done|by apply forget_all_mcqs_key|done]. }
  destruct c; by apply Hgoal.
Qed.


(** C9.  A run triggered by the Save button of question [i] keeps the
    length of the draft, every entry other than [i], and the workflow
    state; when the Save handler ran (the run ended in [st.rerun()]), entry
    [i] is the edited dict. *)
Theorem C9_edit_changes_only_index (i : nat) (form : EditForm) (w : World) :
  let r := teacher_dashboard (SaveBtn i form) w in
  length <$> all_mcqs r.1 = length <$> all_mcqs w
  ∧ (∀ j : nat, j ≠ i →
       all_mcqs r.1 ≫= (λ draft, draft !! j) = all_mcqs w ≫= (λ draft, draft !! j))
  ∧ workflow_state r.1 = workflow_state w
  ∧ (r.2 = Rerun →
     ∃ draft options,
       all_mcqs w = Some draft ∧ (i < length draft)%nat
       ∧ all_mcqs r.1 ≫= (λ draft, draft !! i) = Some (edited form options)).
Proof.
  intros r. destruct (save_button_effect i form w) as (Hstate & _ & Hdraft).
  fold r in Hstate, Hdraft.
  destruct Hdraft as [[Hc ->]|(Hc & draft & options & Hw & Hi & ->)].
  - split_and!; try done.
  - rewrite Hw. simpl. split_and!.
    + by rewrite length_insert.
    + intros j Hj. by apply list_lookup_insert_ne.
    + done.
    + intros _. exists draft, options. split_and!; try done.
      by apply list_lookup_insert_eq.
Qed.




(** C5.  When [create_exit_ticket] returns a falsy value or raises,
    [publish_exit_ticket] reports an error and leaves the session keys, the
    list objects, the draft and the workflow state as they were. *)
Theorem C5_publish_failure_keeps_state (w : World) (questions : list question) :
  let subject :=
    default "Unknown Subject"%string (teacher_subject (session_state w)) in
  let lecture_topics :=
    default "No topics specified"%string
      (teacher_lecture_topics (session_state w)) in
  let answer :=
    create_exit_ticket (history w) questions "Professor" subject lecture_topics in
  all_mcqs w = Some questions →
  answer = CreateFalsy ∨ (∃ e, answer = CreateRaises e) →
  let w' := publish_exit_ticket w in
  session_state w' = session_state w
  ∧ heap w' = heap w
  ∧ all_mcqs w' = Some questions
  ∧ workflow_state w' = workflow_state w
  ∧ ∃ n, screen w' = screen w ++ [n]
         ∧ (n = ErrorNoQuestionsToPublish ∨ n = ErrorFailedToPublish
            ∨ ∃ e, n = ErrorPublishing e).
Proof.
  intros subject lecture_topics answer Hdraft Hanswer w'. subst w'.
  unfold Workflow.publish_exit_ticket. rewrite Hdraft.
  destruct questions as [|q qs].
  { split_and!; try done. eauto. }
  fold subject lecture_topics answer.
  destruct Hanswer as [->|[e ->]]; (split_and!; try done); eauto 6.
Qed.


(** The counts passed to the generator grow by the count asked of
    [generate_mcqs]; "Generate New Set" asks for [teacher_num_questions],
    or 5 when that key is absent. *)
Lemma requested_counts_called c w :
  requested_counts (called c w)
  = requested_counts w
    ++ match c with GenerateContent args => [ga_num_questions args] | _ => [] end.
Proof.
  unfold requested_counts. simpl. rewrite omap_app. by destruct c.
Qed.

Lemma requested_counts_attach_and_save subject qs : ∀ w,
  requested_counts (attach_and_save subject qs w).1 = requested_counts w.
Proof.
  induction qs as [|q qs IH]; intros w; [done|]. cbn [Workflow.attach_and_save].
  set (c := SaveQuestion _ _). specialize (IH (called c w)).
  rewrite requested_counts_called, app_nil_r in IH.
  destruct (save_question _ _ _).
  - simpl. by rewrite requested_counts_called, app_nil_r.
  - by destruct (attach_and_save subject qs (called c w)) as [w' r].
Qed.

Lemma requested_counts_generate_mcqs topics instructions n subject w :
  Py.truthy_str GOOGLE_API_KEY = true →
  requested_counts (generate_mcqs topics instructions n subject w).1
  = requested_counts w ++ [n].
Proof.
  intros Hkey. unfold Workflow.generate_mcqs. rewrite Hkey. cbn [negb].
  set (c := GenerateContent _).
  assert (requested_counts (called c w) = requested_counts w ++ [n]) as Hc
    by apply requested_counts_called.
  destruct (generate_content _ _) as [e|raw e|reply]; [done..|].
  match goal with |- context [attach_and_save ?s ?l ?x] =>
    pose proof (requested_counts_attach_and_save s l x) as Hs;
    destruct (attach_and_save s l x) as [w2 [e|qs]] end;
    simpl in *; by rewrite <- Hc.
Qed.

Lemma requested_counts_generate_new_set (w : World) :
  Py.truthy_str GOOGLE_API_KEY = true →
  requested_counts (generate_new_set w)
  = requested_counts w ++ [default 5 (teacher_num_questions (session_state w))].
Proof.
  intros Hkey. unfold Workflow.generate_new_set.
  match goal with |- context [generate_mcqs ?t ?i ?n ?s w] =>
    pose proof (requested_counts_generate_mcqs t i n s w Hkey) as Hc;
    destruct (generate_mcqs t i n s w) as [w1 [[qs|]|]] end; exact Hc.
Qed.

Lemma generate_new_set_shows_input_page (w : World) (questions : list question) :
  let s := session_state w in
  (generate_mcqs (default ""%string (teacher_lecture_topics s))
     (default ""%string (teacher_ai_instructions s))
     (default 5 (teacher_num_questions s))
     (default ""%string (teacher_subject s)) w).2 = Some (Some questions) →
  workflow_state (generate_new_set w) = Input
  ∧ all_mcqs (generate_new_set w) = Some questions.
Proof.
  intros s Hgen. unfold Workflow.generate_new_set. fold s.
  destruct (generate_mcqs _ _ _ _ w) as [w1 r]. simpl in Hgen. subst r.
  split; [done|]. unfold all_mcqs. simpl. apply lookup_insert_eq.
Qed.


(** No run of the script writes [teacher_num_questions]. *)
Lemma teacher_dashboard_num_questions ev w :
  teacher_num_questions (session_state (teacher_dashboard ev w).1)
  = teacher_num_questions (session_state w).
Proof.
  unfold Workflow.teacher_dashboard.
  set (w0 := with_session init_session (clear_screen w)).
  change (teacher_num_questions (session_state w))
    with (teacher_num_questions (session_state w0)).
  destruct (route (session_state w0)).
  - unfold show_teacher_input_page. destruct ev; try done.
    destruct (negb _); [done|].
    match goal with |- context [generate_mcqs ?t ?i ?n ?s w0] =>
      pose proof (generate_mcqs_frame t i n s w0) as [Hs _];
      destruct (generate_mcqs t i n s w0) as [w1 [[qs|]|]] end;
      simpl in Hs; try (simpl; by rewrite Hs).
    destruct (_ <? _); simpl; by rewrite Hs.
  - unfold show_teacher_questions_page.
    destruct (all_mcqs w0) as [[|q qs]|]; [done| |done].
    match goal with |- context [show_questions ev ?s ?t ?i 0 ?l w0] =>
      pose proof (show_questions_session ev s t i l 0%nat w0) as Hs;
      destruct (show_questions ev s t i 0%nat l w0) as [w1 c] end.
    simpl in Hs.
    assert (teacher_num_questions (session_state w1)
            = teacher_num_questions (session_state w0)) as Hn
      by (by injection Hs).
    destruct c; [|done..]. destruct ev; try done.
    + simpl. unfold Workflow.generate_new_set.
      match goal with |- context [generate_mcqs ?t ?i ?n ?s w1] =>
        pose proof (generate_mcqs_frame t i n s w1) as [Hg _];
        destruct (generate_mcqs t i n s w1) as [w2 [[qs'|]|]] end;
        simpl in *; by rewrite Hg.
    + simpl. unfold Workflow.publish_exit_ticket.
      destruct (all_mcqs w1) as [[|q' qs']|]; [done| |done].
      by destruct (create_exit_ticket _ _ _ _ _).
Qed.

Lemma interactions_num_questions evs : ∀ w,
  teacher_num_questions
    (session_state
       (interactions GOOGLE_API_KEY generate_content save_question
          create_exit_ticket evs w))
  = teacher_num_questions (session_state w).
Proof.
  induction evs as [|ev evs IH]; intros w; [done|]. cbn [interactions].
  rewrite IH. unfold interact.
  pose proof (teacher_dashboard_num_questions ev w) as H1.
  destruct (teacher_dashboard ev w) as [w1 []]; simpl in H1; try done.
  by rewrite teacher_dashboard_num_questions.
Qed.

(** In every session started from scratch, "Generate New Set" asks the
    generator for 5 questions. *)
Lemma generate_new_set_asks_for_five evs :
  Py.truthy_str GOOGLE_API_KEY = true →
  let w := interactions GOOGLE_API_KEY generate_content save_question
             create_exit_ticket evs empty_world in
  requested_counts (generate_new_set w) = requested_counts w ++ [5].
Proof.
  intros Hkey w. rewrite requested_counts_generate_new_set by done.
  unfold w. by rewrite interactions_num_questions.
Qed.

End Authoring.

(** ** Evaluations on the sample data *)

(** C1 at the scenario of the specification: five questions requested,
    three returned. *)
Lemma C1_request_draft_witness :
  let form := Sample.input 5 in
  let w := Sample.first_page in
  let w0 := with_session init_session (clear_screen w) in
  let g := generate_mcqs Sample.api_key (Sample.generator 3) Sample.save_ok
             (in_lecture_topics form)
             (ai_instruction_options (in_instruction form))
             (in_num_questions form) (in_subject form) w0 in
  let questions := default [] (default None g.2) in
  let r := teacher_dashboard Sample.api_key (Sample.generator 3) Sample.save_ok
             Sample.create_ok (Submit form) w in
  3 ≤ in_num_questions form ≤ 10
  ∧ workflow_state w = Input
  ∧ Py.truthy_str (Py.strip (in_lecture_topics form)) = true
  ∧ g = (g.1, Some (Some questions))
  ∧ Z.of_nat (length questions) < in_num_questions form
  ∧ r.2 = Return
  ∧ screen r.1 = screen g.1 ++ [ErrorOnlyGenerated (length questions)]
  ∧ session_state r.1 = init_session (session_state w)
  ∧ heap r.1 = heap w
  ∧ all_mcqs r.1 = all_mcqs w
  ∧ workflow_state r.1 = Input.
Proof.
  intros form w w0 g questions r.
  assert (3 ≤ in_num_questions form ≤ 10) as HN by (cbn; lia).
  assert (workflow_state w = Input) as Hw by reflexivity.
  assert (Py.truthy_str (Py.strip (in_lecture_topics form)) = true) as Ht
    by reflexivity.
  assert (g = (g.1, Some (Some questions))) as Hg by reflexivity.
  assert (Z.of_nat (length questions) < in_num_questions form) as Hlen
    by reflexivity.
  destruct (C1_request_draft Sample.api_key (Sample.generator 3) Sample.save_ok
              Sample.create_ok form w g.1 questions HN Hw Ht Hg) as [Hfew _].
  destruct (Hfew Hlen) as (H1 & H2 & H3 & H4 & H5 & H6).
  repeat split; try assumption; apply HN.
Defined.

(** C2 at the flag scenario: response A flags questions 0 and 2, response
    B flags question 0. *)
Lemma C2_flag_statistics_witness :
  let rs := [Sample.response_A; Sample.response_B] in
  let questions := Sample.three_questions in
  decodable_flags rs = true
  ∧ ∃ st, calculate_flag_statistics rs questions = Ok st
      ∧ total_flags st = sum_list (flag_count_at st <$> indices questions)
      ∧ flagged_questions st
        = length (filter (λ i, (0 < flag_count_at st i)%nat) (indices questions))
      ∧ flagged_by_at st 0 = flagging_names 0 rs
      ∧ flagged_by_at st 0 = name_of <$> flagging_responses 0 rs.
Proof.
  intros rs questions. split; [reflexivity|].
  destruct (C2_flag_statistics_relations rs questions eq_refl)
    as (st & Hrun & Htotal & Hflagged & Hby & Hresp).
  assert (0 ∈ indices questions) as H0 by (apply elem_of_indices; cbn; lia).
  exists st. repeat split; try assumption.
  - apply Hby, H0.
  - apply Hresp; [exact H0|]. repeat constructor.
Defined.

Example flag_scenario :
  on_result (λ st, (flag_count_at st <$> indices Sample.three_questions,
                    total_flags st, flagged_questions st, flagged_by_at st 0))
    (calculate_flag_statistics [Sample.response_A; Sample.response_B]
       Sample.three_questions)
  = Some ([2; 0; 1]%nat, 3%nat, 2%nat, ["Asha"; "Bilal"]%string).
Proof. reflexivity. Qed.

(** C2 as stated fails: one response whose flags dict names question 0
    under the keys ["0"] and ["00"] is counted twice and listed twice,
    while the flagging responses of question 0 are that one response. *)
Lemma C2_two_keys_one_response :
  let rs := [Sample.response_twice] in
  decodable_flags rs = true
  ∧ on_result (λ st, (flag_count_at st 0, flagged_by_at st 0, total_flags st))
      (calculate_flag_statistics rs Sample.three_questions)
    = Some (2%nat, ["Dana"; "Dana"]%string, 2%nat)
  ∧ name_of <$> flagging_responses 0 rs = ["Dana"%string]
  ∧ flagging_names 0 rs = ["Dana"; "Dana"]%string.
Proof. repeat split. Qed.

(** C3.  After a draft of three questions, "Generate New Set" succeeds,
    the new draft is stored, and the router then shows the input page: the
    workflow is in [Input], not in [Reviewing]. *)
Theorem C3_new_set_shows_input_page :
  let before := Sample.session [NoEvent; Submit (Sample.input 3)] in
  let after := interact Sample.api_key Sample.obedient Sample.save_ok
                 Sample.create_ok GenerateNewSetBtn before in
  workflow_state before = Reviewing
  ∧ screen after = [SuccessNewSet]
  ∧ length <$> all_mcqs after = Some 5%nat
  ∧ workflow_state after = Input.
Proof. repeat split. Qed.



(** C5 with a repository that raises. *)
Lemma C5_publish_failure_keeps_state_witness :
  let w := Sample.session [NoEvent; Submit (Sample.input 3); EditBtn 0] in
  let questions := default [] (all_mcqs w) in
  let w' := publish_exit_ticket Sample.create_down w in
  all_mcqs w = Some questions
  ∧ Sample.create_down (history w) questions "Professor" "Networking"
      "OSI model, TCP handshake" = CreateRaises "deadline exceeded"
  ∧ session_state w' = session_state w
  ∧ heap w' = heap w
  ∧ all_mcqs w' = Some questions
  ∧ workflow_state w' = Reviewing.
Proof.
  intros w questions w'.
  assert (all_mcqs w = Some questions) as Hdraft by reflexivity.
  destruct (C5_publish_failure_keeps_state Sample.create_down w questions Hdraft)
    as (H1 & H2 & H3 & H4 & _).
  { right. exists "deadline exceeded"%string. reflexivity. }
  fold w' in H1, H2, H3, H4.
  repeat split; try assumption.
Defined.

(** C6.  Whatever count from 3 to 10 was requested for the draft,
    "Generate New Set" asks the generator for 5 questions. *)
Theorem C6_new_set_ignores_requested_count :
  Forall (λ n, requested_counts
                 (Sample.session [NoEvent; Submit (Sample.input n); GenerateNewSetBtn])
               = [n; 5])
    [3; 4; 5; 6; 7; 8; 9; 10].
Proof. repeat constructor. Qed.

(** C7 as stated fails: a truthy flag under the key ["first"] makes
    aggregation raise [ValueError]. *)
Lemma C7_malformed_flag_key_raises :
  calculate_flag_statistics [Sample.response_malformed] Sample.three_questions
  = Raise ValueError.
Proof. reflexivity. Qed.

(** An answer key that denotes a negative index passes the range test of
    the answer listing; on an empty question list the indexing raises. *)
Example negative_answer_index_raises :
  response_detail []
    {| student_name := None; flags := None;
       responses := Some [(Py.KStr "-1", "A"%string)] |}
  = Raise IndexError.
Proof. reflexivity. Qed.

(** C7, amended, at the flag scenario; response B has an integer key and a
    key outside the question list, response A an answer at index 5. *)
Lemma C7_decodable_keys_never_raise_witness :
  let rs := [Sample.response_A; Sample.response_B] in
  let questions := Sample.three_questions in
  let r := Sample.response_A in
  decodable_flags rs = true
  ∧ forallb answerable questions = true
  ∧ forallb natural_key (answers_of r) = true
  ∧ returns (calculate_flag_statistics rs questions)
  ∧ (∃ st, calculate_flag_statistics rs questions = Ok st
           ∧ calculate_flag_statistics (flags_within questions <$> rs) questions
             = Ok st)
  ∧ (∃ ls, response_detail questions r = Ok ls
           ∧ response_detail questions (answers_within questions r) = Ok ls).
Proof.
  intros rs questions r.
  destruct (C7_decodable_keys_never_raise rs questions r)
    as (Hreturns & Hflags & Hanswers).
  split; [reflexivity|]. split; [reflexivity|]. split; [reflexivity|].
  split; [apply Hreturns; reflexivity|].
  split; [apply Hflags; reflexivity|apply Hanswers; reflexivity].
Defined.



(** C9 on a draft of three questions: question 1 is edited and saved. *)
Lemma C9_edit_changes_only_index_witness :
  let w := Sample.session [NoEvent; Submit (Sample.input 3); EditBtn 1] in
  let r := teacher_dashboard Sample.api_key Sample.obedient Sample.save_ok
             Sample.create_ok (SaveBtn 1 Sample.edit) w in
  r.2 = Rerun
  ∧ length <$> all_mcqs r.1 = Some 3%nat
  ∧ all_mcqs r.1 ≫= (λ draft, draft !! 0%nat) = all_mcqs w ≫= (λ draft, draft !! 0%nat)
  ∧ all_mcqs r.1 ≫= (λ draft, draft !! 2%nat) = all_mcqs w ≫= (λ draft, draft !! 2%nat)
  ∧ workflow_state r.1 = Reviewing
  ∧ ∃ options, all_mcqs r.1 ≫= (λ draft, draft !! 1%nat)
               = Some (edited Sample.edit options).
Proof.
  intros w r.
  assert (r.2 = Rerun) as Hrerun by reflexivity.
  destruct (C9_edit_changes_only_index Sample.api_key Sample.obedient
              Sample.save_ok Sample.create_ok 1 Sample.edit w)
    as (Hlen & Hother & Hstate & Hsave).
  fold r in Hlen, Hother, Hstate, Hsave.
  destruct (Hsave Hrerun) as (draft & options & _ & _ & Hi).
  split; [exact Hrerun|]. split; [rewrite Hlen; reflexivity|].
  split; [apply Hother; discriminate|]. split; [apply Hother; discriminate|].
  split; [rewrite Hstate; reflexivity|]. exists options. exact Hi.
Defined.


(** * Properties of the rest of the script *)

(** ** The text handed to the JSON parser *)

Lemma find_absent c s : Text.occurs c s = false → Text.find c s = -1.
Proof.
  induction s as [|a s IH]; [done|]. cbn [Text.occurs Text.find].
  intros [Ha Hs]%orb_false_iff. rewrite Ha, (IH Hs). done.
Qed.

Lemma rfind_absent c s : Text.occurs c s = false → Text.rfind c s = -1.
Proof.
  induction s as [|a s IH]; [done|]. cbn [Text.occurs Text.rfind].
  intros [Ha Hs]%orb_false_iff. rewrite Ha, (IH Hs). done.
Qed.

Lemma find_app c pre rest :
  Text.occurs c pre = false →
  Text.find c (pre +:+ String c rest) = Z.of_nat (String.length pre).
Proof.
  induction pre as [|a pre IH]; cbn [Text.occurs].
  - intros _. change (Text.find c (String c rest) = 0).
    cbn [Text.find]. by rewrite Ascii.eqb_refl.
  - intros [Ha Hpre]%orb_false_iff.
    change (String a pre +:+ String c rest) with (String a (pre +:+ String c rest)).
    cbn [Text.find String.length]. rewrite Ha, (IH Hpre).
    destruct (Z.ltb_spec (Z.of_nat (String.length pre)) 0); lia.
Qed.

Lemma rfind_app c s post :
  Text.occurs c post = false →
  Text.rfind c (s +:+ String c post) = Z.of_nat (String.length s).
Proof.
  intros Hpost. induction s as [|a s IH].
  - change (Text.rfind c (String c post) = 0).
    cbn [Text.rfind]. rewrite (rfind_absent c post Hpost).
    by rewrite Ascii.eqb_refl.
  - change (String a s +:+ String c post) with (String a (s +:+ String c post)).
    cbn [Text.rfind String.length]. rewrite IH.
    destruct (Z.leb_spec 0 (Z.of_nat (String.length s))); lia.
Qed.

Lemma length_app_string (s t : string) :
  String.length (s +:+ t) = (String.length s + String.length t)%nat.
Proof.
  induction s as [|a s IH]; [done|].
  change (S (String.length (s +:+ t))
          = S (String.length s + String.length t)). by rewrite IH.
Qed.

Lemma append_assoc_string (s t u : string) : (s +:+ t) +:+ u = s +:+ (t +:+ u).
Proof.
  induction s as [|a s IH]; [done|].
  change (String a ((s +:+ t) +:+ u) = String a (s +:+ (t +:+ u))).
  by rewrite IH.
Qed.

Lemma substring_skip (pre s : string) n :
  substring (String.length pre) n (pre +:+ s) = substring 0 n s.
Proof. induction pre as [|a pre IH]; [done|]. exact IH. Qed.

Lemma substring_prefix (s t : string) :
  substring 0 (String.length s) (s +:+ t) = s.
Proof.
  induction s as [|a s IH]; [by destruct t|].
  change (String a (substring 0 (String.length s) (s +:+ t)) = String a s).
  by rewrite IH.
Qed.

(** X1 ([generate_mcqs], the text handed to [json.loads]): whatever the
    model writes before the first opening brace and after the last closing
    brace is dropped; the parser gets the text from the one to the other,
    both included. *)
Theorem X_extract_json_between_braces (pre mid post : string) :
  Text.occurs "{" pre = false →
  Text.occurs "}" post = false →
  Text.extract_json (pre +:+ String "{" (mid +:+ String "}" post))
  = String "{" (mid +:+ String "}" EmptyString).
Proof.
  intros Hpre Hpost. unfold Text.extract_json.
  rewrite (find_app "{" pre _ Hpre).
  assert (pre +:+ String "{" (mid +:+ String "}" post)
          = (pre +:+ String "{" mid) +:+ String "}" post) as Hassoc.
  { rewrite append_assoc_string. done. }
  assert (Text.rfind "}" (pre +:+ String "{" (mid +:+ String "}" post))
          = Z.of_nat (String.length (pre +:+ String "{" mid))) as ->.
  { rewrite Hassoc. by apply rfind_app. }
  unfold Text.slice.
  rewrite !length_app_string. cbn [String.length]. rewrite !length_app_string.
  cbn [String.length].
  set (a := String.length pre). set (m := String.length mid).
  set (z := String.length post).
  assert ((Z.of_nat a <? 0) = false) as -> by (apply Z.ltb_ge; lia).
  assert ((Z.of_nat (a + S m) + 1 <? 0) = false) as ->
    by (apply Z.ltb_ge; lia).
  rewrite Z.min_l by lia. rewrite Z.min_l by lia.
  rewrite Nat2Z.id.
  replace (Z.to_nat (Z.of_nat (a + S m) + 1 - Z.of_nat a)) with (S (S m)) by lia.
  unfold a. rewrite substring_skip.
  assert (String "{" (mid +:+ String "}" post)
          = String "{" (mid +:+ String "}" EmptyString) +:+ post) as ->.
  { change (String "{" (mid +:+ String "}" post)
            = String "{" ((mid +:+ String "}" EmptyString) +:+ post)).
    f_equal. by rewrite append_assoc_string. }
  assert (S (S m) = String.length (String "{" (mid +:+ String "}" EmptyString)))
    as ->.
  { cbn [String.length]. rewrite length_app_string. cbn [String.length].
    unfold m. lia. }
  apply substring_prefix.
Qed.

Lemma rfind_bounds c s : -1 ≤ Text.rfind c s < Z.of_nat (String.length s).
Proof.
  induction s as [|a s IH]; [cbn; lia|]. cbn [Text.rfind String.length].
  destruct (Z.leb_spec 0 (Text.rfind c s)); [lia|].
  destruct (Ascii.eqb a c); lia.
Qed.

Lemma rfind_app_absent c s t :
  Text.occurs c t = false → Text.rfind c (s +:+ t) = Text.rfind c s
  ∨ (Text.rfind c (s +:+ t) = -1 ∧ Text.rfind c s = -1).
Proof.
  intros Ht. left. induction s as [|a s IH].
  - change (Text.rfind c t = -1). by apply rfind_absent.
  - change (String a s +:+ t) with (String a (s +:+ t)).
    cbn [Text.rfind]. by rewrite IH.
Qed.

Lemma substring_zero n s : substring n 0 s = EmptyString.
Proof.
  revert n. induction s as [|a s IH]; intros [|n]; try done. cbn. apply IH.
Qed.

Lemma substring_last c s :
  Text.rfind c s = Z.of_nat (String.length s) - 1 → s ≠ EmptyString →
  substring (String.length s - 1) 1 s = String c EmptyString.
Proof.
  induction s as [|a s IH]; [done|]. intros Hr _.
  cbn [Text.rfind String.length] in Hr.
  destruct s as [|b s].
  - cbn in Hr. destruct (Ascii.eqb_spec a c) as [->|]; [done|lia].
  - pose proof (rfind_bounds c (String b s)) as Hb.
    destruct (Z.leb_spec 0 (Text.rfind c (String b s))).
    + cbn [String.length] in *.
      replace (S (S (String.length s)) - 1)%nat with (S (String.length s)) by lia.
      change (substring (String.length s) 1 (String b s) = String c EmptyString).
      replace (String.length s) with (S (String.length s) - 1)%nat at 1 by lia.
      apply IH; [lia|done].
    + cbn [String.length] in *. destruct (Ascii.eqb a c); lia.
Qed.

(** X2 ([generate_mcqs], the text handed to [json.loads]): a reply with
    no closing brace after its first opening brace, or with no closing brace
    at all, gives the parser the empty text; a reply without an opening
    brace gives it the empty text or a lone closing brace. *)
Theorem X_extract_json_no_object (text : string) :
  (∀ pre rest,
     text = pre +:+ String "{" rest →
     Text.occurs "{" pre = false → Text.occurs "}" rest = false →
     Text.extract_json text = EmptyString)
  ∧ (Text.occurs "}" text = false → Text.extract_json text = EmptyString)
  ∧ (Text.occurs "{" text = false →
     Text.extract_json text = EmptyString
     ∨ Text.extract_json text = String "}" EmptyString).
Proof.
  split; [|split].
  - intros pre rest -> Hpre Hrest. unfold Text.extract_json, Text.slice.
    rewrite (find_app "{" pre _ Hpre).
    assert (Text.rfind "}" (pre +:+ String "{" rest) < Z.of_nat (String.length pre))
      as Hr.
    { destruct (rfind_app_absent "}" pre (String "{" rest)) as [->|[-> _]].
      - cbn [Text.occurs]. by rewrite Hrest.
      - apply rfind_bounds.
      - lia. }
    pose proof (rfind_bounds "}" (pre +:+ String "{" rest)) as Hb.
    set (r := Text.rfind "}" (pre +:+ String "{" rest)) in *.
    set (n := Z.of_nat (String.length (pre +:+ String "{" rest))) in *.
    assert (Z.of_nat (String.length pre) ≤ n) as Hn.
    { unfold n. rewrite length_app_string. lia. }
    assert ((Z.of_nat (String.length pre) <? 0) = false) as ->
      by (apply Z.ltb_ge; lia).
    assert ((r + 1 <? 0) = false) as -> by (apply Z.ltb_ge; lia).
    replace (Z.to_nat (Z.min (r + 1) n - Z.min (Z.of_nat (String.length pre)) n))
      with 0%nat by lia.
    apply substring_zero.
  - intros Habsent. unfold Text.extract_json, Text.slice.
    rewrite (rfind_absent "}" text Habsent).
    set (n := Z.of_nat (String.length text)).
    set (b := if Text.find "{" text <? 0
              then Z.max 0 (n + Text.find "{" text)
              else Z.min (Text.find "{" text) n).
    assert (0 ≤ b) as Hb.
    { unfold b, n. destruct (Z.ltb_spec (Text.find "{" text) 0); lia. }
    change (-1 + 1) with 0. change (0 <? 0) with false. cbn match.
    clearbody b n.
    replace (Z.to_nat (Z.min 0 n - b)) with 0%nat by lia.
    apply substring_zero.
  - intros Habsent. unfold Text.extract_json, Text.slice.
    rewrite (find_absent "{" text Habsent).
    pose proof (rfind_bounds "}" text) as Hb.
    set (r := Text.rfind "}" text) in *.
    set (n := String.length text) in *.
    change (-1 <? 0) with true. cbn match.
    assert ((r + 1 <? 0) = false) as -> by (apply Z.ltb_ge; lia).
    destruct (decide (r = Z.of_nat n - 1 ∧ (0 < n)%nat)) as [[Hr Hn]|Hne].
    + right.
      replace (Z.to_nat (Z.max 0 (Z.of_nat n + -1))) with (n - 1)%nat by lia.
      replace (Z.to_nat (Z.min (r + 1) (Z.of_nat n) - Z.max 0 (Z.of_nat n + -1)))
        with 1%nat by lia.
      apply substring_last; [done|]. intros ->. cbn in Hn. lia.
    + left.
      replace (Z.to_nat (Z.min (r + 1) (Z.of_nat n) - Z.max 0 (Z.of_nat n + -1)))
        with 0%nat by lia.
      apply substring_zero.
Qed.

(** ** White space *)

Lemma blank_rstrip s : Text.blank (Py.rstrip s) = Text.blank s.
Proof.
  induction s as [|c s IH]; [done|]. cbn [Py.rstrip Text.blank].
  destruct (Py.rstrip s) as [|b r] eqn:Hr.
  - rewrite <- IH. cbn [Text.blank]. rewrite andb_true_r.
    destruct (Py.is_space c) eqn:Hc; [done|]. cbn [Text.blank]. by rewrite Hc.
  - cbn [Text.blank] in *. by rewrite IH.
Qed.

Lemma truthy_lstrip s : Py.truthy_str (Py.lstrip s) = negb (Text.blank s).
Proof.
  induction s as [|c s IH]; [done|]. cbn [Py.lstrip Text.blank].
  by destruct (Py.is_space c).
Qed.

(** [s.strip()] is empty exactly when [s] is made of white space. *)
Lemma truthy_strip s : Py.truthy_str (Py.strip s) = negb (Text.blank s).
Proof. unfold Py.strip. by rewrite truthy_lstrip, blank_rstrip. Qed.

Section Pages.

Variable GOOGLE_API_KEY : string.
Variable generate_content : list call → GenArgs → Reply.
Variable save_question : list call → question → string → option string.
Variable create_exit_ticket :
  list call → list question → string → string → string → Created.

Abbreviation generate_mcqs :=
  (generate_mcqs GOOGLE_API_KEY generate_content save_question).
Abbreviation attach_and_save := (attach_and_save save_question).
Abbreviation teacher_dashboard :=
  (teacher_dashboard GOOGLE_API_KEY generate_content save_question
     create_exit_ticket).
Abbreviation interact :=
  (interact GOOGLE_API_KEY generate_content save_question create_exit_ticket).
Abbreviation interactions :=
  (interactions GOOGLE_API_KEY generate_content save_question
     create_exit_ticket).
Abbreviation publish_exit_ticket := (publish_exit_ticket create_exit_ticket).
Abbreviation generate_new_set :=
  (generate_new_set GOOGLE_API_KEY generate_content save_question).
Abbreviation regenerate_teacher_question :=
  (regenerate_teacher_question GOOGLE_API_KEY generate_content save_question).
Abbreviation show_question :=
  (show_question GOOGLE_API_KEY generate_content save_question).
Abbreviation show_questions :=
  (show_questions GOOGLE_API_KEY generate_content save_question).
Abbreviation show_teacher_questions_page :=
  (show_teacher_questions_page GOOGLE_API_KEY generate_content save_question
     create_exit_ticket).

(** *** The calls of [generate_mcqs] *)

(** The calls of the logging loop, and how it ends: every call before the
    last one made returned; either all questions were logged and are
    returned with the subject, or the last call made raised. *)
Lemma attach_and_save_trace subject qs : ∀ w,
  let attach := λ q : question, <["subject"%string := FStr subject]> q in
  let log := λ j, history w
                  ++ ((λ q, SaveQuestion (attach q) "ai") <$> take j qs) in
  let r := attach_and_save subject qs w in
  ∃ k, (k ≤ length qs)%nat
    ∧ history r.1 = log k
    ∧ (∀ j q, (S j < k)%nat → qs !! j = Some q →
         save_question (log j) (attach q) "ai" = None)
    ∧ ((k = length qs
        ∧ (∀ j q, qs !! j = Some q →
             save_question (log j) (attach q) "ai" = None)
        ∧ r.2 = inr (attach <$> qs))
       ∨ (∃ j q e, k = S j ∧ qs !! j = Some q
            ∧ save_question (log j) (attach q) "ai" = Some e
            ∧ r.2 = inl e)).
Proof.
  induction qs as [|q qs IH]; intros w; lazy beta zeta.
  - exists 0%nat. split; [done|]. split; [cbn; by rewrite app_nil_r|].
    split; [intros; lia|]. left. split; [done|]. split; [|done].
    intros j q Hq. done.
  - cbn [Workflow.attach_and_save].
    set (c := SaveQuestion (<["subject"%string := FStr subject]> q) "ai").
    assert (∀ j, history w
                 ++ ((λ q, SaveQuestion (<["subject"%string := FStr subject]> q) "ai")
                       <$> take (S j) (q :: qs))
                 = history (called c w)
                   ++ ((λ q, SaveQuestion (<["subject"%string := FStr subject]> q) "ai")
                         <$> take j qs))
      as Hlog.
    { intros j. cbn [take fmap list_fmap history called].
      by rewrite <- app_assoc. }
    assert (history w
            ++ ((λ q, SaveQuestion (<["subject"%string := FStr subject]> q) "ai")
                  <$> take 0 (q :: qs))
            = history w) as Hlog0 by (cbn; by rewrite app_nil_r).
    destruct (save_question (history w) _ "ai") as [e|] eqn:Hsave.
    + exists 1%nat. cbn [fst snd]. split; [cbn; lia|].
      split; [rewrite Hlog; cbn [take fmap list_fmap]; by rewrite app_nil_r|].
      split; [intros; lia|].
      right. exists 0%nat, q, e. rewrite Hlog0. done.
    + specialize (IH (called c w)). lazy beta zeta in IH.
      destruct IH as (k & Hk & Hhist & Hbefore & Hend).
      destruct (attach_and_save subject qs (called c w)) as [w' r].
      cbn [fst snd] in *. exists (S k). split; [cbn; lia|].
      split; [by rewrite Hlog|]. split.
      * intros [|j] q0 Hj Hq0.
        -- injection Hq0 as <-. by rewrite Hlog0.
        -- rewrite Hlog. apply Hbefore; [lia|done].
      * destruct Hend as [(-> & Hall & ->)|(j & q0 & e & -> & Hq0 & He & ->)].
        -- left. split; [done|]. split; [|done]. intros [|j] q0 Hq0.
           ++ injection Hq0 as <-. by rewrite Hlog0.
           ++ rewrite Hlog. by apply Hall.
        -- right. exists (S j), q0, e. rewrite Hlog. done.
Qed.

(** X3 ([generate_mcqs]): the function never touches the session or the
    list objects.  Without an API key it makes no call and returns [None].
    With one it calls the model once, with the four arguments.  When the
    model raises or its reply does not parse, nothing else is called and
    the result is [None].  Otherwise the questions of the reply (none when
    it has no ["questions"]) are logged once each, in order and with the
    subject attached, each call seeing the calls before it; every call but
    the last one made returned.  Either every question was logged and the
    result is the reply with the subject attached to each question, or the
    last call made raised and the result is [None]. *)
Theorem X_generate_mcqs_calls (lecture_topics ai_instructions : string)
    (num_questions : Z) (subject : string) (w : World) :
  let args := {| ga_lecture_topics := lecture_topics;
                 ga_ai_instructions := ai_instructions;
                 ga_num_questions := num_questions;
                 ga_subject := subject |} in
  let r := generate_mcqs lecture_topics ai_instructions num_questions subject w in
  let attach := λ q : question, <["subject"%string := FStr subject]> q in
  session_state r.1 = session_state w
  ∧ heap r.1 = heap w
  ∧ (Py.truthy_str GOOGLE_API_KEY = false →
     history r.1 = history w ∧ r.2 = None)
  ∧ (Py.truthy_str GOOGLE_API_KEY = true →
     match generate_content (history w) args with
     | ReplyRaises _ | ReplyBadJson _ _ =>
         history r.1 = history w ++ [GenerateContent args] ∧ r.2 = None
     | ReplyJson reply =>
         let qs := default [] reply in
         let log := λ j, history w ++ generation_calls args qs j in
         ∃ k, (k ≤ length qs)%nat
           ∧ history r.1 = log k
           ∧ (∀ j q, (S j < k)%nat → qs !! j = Some q →
                save_question (log j) (attach q) "ai" = None)
           ∧ ((k = length qs
               ∧ (∀ j q, qs !! j = Some q →
                    save_question (log j) (attach q) "ai" = None)
               ∧ r.2 = Some ((λ _, attach <$> qs) <$> reply))
              ∨ (∃ j q e, k = S j ∧ qs !! j = Some q
                   ∧ save_question (log j) (attach q) "ai" = Some e
                   ∧ r.2 = None))
     end).
Proof.
  intros args r attach. subst r.
  destruct (generate_mcqs_frame GOOGLE_API_KEY generate_content save_question
              lecture_topics ai_instructions num_questions subject w) as [Hs Hh].
  split; [exact Hs|]. split; [exact Hh|].
  unfold Workflow.generate_mcqs. fold args.
  split; intros Hkey; rewrite Hkey; cbn [negb]; [done|].
  destruct (generate_content (history w) args) as [e|raw e|reply]; [done..|].
  lazy beta zeta. subst attach.
  assert (∀ j, history w ++ generation_calls args (default [] reply) j
               = history (called (GenerateContent args) w)
                 ++ ((λ q, SaveQuestion (<["subject"%string := FStr subject]> q) "ai")
                       <$> take j (default [] reply))) as Hlog.
  { intros j. unfold generation_calls. cbn [history called ga_subject args].
    by rewrite <- app_assoc. }
  pose proof (attach_and_save_trace subject (default [] reply)
                (called (GenerateContent args) w)) as Htrace.
  lazy beta zeta in Htrace.
  destruct Htrace as (k & Hk & Hhist & Hbefore & Hend).
  destruct (attach_and_save subject (default [] reply) _) as [w' res].
  cbn [fst snd] in *. exists k.
  assert (history (match res with
                   | inl e => (say (ErrorGeneratingMCQs e) w', None)
                   | inr qs => (w', Some ((λ _, qs) <$> reply))
                   end).1 = history w') as -> by (by destruct res).
  split; [done|]. split; [by rewrite Hlog|]. split.
  - intros j q Hj Hq. rewrite Hlog. by apply Hbefore.
  - destruct Hend as [(-> & Hall & ->)|(j & q & e & -> & Hq & He & ->)].
    + left. split; [done|]. split; [|done]. intros j q Hq. rewrite Hlog.
      by apply Hall.
    + right. exists j, q, e. rewrite Hlog. done.
Qed.

(** *** Steps of the questions loop *)

Lemma edit_mode_init_edit_mode k j s :
  edit_mode j (init_edit_mode k s) = edit_mode j s.
Proof.
  unfold init_edit_mode, edit_mode.
  destruct (teacher_edit_mode s !! k) eqn:Hk; [done|]. cbn.
  destruct (decide (k = j)) as [->|Hne].
  - by rewrite lookup_insert_eq, Hk.
  - by rewrite lookup_insert_ne.
Qed.

Lemma edit_mode_set_edit_mode k b j s :
  edit_mode j (set_edit_mode k b s) = if decide (j = k) then b else edit_mode j s.
Proof.
  unfold edit_mode. cbn. case_decide as Hj.
  - subst. by rewrite lookup_insert_eq.
  - by rewrite lookup_insert_ne.
Qed.

(** A question whose buttons were not pressed is drawn, and nothing else:
    its editing flag is created if absent, and an exception raised by the
    drawing stops the run. *)
Lemma show_question_quiet ev subject topics instructions k q w :
  targets ev k = false →
  show_question ev subject topics instructions k q w
  = let w0 := with_session (init_edit_mode k) w in
    match render_question (edit_mode k (session_state w)) q with
    | Ok _ => (w0, Continue)
    | Raise e => (say (Uncaught e) w0, Aborted)
    end.
Proof.
  intros Hev. unfold Workflow.show_question, render_question.
  cbn [session_state with_session]. rewrite edit_mode_init_edit_mode.
  destruct (render_title q) as [[]|e]; [|done]. cbn [bind].
  destruct (edit_mode k (session_state w)); cbn [negb].
  - destruct (render_edit q) as [options|e]; [|done]. cbn [bind].
    destruct ev; try done; cbn in Hev; case_decide; try done;
      by rewrite bool_decide_eq_false in Hev.
  - destruct (render_view q) as [[]|e]; [|done].
    destruct ev; try done; cbn in Hev; case_decide; try done;
      by rewrite bool_decide_eq_false in Hev.
Qed.

Lemma well_formed_renders q editing :
  well_formed q = true → render_question editing q = Ok tt.
Proof.
  unfold well_formed, render_question. intros [Ht He]%andb_true_iff.
  destruct (render_title q) as [[]|]; [|done]. cbn [bind].
  unfold render_edit, render_view in *.
  destruct (options_of q) as [options|]; [|done]. cbn [bind] in *.
  destruct (getitem q "correct_answer") as [c|]; [|done]. cbn [bind] in *.
  destruct editing.
  - destruct c as [c|]; [|done]. by case_decide.
  - by case_decide.
Qed.

(** The list objects and the calls are touched only by Save and
    Regenerate. *)
Lemma show_question_static ev subject topics instructions k q w :
  match ev with SaveBtn _ _ | RegenerateBtn _ => False | _ => True end →
  heap (show_question ev subject topics instructions k q w).1 = heap w
  ∧ history (show_question ev subject topics instructions k q w).1 = history w.
Proof.
  intros Hev. unfold Workflow.show_question.
  destruct (render_title q); [|done].
  destruct (negb _).
  - destruct (render_view q); [|done].
    destruct ev; try done; by case_decide.
  - destruct (render_edit q); [|done].
    destruct ev; try done; by case_decide.
Qed.

Lemma show_questions_static ev subject topics instructions qs : ∀ k w,
  match ev with SaveBtn _ _ | RegenerateBtn _ => False | _ => True end →
  heap (show_questions ev subject topics instructions k qs w).1 = heap w
  ∧ history (show_questions ev subject topics instructions k qs w).1 = history w.
Proof.
  induction qs as [|q qs IH]; intros k w Hev; [done|].
  cbn [Workflow.show_questions].
  pose proof (show_question_static ev subject topics instructions k q w Hev)
    as [Hh Hc].
  destruct (show_question ev subject topics instructions k q w) as [w1 []];
    cbn [fst] in *; try done.
  destruct (IH (S k) w1 Hev) as [Hh' Hc']. split; congruence.
Qed.

(** The editing flag of a question changes only in a run triggered by one
    of its own buttons. *)
Lemma show_question_flags ev subject topics instructions k q w j :
  targets ev j = false →
  edit_mode j (session_state (show_question ev subject topics instructions k q w).1)
  = edit_mode j (session_state w).
Proof.
  intros Hj.
  assert (∀ b, match ev with
               | EditBtn i | RegenerateBtn i | SaveBtn i _ | CancelBtn i => i ≠ j
               | _ => True
               end
               → ∀ i, (match ev with
                       | EditBtn i' | RegenerateBtn i' | SaveBtn i' _
                       | CancelBtn i' => i' = i
                       | _ => False
                       end)
               → edit_mode j (set_edit_mode i b (init_edit_mode k (session_state w)))
                 = edit_mode j (session_state w)) as Hset.
  { intros b Hne i Hi. rewrite edit_mode_set_edit_mode, edit_mode_init_edit_mode.
    case_decide; [|done]. subst. destruct ev; try done; congruence. }
  assert (match ev with
          | EditBtn i | RegenerateBtn i | SaveBtn i _ | CancelBtn i => i ≠ j
          | _ => True
          end) as Hne.
  { destruct ev; try done; cbn in Hj; by apply bool_decide_eq_false in Hj. }
  unfold Workflow.show_question.
  destruct (render_title q);
    [|cbn; by rewrite edit_mode_init_edit_mode].
  destruct (negb _).
  - destruct (render_view q); [|cbn; by rewrite edit_mode_init_edit_mode].
    destruct ev; try (cbn; by rewrite edit_mode_init_edit_mode);
      case_decide; try (cbn; by rewrite edit_mode_init_edit_mode).
    + subst. cbn. by apply Hset.
    + rewrite (regenerate_teacher_question_session GOOGLE_API_KEY
                 generate_content save_question).
      cbn. by rewrite edit_mode_init_edit_mode.
  - destruct (render_edit q); [|cbn; by rewrite edit_mode_init_edit_mode].
    destruct ev; try (cbn; by rewrite edit_mode_init_edit_mode);
      case_decide; try (cbn; by rewrite edit_mode_init_edit_mode).
    + subst. cbn. rewrite session_assign_item. cbn. by apply Hset.
    + subst. cbn. by apply Hset.
Qed.

Lemma show_questions_flags ev subject topics instructions qs j : ∀ k w,
  targets ev j = false →
  edit_mode j (session_state (show_questions ev subject topics instructions k qs w).1)
  = edit_mode j (session_state w).
Proof.
  induction qs as [|q qs IH]; intros k w Hj; [done|].
  cbn [Workflow.show_questions].
  pose proof (show_question_flags ev subject topics instructions k q w j Hj) as Hq.
  destruct (show_question ev subject topics instructions k q w) as [w1 []];
    cbn [fst] in *; try done.
  by rewrite IH.
Qed.

Lemma show_question_flags_other ev subject topics instructions k q w j :
  j ≠ k →
  edit_mode j (session_state (show_question ev subject topics instructions k q w).1)
  = edit_mode j (session_state w).
Proof.
  intros Hj.
  assert (∀ b, edit_mode j (set_edit_mode k b (init_edit_mode k (session_state w)))
               = edit_mode j (session_state w)) as Hset.
  { intros b. rewrite edit_mode_set_edit_mode, edit_mode_init_edit_mode.
    by case_decide. }
  unfold Workflow.show_question.
  destruct (render_title q);
    [|cbn; by rewrite edit_mode_init_edit_mode].
  destruct (negb _).
  - destruct (render_view q); [|cbn; by rewrite edit_mode_init_edit_mode].
    destruct ev; try (cbn; by rewrite edit_mode_init_edit_mode);
      case_decide; try (cbn; by rewrite edit_mode_init_edit_mode).
    + cbn. by apply Hset.
    + rewrite (regenerate_teacher_question_session GOOGLE_API_KEY
                 generate_content save_question).
      cbn. by rewrite edit_mode_init_edit_mode.
  - destruct (render_edit q); [|cbn; by rewrite edit_mode_init_edit_mode].
    destruct ev; try (cbn; by rewrite edit_mode_init_edit_mode);
      case_decide; try (cbn; by rewrite edit_mode_init_edit_mode).
    + cbn. rewrite session_assign_item. cbn. by apply Hset.
    + cbn. by apply Hset.
Qed.

Lemma show_questions_flags_before ev subject topics instructions qs j : ∀ k w,
  (j < k)%nat →
  edit_mode j (session_state (show_questions ev subject topics instructions k qs w).1)
  = edit_mode j (session_state w).
Proof.
  induction qs as [|q qs IH]; intros k w Hj; [done|].
  cbn [Workflow.show_questions].
  pose proof (show_question_flags_other ev subject topics instructions k q w j
                ltac:(lia)) as Hq.
  destruct (show_question ev subject topics instructions k q w) as [w1 []];
    cbn [fst] in *; try done.
  rewrite IH by lia. done.
Qed.

Lemma edit_mode_init_edit_modes n : ∀ k j s,
  edit_mode j (init_edit_modes k n s) = edit_mode j s.
Proof.
  induction n as [|n IH]; intros k j s; [done|]. cbn.
  by rewrite IH, edit_mode_init_edit_mode.
Qed.

Lemma forget_init_edit_modes n : ∀ k s,
  forget_edit_mode (init_edit_modes k n s) = forget_edit_mode s.
Proof.
  induction n as [|n IH]; intros k s; [done|]. cbn.
  by rewrite IH, forget_init_edit_mode.
Qed.

(** Well-formed questions whose buttons were not pressed are passed over;
    only their editing flags are created. *)
Lemma show_questions_prefix ev subject topics instructions pre rest : ∀ k w,
  Forall (λ q, well_formed q = true) pre →
  (∀ j, (k ≤ j < k + length pre)%nat → targets ev j = false) →
  show_questions ev subject topics instructions k (pre ++ rest) w
  = show_questions ev subject topics instructions (k + length pre) rest
      (with_session (init_edit_modes k (length pre)) w).
Proof.
  induction pre as [|q pre IH]; intros k w Hwf Hev.
  - cbn. rewrite Nat.add_0_r. by destruct w.
  - apply Forall_cons in Hwf as [Hq Hwf].
    change ((q :: pre) ++ rest) with (q :: (pre ++ rest)).
    cbn [Workflow.show_questions].
    rewrite show_question_quiet by (apply Hev; cbn; lia).
    rewrite (well_formed_renders q _ Hq). lazy beta iota zeta.
    rewrite IH; [|done|intros j Hj; apply Hev; cbn; lia].
    cbn [length]. by replace (k + S (length pre))%nat with (S k + length pre)%nat by lia.
Qed.

(** A loop in which no button of a question was pressed ends normally or in
    an exception, and an exception it is when some title cannot be
    drawn. *)
Lemma show_questions_quiet ev subject topics instructions qs : ∀ k w,
  (∀ j, (k ≤ j)%nat → targets ev j = false) →
  let r := show_questions ev subject topics instructions k qs w in
  (r.2 = Continue ∨ r.2 = Aborted)
  ∧ (Exists (λ q, is_ok (render_title q) = false) qs → r.2 = Aborted).
Proof.
  induction qs as [|q qs IH]; intros k w Hev.
  - cbn. split; [by left|]. intros H. by apply Exists_nil in H.
  - cbn [Workflow.show_questions].
    rewrite show_question_quiet by (apply Hev; lia). lazy zeta.
    unfold render_question.
    destruct (render_title q) as [[]|e] eqn:Ht; cbn [bind].
    2:{ split; [by right|done]. }
    match goal with |- context [match ?x with Ok _ => _ | Raise _ => _ end] =>
      destruct x as [[]|e] end.
    2:{ split; [by right|done]. }
    destruct (IH (S k) (with_session (init_edit_mode k) w)) as [Hc Hex].
    { intros j Hj. apply Hev. lia. }
    split; [exact Hc|]. intros [Hq|Hq]%Exists_cons; [|by apply Hex].
    by rewrite Ht in Hq.
Qed.

(** *** Runs of the page *)

(** The questions page on a draft under review. *)
Lemma teacher_dashboard_reviewing ev w qs :
  workflow_state w = Reviewing → all_mcqs w = Some qs → qs ≠ [] →
  let w0 := with_session init_session (clear_screen w) in
  let s := session_state w0 in
  teacher_dashboard ev w
  = match show_questions ev (default ""%string (teacher_subject s))
            (default ""%string (teacher_lecture_topics s))
            (default ""%string (teacher_ai_instructions s)) 0 qs w0 with
    | (w1, Continue) =>
        match ev with
        | GenerateNewSetBtn => (generate_new_set w1, Continue)
        | PublishBtn => (publish_exit_ticket w1, Continue)
        | _ => (w1, Continue)
        end
    | stopped => stopped
    end.
Proof.
  intros Hstate Hdraft Hne w0 s. subst s w0. unfold Workflow.teacher_dashboard.
  unfold workflow_state in Hstate.
  change (session_state (with_session init_session (clear_screen w)))
    with (init_session (session_state w)).
  destruct (route (init_session (session_state w))); [done|].
  unfold Workflow.show_teacher_questions_page.
  rewrite (all_mcqs_init w), Hdraft. by destruct qs.
Qed.

Lemma edit_mode_init_session j s : edit_mode j (init_session s) = edit_mode j s.
Proof. done. Qed.

Lemma workflow_state_forget w1 w2 :
  forget_edit_mode (session_state w1) = forget_edit_mode (session_state w2) →
  workflow_state w1 = workflow_state w2.
Proof. intros H. unfold workflow_state. by rewrite (route_forget _ _ H). Qed.

Lemma workflow_state_init w :
  workflow_state (with_session init_session (clear_screen w)) = workflow_state w.
Proof.
  unfold workflow_state.
  change (session_state (with_session init_session (clear_screen w)))
    with (init_session (session_state w)).
  by rewrite init_session_idemp.
Qed.

(** A run in which no widget was used. *)
Lemma teacher_dashboard_no_event (w : World) :
  let r := teacher_dashboard NoEvent w in
  history r.1 = history w
  ∧ heap r.1 = heap w
  ∧ all_mcqs r.1 = all_mcqs w
  ∧ workflow_state r.1 = workflow_state w
  ∧ (∀ j, edit_mode j (session_state r.1) = edit_mode j (session_state w))
  ∧ r.2 ≠ Rerun.
Proof.
  unfold Workflow.teacher_dashboard.
  set (w0 := with_session init_session (clear_screen w)).
  rewrite <- (all_mcqs_init w), <- (workflow_state_init w). fold w0.
  change (history w) with (history w0). change (heap w) with (heap w0).
  assert (∀ j, edit_mode j (session_state w) = edit_mode j (session_state w0))
    as Hflags by done.
  setoid_rewrite Hflags. clearbody w0. clear Hflags.
  destruct (route (session_state w0)); [done|].
  unfold Workflow.show_teacher_questions_page.
  destruct (all_mcqs w0) as [[|q qs]|] eqn:Hdraft; [done| |done].
  match goal with |- context [show_questions NoEvent ?s ?t ?i 0 ?l w0] =>
    pose proof (show_questions_static NoEvent s t i l 0%nat w0 I) as [Hh Hc];
    pose proof (show_questions_session GOOGLE_API_KEY generate_content
                  save_question NoEvent s t i l 0%nat w0) as Hs;
    pose proof (λ j, show_questions_flags NoEvent s t i l j 0%nat w0 eq_refl)
      as Hf;
    destruct (show_questions_quiet NoEvent s t i l 0%nat w0 ltac:(done))
      as [Hq _];
    destruct (show_questions NoEvent s t i 0%nat l w0) as [w1 c] end.
  cbn [fst snd] in *.
  assert (all_mcqs w1 = Some (q :: qs)) as Hd.
  { rewrite <- Hdraft. apply all_mcqs_ext; [by apply forget_all_mcqs_key|done]. }
  assert (workflow_state w1 = workflow_state w0) as Hw
    by (by apply workflow_state_forget).
  destruct Hq as [->| ->]; cbn [fst snd]; done.
Qed.

(** X7 ([show_teacher_input_page]): topics made of white space only are
    refused with an error before any call, whatever the rest of the form
    says; any other topics reach the generator, with the count of the form,
    when there is an API key. *)
Theorem X_blank_topics_refused (form : InputForm) (w : World) :
  workflow_state w = Input →
  let r := teacher_dashboard (Submit form) w in
  (Text.blank (in_lecture_topics form) = true →
     r.2 = Return
     ∧ screen r.1 = [ErrorTopicsMissing]
     ∧ history r.1 = history w
     ∧ session_state r.1 = init_session (session_state w)
     ∧ heap r.1 = heap w)
  ∧ (Text.blank (in_lecture_topics form) = false →
     Py.truthy_str GOOGLE_API_KEY = true →
     requested_counts r.1 = requested_counts w ++ [in_num_questions form]).
Proof.
  intros Hin. unfold Workflow.teacher_dashboard.
  set (w0 := with_session init_session (clear_screen w)).
  unfold workflow_state in Hin.
  change (session_state w0) with (init_session (session_state w)).
  destruct (route (init_session (session_state w))); [|done].
  unfold show_teacher_input_page. rewrite truthy_strip, negb_involutive.
  split; intros Hblank; rewrite Hblank; [done|]. intros Hkey.
  match goal with |- context [generate_mcqs ?t ?i ?n ?s w0] =>
    pose proof (requested_counts_generate_mcqs GOOGLE_API_KEY generate_content
                  save_question t i n s w0 Hkey) as Hc;
    destruct (generate_mcqs t i n s w0) as [w1 [[qs|]|]] end;
    cbn [fst] in Hc; try exact Hc.
  by destruct (_ <? _).
Qed.

(** X11 (the Generate New Set handler): whatever list of questions the
    generator returns, of any length, replaces the draft under both keys and
    is flagged ready for review; when generation fails the handler reports
    it and leaves the session and the list objects alone. *)
Theorem X_generate_new_set_outcome (w : World) :
  let s := session_state w in
  let r := generate_mcqs (default ""%string (teacher_lecture_topics s))
             (default ""%string (teacher_ai_instructions s))
             (default 5 (teacher_num_questions s))
             (default ""%string (teacher_subject s)) w in
  let w' := generate_new_set w in
  (∀ questions, r.2 = Some (Some questions) →
     all_mcqs w' = Some questions
     ∧ teacher_mcqs (session_state w') = teacher_all_mcqs (session_state w')
     ∧ teacher_ready_for_review (session_state w') = Some true
     ∧ last (screen w') = Some SuccessNewSet)
  ∧ (r.2 = None ∨ r.2 = Some None →
     session_state w' = session_state w
     ∧ heap w' = heap w
     ∧ last (screen w') = Some ErrorFailedNewSet).
Proof.
  intros s r w'. subst r w'. unfold Workflow.generate_new_set. fold s.
  match goal with |- context [generate_mcqs ?t ?i ?n ?u w] =>
    destruct (generate_mcqs_frame GOOGLE_API_KEY generate_content save_question
                t i n u w) as [Hs Hh];
    destruct (generate_mcqs t i n u w) as [w1 r] end.
  cbn [fst snd] in *. split.
  - intros questions ->. split_and!; try done.
    + unfold all_mcqs. cbn. apply lookup_insert_eq.
    + unfold say at 1. cbn [screen]. apply last_snoc.
  - intros [-> | ->]; (split_and!; [done|done|]);
      unfold say at 1; cbn [screen]; apply last_snoc.
Qed.

(** X12 ([publish_exit_ticket] behind the Publish button): on a non-empty
    draft whose questions can all be drawn, the run makes exactly one call,
    to [create_exit_ticket], with the draft as it stands, the teacher name
    "Professor", and the stored subject and topics or their defaults. *)
Theorem X_publish_sends_current_draft (w : World) (qs : list question) :
  workflow_state w = Reviewing →
  all_mcqs w = Some qs → qs ≠ [] →
  Forall (λ q, well_formed q = true) qs →
  history (teacher_dashboard PublishBtn w).1
  = history w
    ++ [CreateExitTicket qs "Professor"
          (default "Unknown Subject"%string (teacher_subject (session_state w)))
          (default "No topics specified"%string
             (teacher_lecture_topics (session_state w)))].
Proof.
  intros Hstate Hdraft Hne Hwf.
  rewrite (teacher_dashboard_reviewing PublishBtn w qs Hstate Hdraft Hne).
  lazy zeta.
  set (w0 := with_session init_session (clear_screen w)).
  match goal with |- context [show_questions PublishBtn ?s ?t ?i 0 qs w0] =>
    pose proof (show_questions_prefix PublishBtn s t i qs [] 0%nat w0 Hwf
                  ltac:(done)) as Hrun;
    rewrite app_nil_r in Hrun; rewrite Hrun end.
  cbn [Workflow.show_questions fst].
  set (w1 := with_session _ w0).
  assert (all_mcqs w1 = Some qs) as Hd.
  { rewrite <- Hdraft, <- (all_mcqs_init w). fold w0.
    apply all_mcqs_ext; [|done]. apply forget_all_mcqs_key. cbn.
    apply forget_init_edit_modes. }
  unfold Workflow.publish_exit_ticket. rewrite Hd.
  destruct qs as [|q qs']; [done|].
  assert (teacher_subject (session_state w1) = teacher_subject (session_state w)
          ∧ teacher_lecture_topics (session_state w1)
            = teacher_lecture_topics (session_state w)) as [-> ->].
  { pose proof (forget_init_edit_modes (length (q :: qs')) 0
                  (session_state w0)) as Hf.
    change (init_edit_modes 0 (length (q :: qs')) (session_state w0))
      with (session_state w1) in Hf.
    injection Hf as _ _ _ H4 H5 _. by split. }
  by destruct (create_exit_ticket _ _ _ _ _).
Qed.

(** X10 ([show_teacher_questions_page]): when some question of the draft
    has no text to draw, a run of the questions page stops in an exception
    before the buttons below the questions are reached: Generate New Set
    and Publish call no service, and the draft stays in review. *)
Theorem X_undrawable_question_stops_page (ev : event) (w : World)
    (qs : list question) :
  workflow_state w = Reviewing →
  all_mcqs w = Some qs →
  Exists (λ q, is_ok (render_title q) = false) qs →
  ev = PublishBtn ∨ ev = GenerateNewSetBtn ∨ ev = NoEvent →
  let r := teacher_dashboard ev w in
  r.2 = Aborted
  ∧ history r.1 = history w
  ∧ all_mcqs r.1 = Some qs
  ∧ workflow_state r.1 = Reviewing.
Proof.
  intros Hstate Hdraft Hbad Hev.
  assert (qs ≠ []) as Hne by (intros ->; by apply Exists_nil in Hbad).
  rewrite (teacher_dashboard_reviewing ev w qs Hstate Hdraft Hne). lazy zeta.
  set (w0 := with_session init_session (clear_screen w)).
  assert (∀ j, targets ev j = false) as Hquiet
    by (by destruct Hev as [-> | [-> | ->]]).
  assert (match ev with SaveBtn _ _ | RegenerateBtn _ => False | _ => True end)
    as Hstatic by (by destruct Hev as [-> | [-> | ->]]).
  match goal with |- context [show_questions ev ?s ?t ?i 0 qs w0] =>
    pose proof (show_questions_static ev s t i qs 0%nat w0 Hstatic) as [Hh Hc];
    pose proof (show_questions_session GOOGLE_API_KEY generate_content
                  save_question ev s t i qs 0%nat w0) as Hs;
    destruct (show_questions_quiet ev s t i qs 0%nat w0 ltac:(done))
      as [_ Hq];
    destruct (show_questions ev s t i 0%nat qs w0) as [w1 c] end.
  cbn [fst snd] in *. rewrite (Hq Hbad). cbn [fst snd].
  split_and!; [done|done| |].
  - rewrite <- Hdraft, <- (all_mcqs_init w). fold w0.
    apply all_mcqs_ext; [by apply forget_all_mcqs_key|done].
  - rewrite <- Hstate, <- (workflow_state_init w). fold w0.
    by apply workflow_state_forget.
Qed.

(** X6 ([teacher_dashboard], a run in which no widget was used): no
    service is called, no list object changes, the draft, the workflow state
    and the editing mode of every question are as they were, and the run
    does not end in a rerun. *)
Theorem X_render_only_run (w : World) :
  let r := teacher_dashboard NoEvent w in
  history r.1 = history w
  ∧ heap r.1 = heap w
  ∧ all_mcqs r.1 = all_mcqs w
  ∧ workflow_state r.1 = workflow_state w
  ∧ (∀ j, edit_mode j (session_state r.1) = edit_mode j (session_state w))
  ∧ r.2 ≠ Rerun.
Proof. exact (teacher_dashboard_no_event w). Qed.

(** The three ways a run can go: the input page, the questions page
    without questions, the questions page with its loop and the buttons
    below it. *)
Lemma teacher_dashboard_cases ev w (P : World * control → Prop) :
  let w0 := with_session init_session (clear_screen w) in
  let s := session_state w0 in
  (route s = InputPage →
   P (show_teacher_input_page GOOGLE_API_KEY generate_content save_question
        ev w0)) →
  (route s = QuestionsPage → all_mcqs w0 = None ∨ all_mcqs w0 = Some [] →
   P (say WarningNoQuestions w0, Return)) →
  (∀ qs, route s = QuestionsPage → all_mcqs w0 = Some qs → qs ≠ [] →
     P (match show_questions ev (default ""%string (teacher_subject s))
                (default ""%string (teacher_lecture_topics s))
                (default ""%string (teacher_ai_instructions s)) 0 qs w0 with
        | (w1, Continue) =>
            match ev with
            | GenerateNewSetBtn => (generate_new_set w1, Continue)
            | PublishBtn => (publish_exit_ticket w1, Continue)
            | _ => (w1, Continue)
            end
        | stopped => stopped
        end)) →
  P (teacher_dashboard ev w).
Proof.
  intros w0 s Hinput Hnone Hloop. unfold Workflow.teacher_dashboard. fold w0.
  fold s. destruct (route s) eqn:Hroute; [by apply Hinput|].
  unfold Workflow.show_teacher_questions_page. fold s.
  destruct (all_mcqs w0) as [[|q qs]|] eqn:Hdraft.
  - apply Hnone; auto.
  - by apply (Hloop (q :: qs)).
  - apply Hnone; auto.
Qed.

(** *** Buttons of one question *)

Lemma show_question_quiet_frame ev subject topics instructions k q w :
  targets ev k = false →
  let r := show_question ev subject topics instructions k q w in
  heap r.1 = heap w ∧ history r.1 = history w
  ∧ (r.2 = Continue ∨ r.2 = Aborted).
Proof.
  intros Hev. rewrite show_question_quiet by done. lazy zeta.
  destruct (render_question _ q); cbn; split_and!; auto.
Qed.

Lemma show_questions_quiet_frame ev subject topics instructions qs : ∀ k w,
  (∀ j, (k ≤ j)%nat → targets ev j = false) →
  let r := show_questions ev subject topics instructions k qs w in
  heap r.1 = heap w ∧ history r.1 = history w
  ∧ (r.2 = Continue ∨ r.2 = Aborted).
Proof.
  induction qs as [|q qs IH]; intros k w Hev; [cbn; auto|].
  cbn [Workflow.show_questions].
  destruct (show_question_quiet_frame ev subject topics instructions k q w)
    as (Hh & Hc & Hq); [apply Hev; lia|].
  destruct (show_question ev subject topics instructions k q w) as [w1 c].
  cbn [fst snd] in *. destruct Hq as [-> | ->]; [|cbn; auto].
  destruct (IH (S k) w1) as (Hh' & Hc' & Hq'); [intros j Hj; apply Hev; lia|].
  split_and!; [congruence|congruence|done].
Qed.

Lemma targets_after ev i k :
  match ev with
  | EditBtn j | RegenerateBtn j | SaveBtn j _ | CancelBtn j => j = i
  | _ => True
  end →
  (i < k)%nat → ∀ j, (k ≤ j)%nat → targets ev j = false.
Proof.
  intros Hev Hik j Hj. destruct ev; try done; cbn;
    apply bool_decide_eq_false; lia.
Qed.

Lemma targets_other ev i k :
  match ev with
  | EditBtn j | RegenerateBtn j | SaveBtn j _ | CancelBtn j => j = i
  | _ => True
  end →
  k ≠ i → targets ev k = false.
Proof.
  intros Hev Hk. destruct ev; try done; cbn; apply bool_decide_eq_false;
    congruence.
Qed.

(** The step of a well-formed question in editing mode. *)
Lemma show_question_editing ev subject topics instructions i q w :
  well_formed q = true → edit_mode i (session_state w) = true →
  ∃ options,
    options_of q = Ok options
    ∧ show_question ev subject topics instructions i q w
      = let w0 := with_session (init_edit_mode i) w in
        match ev with
        | SaveBtn j form =>
            if decide (j = i) then
              (say SuccessUpdated
                 (with_session (set_edit_mode i false)
                    (assign_item i (edited form options) w0)), Rerun)
            else (w0, Continue)
        | CancelBtn j =>
            if decide (j = i) then
              (with_session (set_edit_mode i false) w0, Rerun)
            else (w0, Continue)
        | _ => (w0, Continue)
        end.
Proof.
  intros [Ht He]%andb_true_iff Hmode. unfold Workflow.show_question.
  cbn [session_state with_session]. rewrite edit_mode_init_edit_mode, Hmode.
  cbn [negb]. destruct (render_title q) as [[]|]; [|done].
  unfold render_edit in *.
  destruct (options_of q) as [options|]; [|done]. cbn [bind] in *.
  exists options. split; [done|].
  destruct (getitem q "correct_answer") as [[c|]|]; try done. cbn [bind] in *.
  case_decide; [|done]. by destruct ev.
Qed.

(** The step of a well-formed question in reading mode, when its Edit
    button was pressed. *)
Lemma show_question_edit_button subject topics instructions i q w :
  well_formed q = true → edit_mode i (session_state w) = false →
  show_question (EditBtn i) subject topics instructions i q w
  = (with_session (set_edit_mode i true) (with_session (init_edit_mode i) w),
     Continue).
Proof.
  intros Hwf Hmode. pose proof (well_formed_renders q false Hwf) as Hr.
  unfold render_question in Hr. unfold Workflow.show_question.
  cbn [session_state with_session]. rewrite edit_mode_init_edit_mode, Hmode.
  cbn [negb]. destruct (render_title q) as [[]|]; [|done]. cbn [bind] in Hr.
  rewrite Hr. by rewrite decide_True.
Qed.

Lemma show_question_cancel i subject topics instructions q w :
  let r := show_question (CancelBtn i) subject topics instructions i q w in
  r.2 = Rerun →
  edit_mode i (session_state w) = true
  ∧ edit_mode i (session_state r.1) = false.
Proof.
  unfold Workflow.show_question.
  cbn [session_state with_session]. rewrite edit_mode_init_edit_mode.
  destruct (render_title q); [|done].
  destruct (edit_mode i (session_state w)) eqn:Hmode; cbn [negb].
  - destruct (render_edit q); [|done]. rewrite decide_True by done.
    intros _. split; [done|].
    change (edit_mode i (set_edit_mode i false
                           (init_edit_mode i (session_state w))) = false).
    rewrite edit_mode_set_edit_mode. by rewrite decide_True.
  - by destruct (render_view q).
Qed.

Lemma show_questions_cancel i subject topics instructions qs : ∀ k w,
  let r := show_questions (CancelBtn i) subject topics instructions k qs w in
  r.2 = Rerun →
  edit_mode i (session_state w) = true
  ∧ edit_mode i (session_state r.1) = false.
Proof.
  induction qs as [|q qs IH]; intros k w; [done|].
  cbn [Workflow.show_questions].
  destruct (decide (k = i)) as [->|Hk].
  - pose proof (show_question_cancel i subject topics instructions q w) as Hstep.
    destruct (show_question (CancelBtn i) subject topics instructions i q w)
      as [w1 c]. cbn [fst snd] in *.
    destruct c; lazy zeta; cbn [fst snd]; try done.
    match goal with |- context [show_questions ?e ?s ?t ?n (S i) qs ?x] =>
      destruct (show_questions_quiet_frame e s t n qs (S i) x) as (_ & _ & Hq)
    end.
    { apply (targets_after _ i); [done|lia]. }
    lazy zeta in Hq. intros Hr. rewrite Hr in Hq. by destruct Hq.
  - pose proof (show_question_flags_other (CancelBtn i) subject topics
                  instructions k q w i ltac:(done)) as Hf.
    destruct (show_question_quiet_frame (CancelBtn i) subject topics
                instructions k q w) as (_ & _ & Hq).
    { apply (targets_other _ i); done. }
    destruct (show_question (CancelBtn i) subject topics instructions k q w)
      as [w1 c]. cbn [fst snd] in *.
    destruct Hq as [-> | ->]; [|done].
    lazy zeta. intros Hr. destruct (IH (S k) w1 Hr) as [H1 H2].
    split; congruence.
Qed.

(** X9 ([show_teacher_questions_page], Cancel): a run triggered by Cancel
    calls no service and leaves the draft, the workflow state and the
    editing flags of the other questions as they were; when it ends in a
    rerun, question [i] was in editing mode and is back in reading mode; on
    a well-formed draft that is so whenever question [i] is in editing
    mode. *)
Theorem X_cancel_keeps_draft (i : nat) (w : World) :
  let r := teacher_dashboard (CancelBtn i) w in
  history r.1 = history w
  ∧ all_mcqs r.1 = all_mcqs w
  ∧ workflow_state r.1 = workflow_state w
  ∧ (∀ j, j ≠ i →
       edit_mode j (session_state r.1) = edit_mode j (session_state w))
  ∧ (r.2 = Rerun →
     edit_mode i (session_state w) = true
     ∧ edit_mode i (session_state r.1) = false)
  ∧ (∀ qs, workflow_state w = Reviewing → all_mcqs w = Some qs →
       Forall (λ q, well_formed q = true) qs → (i < length qs)%nat →
       edit_mode i (session_state w) = true → r.2 = Rerun).
Proof.
  assert (∀ qs, workflow_state w = Reviewing → all_mcqs w = Some qs →
            Forall (λ q, well_formed q = true) qs → (i < length qs)%nat →
            edit_mode i (session_state w) = true →
            (teacher_dashboard (CancelBtn i) w).2 = Rerun) as Hpositive.
  { intros qs Hstate Hdraft Hwf Hi Hmode.
    assert (qs ≠ []) as Hne by (intros ->; cbn in Hi; lia).
    rewrite (teacher_dashboard_reviewing _ w qs Hstate Hdraft Hne). lazy zeta.
    destruct (lookup_lt_is_Some_2 qs i Hi) as [q Hq].
    rewrite <- (take_drop_middle qs i q Hq) at 1.
    rewrite show_questions_prefix.
    2:{ by apply Forall_take. }
    2:{ intros j. rewrite length_take. intros Hj. cbn.
        apply bool_decide_eq_false. lia. }
    rewrite length_take, Nat.min_l by lia. cbn [Nat.add Workflow.show_questions].
    match goal with |- context [show_question ?e ?s ?t ?n i q ?x] =>
      destruct (show_question_editing e s t n i q x) as (options & _ & ->) end.
    - eapply Forall_lookup_1 in Hwf; [exact Hwf|exact Hq].
    - cbn [session_state with_session]. by rewrite edit_mode_init_edit_modes.
    - lazy zeta. by rewrite decide_True. }
  intros r.
  assert (history r.1 = history w
          ∧ all_mcqs r.1 = all_mcqs w
          ∧ workflow_state r.1 = workflow_state w
          ∧ (∀ j, j ≠ i →
               edit_mode j (session_state r.1) = edit_mode j (session_state w))
          ∧ (r.2 = Rerun →
             edit_mode i (session_state w) = true
             ∧ edit_mode i (session_state r.1) = false)) as Hframe.
  { subst r. pattern (teacher_dashboard (CancelBtn i) w).
    apply teacher_dashboard_cases; lazy zeta.
    - intros _. cbn [show_teacher_input_page fst snd].
      split_and!; [done|apply all_mcqs_init|apply workflow_state_init|done|done].
    - intros _ _. cbn [fst snd].
      split_and!; [done|apply all_mcqs_init|apply workflow_state_init|done|done].
    - intros qs _ Hdraft _.
      set (w0 := with_session init_session (clear_screen w)) in *.
      match goal with |- context [show_questions ?e ?s ?t ?n 0 qs w0] =>
        pose proof (show_questions_static e s t n qs 0%nat w0 I) as [Hh Hc];
        pose proof (show_questions_session GOOGLE_API_KEY generate_content
                      save_question e s t n qs 0%nat w0) as Hs;
        pose proof (λ j Hj, show_questions_flags e s t n qs j 0%nat w0
                              (targets_other e i j eq_refl Hj)) as Hf;
        pose proof (show_questions_cancel i s t n qs 0%nat w0) as Hr;
        destruct (show_questions e s t n 0%nat qs w0) as [w1 c] end.
      cbn [fst snd] in *.
      assert (all_mcqs w1 = all_mcqs w) as Hd.
      { rewrite <- (all_mcqs_init w). fold w0.
        apply all_mcqs_ext; [by apply forget_all_mcqs_key|done]. }
      assert (workflow_state w1 = workflow_state w) as Hw.
      { rewrite <- (workflow_state_init w). fold w0.
        by apply workflow_state_forget. }
      destruct c; cbn [fst snd]; split_and!; try done; by apply Hr. }
  destruct Hframe as (H1 & H2 & H3 & H4 & H5). split_and!; done.
Qed.

Lemma interact_not_rerun ev w :
  (teacher_dashboard ev w).2 ≠ Rerun → interact ev w = (teacher_dashboard ev w).1.
Proof.
  unfold Workflow.interact. by destruct (teacher_dashboard ev w) as [w1 []].
Qed.

Lemma interact_rerun ev w :
  (teacher_dashboard ev w).2 = Rerun →
  interact ev w = (teacher_dashboard NoEvent (teacher_dashboard ev w).1).1.
Proof.
  unfold Workflow.interact. by destruct (teacher_dashboard ev w) as [w1 []].
Qed.

(** The run of the Edit button of a question in reading mode. *)
Lemma edit_button_run (i : nat) (w : World) (qs : list question) :
  workflow_state w = Reviewing → all_mcqs w = Some qs →
  Forall (λ q, well_formed q = true) qs → (i < length qs)%nat →
  edit_mode i (session_state w) = false →
  let r := teacher_dashboard (EditBtn i) w in
  r.2 ≠ Rerun
  ∧ history r.1 = history w
  ∧ all_mcqs r.1 = Some qs
  ∧ workflow_state r.1 = Reviewing
  ∧ edit_mode i (session_state r.1) = true.
Proof.
  intros Hstate Hdraft Hwf Hi Hmode.
  assert (qs ≠ []) as Hne by (intros ->; cbn in Hi; lia).
  rewrite (teacher_dashboard_reviewing _ w qs Hstate Hdraft Hne). lazy zeta.
  set (w0 := with_session init_session (clear_screen w)).
  match goal with |- context [show_questions ?e ?s ?t ?n 0 qs w0] =>
    pose proof (show_questions_static e s t n qs 0%nat w0 I) as [Hh Hc];
    pose proof (show_questions_session GOOGLE_API_KEY generate_content
                  save_question e s t n qs 0%nat w0) as Hs;
    assert (edit_mode i (session_state (show_questions e s t n 0%nat qs w0).1)
            = true
            ∧ (show_questions e s t n 0%nat qs w0).2 ≠ Rerun) as [Hflag Hc'] end.
  { destruct (lookup_lt_is_Some_2 qs i Hi) as [q Hq].
    rewrite <- (take_drop_middle qs i q Hq).
    rewrite show_questions_prefix.
    2:{ by apply Forall_take. }
    2:{ intros j. rewrite length_take. intros Hj. cbn.
        apply bool_decide_eq_false. lia. }
    rewrite length_take, Nat.min_l by lia.
    cbn [Nat.add Workflow.show_questions].
    rewrite show_question_edit_button.
    2:{ eapply Forall_lookup_1 in Hwf; [exact Hwf|exact Hq]. }
    2:{ cbn [session_state with_session].
        by rewrite edit_mode_init_edit_modes. }
    match goal with |- context [show_questions ?e ?s ?t ?n (S i) ?l ?x] =>
      pose proof (show_questions_flags_before e s t n l i (S i) x ltac:(lia))
        as Hb;
      destruct (show_questions_quiet_frame e s t n l (S i) x) as (_ & _ & Hq');
      [apply (targets_after _ i); [done|lia]|];
      destruct (show_questions e s t n (S i) l x) as [w2 c2] end.
    cbn [fst snd] in *. split.
    - rewrite Hb. cbn [session_state with_session].
      rewrite edit_mode_set_edit_mode. by rewrite decide_True.
    - by destruct Hq' as [-> | ->]. }
  match goal with |- context [show_questions ?e ?s ?t ?n 0 qs w0] =>
    destruct (show_questions e s t n 0%nat qs w0) as [w1 c] end.
  cbn [fst snd] in *.
  assert (all_mcqs w1 = Some qs) as Hd.
  { rewrite <- Hdraft, <- (all_mcqs_init w). fold w0.
    apply all_mcqs_ext; [by apply forget_all_mcqs_key|done]. }
  assert (workflow_state w1 = Reviewing) as Hw.
  { rewrite <- Hstate, <- (workflow_state_init w). fold w0.
    by apply workflow_state_forget. }
  destruct c; cbn [fst snd]; done.
Qed.

(** The run of the Save button of a question in editing mode. *)
Lemma save_button_run (i : nat) (form : EditForm) (w : World)
    (qs : list question) (q : question) :
  workflow_state w = Reviewing → all_mcqs w = Some qs →
  Forall (λ q, well_formed q = true) qs → qs !! i = Some q →
  edit_mode i (session_state w) = true →
  let r := teacher_dashboard (SaveBtn i form) w in
  ∃ options,
    options_of q = Ok options
    ∧ r.2 = Rerun
    ∧ history r.1 = history w
    ∧ all_mcqs r.1 = Some (<[i := edited form options]> qs)
    ∧ workflow_state r.1 = Reviewing
    ∧ edit_mode i (session_state r.1) = false.
Proof.
  intros Hstate Hdraft Hwf Hq Hmode.
  assert (i < length qs)%nat as Hi by (by eapply lookup_lt_Some).
  assert (qs ≠ []) as Hne by (intros ->; cbn in Hi; lia).
  rewrite (teacher_dashboard_reviewing _ w qs Hstate Hdraft Hne). lazy zeta.
  set (w0 := with_session init_session (clear_screen w)).
  match goal with |- context [show_questions ?e ?s ?t ?n 0 qs w0] =>
    replace (show_questions e s t n 0%nat qs w0)
      with (show_questions e s t n 0%nat (take i qs ++ q :: drop (S i) qs) w0)
      by (by rewrite (take_drop_middle qs i q Hq)) end.
  rewrite show_questions_prefix.
  2:{ by apply Forall_take. }
  2:{ intros j. rewrite length_take. intros Hj. cbn.
      apply bool_decide_eq_false. lia. }
  rewrite length_take, Nat.min_l by lia.
  cbn [Nat.add Workflow.show_questions].
  set (w' := with_session (init_edit_modes 0 i) w0).
  assert (forget_edit_mode (session_state w')
          = forget_edit_mode (session_state w0)) as Hs
    by apply forget_init_edit_modes.
  match goal with |- context [show_question ?e ?s ?t ?n i q w'] =>
    destruct (show_question_editing e s t n i q w') as (options & Hopt & ->) end.
  { eapply Forall_lookup_1 in Hwf; [exact Hwf|exact Hq]. }
  { unfold w'. cbn [session_state with_session].
    by rewrite edit_mode_init_edit_modes. }
  lazy zeta. rewrite decide_True by done. cbn [fst snd].
  exists options. split_and!; [done|done|..].
  - cbn [history say with_session]. unfold assign_item.
    cbn [session_state with_session].
    by destruct (teacher_all_mcqs _) as [[?|]|].
  - eapply (all_mcqs_assign_item i _ w0).
    + rewrite <- Hdraft. apply all_mcqs_init.
    + cbn [session_state say with_session]. rewrite session_assign_item.
      cbn [session_state with_session teacher_all_mcqs set_edit_mode].
      rewrite all_mcqs_key_init_edit_mode. by apply forget_all_mcqs_key.
    + cbn [heap say with_session]. apply heap_assign_item_ext; [|done].
      cbn [session_state with_session].
      rewrite all_mcqs_key_init_edit_mode. by apply forget_all_mcqs_key.
  - rewrite <- Hstate, <- (workflow_state_init w). fold w0.
    apply workflow_state_forget.
    cbn [session_state say with_session]. rewrite session_assign_item.
    cbn [session_state with_session]. rewrite <- Hs.
    by rewrite <- (forget_init_edit_mode i (session_state w')).
  - cbn [session_state say with_session].
    rewrite edit_mode_set_edit_mode. by rewrite decide_True.
Qed.

(** X8 ([show_teacher_questions_page], Edit then Save): on a draft whose
    questions are well formed, Edit puts question [i] in editing mode and
    leaves the draft alone; Save then replaces question [i] by the edited
    dict, with the option letters it had, puts it back in reading mode and
    keeps the workflow in review.  No service is called on the way: an
    edited question is never logged. *)
Theorem X_edit_then_save (i : nat) (form : EditForm) (w : World)
    (qs : list question) (q : question) :
  workflow_state w = Reviewing → all_mcqs w = Some qs →
  Forall (λ q, well_formed q = true) qs → qs !! i = Some q →
  edit_mode i (session_state w) = false →
  let w1 := interact (EditBtn i) w in
  let w2 := interact (SaveBtn i form) w1 in
  all_mcqs w1 = Some qs
  ∧ edit_mode i (session_state w1) = true
  ∧ ∃ options new_options,
      options_of q = Ok options
      ∧ all_mcqs w2 = Some (<[i := edited form options]> qs)
      ∧ options_of (edited form options) = Ok new_options
      ∧ dom new_options = dom options
      ∧ edit_mode i (session_state w2) = false
      ∧ workflow_state w2 = Reviewing
      ∧ history w2 = history w.
Proof.
  intros Hstate Hdraft Hwf Hq Hmode w1 w2.
  assert (i < length qs)%nat as Hi by (by eapply lookup_lt_Some).
  destruct (edit_button_run i w qs Hstate Hdraft Hwf Hi Hmode)
    as (Hc1 & Hh1 & Hd1 & Hw1 & Hf1).
  assert (w1 = (teacher_dashboard (EditBtn i) w).1) as Hw1eq
    by (by apply interact_not_rerun).
  rewrite <- Hw1eq in Hh1, Hd1, Hw1, Hf1.
  split; [done|]. split; [done|].
  destruct (save_button_run i form w1 qs q Hw1 Hd1 Hwf Hq Hf1)
    as (options & Hopt & Hc2 & Hh2 & Hd2 & Hw2 & Hf2).
  assert (w2 = (teacher_dashboard NoEvent
                  (teacher_dashboard (SaveBtn i form) w1).1).1) as Hw2eq
    by (by apply interact_rerun).
  destruct (teacher_dashboard_no_event (teacher_dashboard (SaveBtn i form) w1).1)
    as (Hh3 & _ & Hd3 & Hw3 & Hf3 & _).
  rewrite <- Hw2eq in Hh3, Hd3, Hw3, Hf3.
  exists options, (map_imap (λ option _, Some (option_text form option)) options).
  split_and!.
  - done.
  - by rewrite Hd3.
  - done.
  - apply set_eq. intros letter. rewrite !elem_of_dom, map_lookup_imap.
    destruct (options !! letter); cbn; split; intros [? ?]; eauto; done.
  - by rewrite Hf3.
  - by rewrite Hw3.
  - by rewrite Hh3, Hh2.
Qed.

(** *** Regenerating one question *)









(** *** The two draft keys *)

Lemma coherent_ext w1 w2 :
  forget_edit_mode (session_state w1) = forget_edit_mode (session_state w2) →
  (∀ l, is_Some (heap w2 !! l) → is_Some (heap w1 !! l)) →
  coherent w2 → coherent w1.
Proof.
  intros Hs Hh [Hk Hl]. injection Hs as H1 H2 _. unfold coherent.
  rewrite H1, H2. split; [done|]. intros l Hl'. apply Hh. by apply Hl.
Qed.

Lemma heap_assign_item_is_Some i q w l :
  is_Some (heap w !! l) → is_Some (heap (assign_item i q w) !! l).
Proof.
  unfold assign_item.
  destruct (teacher_all_mcqs (session_state w)) as [[l0|]|]; try done.
  cbn. destruct (decide (l0 = l)) as [->|Hne].
  - rewrite lookup_alter_eq. intros [x ->]. by eexists.
  - by rewrite lookup_alter_ne.
Qed.

Lemma show_question_heap_kept ev subject topics instructions k q w l :
  is_Some (heap w !! l) →
  is_Some (heap (show_question ev subject topics instructions k q w).1 !! l).
Proof.
  intros Hl. unfold Workflow.show_question.
  destruct (render_title q); [|done].
  destruct (negb _).
  - destruct (render_view q); [|done].
    destruct ev; try done; case_decide; try done.
    unfold Workflow.regenerate_teacher_question.
    match goal with |- context [generate_mcqs ?t ?n ?c ?s ?x] =>
      pose proof (generate_mcqs_frame GOOGLE_API_KEY generate_content
                    save_question t n c s x) as [_ Hh];
      destruct (generate_mcqs t n c s x) as [w1 [[[|q' ?]|]|]] end;
      cbn [fst snd heap say] in *; try (by rewrite Hh).
    apply heap_assign_item_is_Some. by rewrite Hh.
  - destruct (render_edit q); [|done].
    destruct ev; try done; case_decide; try done.
    cbn [fst heap say with_session]. by apply heap_assign_item_is_Some.
Qed.

Lemma show_questions_heap_kept ev subject topics instructions qs l : ∀ k w,
  is_Some (heap w !! l) →
  is_Some (heap (show_questions ev subject topics instructions k qs w).1 !! l).
Proof.
  induction qs as [|q qs IH]; intros k w Hl; [done|].
  cbn [Workflow.show_questions].
  pose proof (show_question_heap_kept ev subject topics instructions k q w l Hl)
    as Hq.
  destruct (show_question ev subject topics instructions k q w) as [w1 []];
    cbn [fst] in *; try done.
  by apply IH.
Qed.

Lemma coherent_store_draft qs w f :
  (∀ s, teacher_mcqs (f s) = teacher_mcqs s
        ∧ teacher_all_mcqs (f s) = teacher_all_mcqs s) →
  coherent (with_session f (store_draft qs w)).
Proof.
  intros Hf. unfold coherent, store_draft.
  cbn [session_state with_session with_heap heap].
  match goal with |- context [f ?s] => destruct (Hf s) as [-> ->] end.
  cbn. split; [done|]. intros l [= <-]. rewrite lookup_insert_eq. by eexists.
Qed.

Lemma coherent_generate_new_set w : coherent w → coherent (generate_new_set w).
Proof.
  intros Hw. unfold Workflow.generate_new_set.
  match goal with |- context [generate_mcqs ?t ?n ?c ?s w] =>
    pose proof (generate_mcqs_frame GOOGLE_API_KEY generate_content
                  save_question t n c s w) as [Hs Hh];
    destruct (generate_mcqs t n c s w) as [w1 [[qs|]|]] end;
    cbn [fst] in *.
  - apply (coherent_store_draft qs w1 (set_ready_for_review true)). done.
  - apply (coherent_ext _ w); [cbn; by rewrite Hs|cbn; by rewrite Hh|done].
  - apply (coherent_ext _ w); [cbn; by rewrite Hs|cbn; by rewrite Hh|done].
Qed.

Lemma coherent_publish_exit_ticket w :
  coherent w → coherent (publish_exit_ticket w).
Proof.
  intros Hw. unfold Workflow.publish_exit_ticket.
  destruct (all_mcqs w) as [[|q qs]|]; try done.
  by destruct (create_exit_ticket _ _ _ _ _).
Qed.

Lemma coherent_init w :
  coherent w → coherent (with_session init_session (clear_screen w)).
Proof.
  intros [Hk Hl]. unfold coherent. cbn. rewrite Hk. split; [done|].
  intros l Hl'. apply Hl. rewrite <- Hl'.
  by destruct (teacher_all_mcqs (session_state w)) as [[?|]|].
Qed.

Lemma coherent_teacher_dashboard ev w :
  coherent w → coherent (teacher_dashboard ev w).1.
Proof.
  intros Hw%coherent_init. pattern (teacher_dashboard ev w).
  apply teacher_dashboard_cases; lazy zeta.
  - intros _.
    set (w0 := with_session init_session (clear_screen w)) in *. clearbody w0.
    unfold show_teacher_input_page. destruct ev; try done.
    destruct (negb _); [done|].
    match goal with |- context [generate_mcqs ?t ?n ?c ?s w0] =>
      pose proof (generate_mcqs_frame GOOGLE_API_KEY generate_content
                    save_question t n c s w0) as [Hs Hh];
      destruct (generate_mcqs t n c s w0) as [w1 [[qs|]|]] end;
      cbn [fst] in *.
    + destruct (_ <? _); cbn [fst].
      * apply (coherent_ext _ w0); [cbn; by rewrite Hs|cbn; by rewrite Hh|done].
      * by apply coherent_store_draft.
    + apply (coherent_ext _ w0); [cbn; by rewrite Hs|cbn; by rewrite Hh|done].
    + apply (coherent_ext _ w0); [cbn; by rewrite Hs|cbn; by rewrite Hh|done].
  - done.
  - intros qs _ _ _.
    set (w0 := with_session init_session (clear_screen w)) in *. clearbody w0.
    match goal with |- context [show_questions ev ?s ?t ?n 0 qs w0] =>
      pose proof (show_questions_session GOOGLE_API_KEY generate_content
                    save_question ev s t n qs 0%nat w0) as Hs;
      pose proof (λ l, show_questions_heap_kept ev s t n qs l 0%nat w0) as Hh;
      destruct (show_questions ev s t n 0%nat qs w0) as [w1 c] end.
    cbn [fst] in *.
    assert (coherent w1) as Hw1 by (by apply (coherent_ext _ w0)).
    destruct c; cbn [fst]; try done.
    destruct ev; cbn [fst]; try done.
    + by apply coherent_generate_new_set.
    + by apply coherent_publish_exit_ticket.
Qed.

Lemma coherent_interactions evs : ∀ w,
  coherent w → coherent (interactions evs w).
Proof.
  induction evs as [|ev evs IH]; intros w Hw; [done|]. cbn [Workflow.interactions].
  apply IH. unfold Workflow.interact.
  pose proof (coherent_teacher_dashboard ev w Hw) as H1.
  destruct (teacher_dashboard ev w) as [w1 []]; cbn [fst] in *; try done.
  by apply coherent_teacher_dashboard.
Qed.

(** X5 ([teacher_dashboard] and the pages it shows): after any sequence
    of widget events from a fresh session, [teacher_mcqs] and
    [teacher_all_mcqs] hold the same value, and a workflow in review has a
    draft list to show. *)
Theorem X_draft_keys_agree (evs : list event) :
  let w := interactions evs empty_world in
  teacher_mcqs (session_state w) = teacher_all_mcqs (session_state w)
  ∧ (workflow_state w = Reviewing → is_Some (all_mcqs w)).
Proof.
  intros w.
  assert (coherent w) as [Hk Hl].
  { apply coherent_interactions. split; [done|]. intros l Hl. discriminate Hl. }
  split; [done|]. unfold workflow_state, route. cbn.
  destruct (teacher_mcqs (session_state w)) as [[l|]|] eqn:Hm; try done.
  intros _. unfold all_mcqs. rewrite <- Hk. by apply Hl.
Qed.

End Pages.

(** ** Flag statistics and the response headers *)

Lemma add_flag_total idx name q st :
  tallied idx st →
  total_flags (add_flag name q st)
  = (total_flags st + (if decide (q ∈ idx) then 1 else 0))%nat.
Proof.
  intros (Hdom & _ & _). unfold add_flag.
  destruct (question_flag_details st !! q) as [d|] eqn:Hq.
  - rewrite decide_True; [done|]. apply Hdom. by eexists.
  - rewrite decide_False; [lia|]. intros Hin%Hdom. rewrite Hq in Hin.
    by destruct Hin.
Qed.

Lemma count_flags_total questions name items : ∀ st st',
  tallied (indices questions) st →
  count_flags name items st = Ok st' →
  tallied (indices questions) st'
  ∧ total_flags st'
    = (total_flags st
       + length (filter (λ e : Py.key * bool, e.2 = true)
                   (filter (λ e, key_in_range questions e = true) items)))%nat.
Proof.
  induction items as [|[k b] items IH]; intros st st' Hst Hrun.
  - injection Hrun as <-. split; [done|]. cbn. lia.
  - cbn [count_flags] in Hrun. rewrite filter_cons.
    destruct b.
    + destruct (Py.int k) as [q|e] eqn:Hint; [|done]. cbn [bind] in Hrun.
      apply IH in Hrun as [Hst' ->];
        [|by apply add_flag_tallied; [apply NoDup_indices|]].
      split; [done|]. rewrite (add_flag_total (indices questions)) by done.
      destruct (decide (q ∈ indices questions)) as [Hq|Hq].
      * rewrite decide_True by (by eapply key_in_range_indices).
        rewrite filter_cons, decide_True by done. cbn [length]. lia.
      * rewrite decide_False; [lia|].
        by rewrite (key_in_range_indices questions k true q Hint).
    + apply IH in Hrun as [Hst' ->]; [|done]. split; [done|].
      destruct (decide (key_in_range questions (k, false) = true)); [|done].
      by rewrite filter_cons, decide_False by done.
Qed.

Lemma count_responses_total questions rs : ∀ st st',
  tallied (indices questions) st →
  count_responses rs st = Ok st' →
  tallied (indices questions) st'
  ∧ total_flags st'
    = (total_flags st
       + sum_list ((λ r, Analytics.student_flag_count (flags_within questions r))
                     <$> rs))%nat.
Proof.
  induction rs as [|r rs IH]; intros st st' Hst Hrun.
  - injection Hrun as <-. split; [done|]. cbn. lia.
  - cbn [count_responses] in Hrun.
    destruct (count_flags (name_of r) (flags_of r) st) as [st1|e] eqn:Hrun1;
      [|done].
    cbn [bind] in Hrun.
    apply (count_flags_total questions) in Hrun1 as [Hst1 Htot1]; [|done].
    apply IH in Hrun as [Hst' ->]; [|done]. split; [done|].
    rewrite Htot1.
    change (sum_list (?f <$> r :: rs)) with (f r + sum_list (f <$> rs))%nat.
    cbv beta. unfold Analytics.student_flag_count at 1.
    change (flags_of (flags_within questions r))
      with (filter (λ e, key_in_range questions e = true) (flags_of r)).
    symmetry. apply Nat.add_assoc.
Qed.

Lemma length_filter_filter_le {A} (P Q : A → Prop)
    `{∀ x, Decision (P x)} `{∀ x, Decision (Q x)} (l : list A) :
  (length (filter P (filter Q l)) ≤ length (filter P l))%nat.
Proof.
  induction l as [|x l IH]; [done|]. rewrite !filter_cons.
  destruct (decide (Q x)), (decide (P x)); rewrite ?filter_cons;
    try rewrite decide_True by done; try rewrite decide_False by done;
    cbn [length]; lia.
Qed.

Lemma student_flag_count_within questions r :
  (Analytics.student_flag_count (flags_within questions r)
   ≤ Analytics.student_flag_count r)%nat.
Proof. unfold Analytics.student_flag_count. apply length_filter_filter_le. Qed.

Lemma student_flag_count_in_range questions r :
  forallb (λ e : Py.key * bool, negb e.2 || key_in_range questions e)
    (flags_of r) = true →
  Analytics.student_flag_count (flags_within questions r)
  = Analytics.student_flag_count r.
Proof.
  unfold Analytics.student_flag_count.
  change (flags_of (flags_within questions r))
    with (filter (λ e, key_in_range questions e = true) (flags_of r)).
  induction (flags_of r) as [|[k b] l IH]; [done|]. cbn [forallb].
  intros [Hk Hl]%andb_true_iff. rewrite !filter_cons. cbn [snd] in *.
  destruct b; cbn [negb orb] in Hk.
  - rewrite decide_True by done. rewrite filter_cons, !decide_True by done.
    cbn [length]. by rewrite IH.
  - destruct (decide (key_in_range questions (k, false) = true)).
    + rewrite filter_cons, !decide_False by done. by apply IH.
    + rewrite decide_False by done. by apply IH.
Qed.

Lemma sum_list_fmap_le {A} (f g : A → nat) (l : list A) :
  (∀ x, x ∈ l → (f x ≤ g x)%nat) →
  (sum_list (f <$> l) ≤ sum_list (g <$> l))%nat.
Proof.
  induction l as [|x l IH]; intros Hfg; [done|]. cbn.
  assert (f x ≤ g x)%nat by (apply Hfg; left).
  assert (sum_list (f <$> l) ≤ sum_list (g <$> l))%nat
    by (apply IH; intros y Hy; apply Hfg; by right).
  lia.
Qed.

Lemma sum_list_fmap_eq {A} (f g : A → nat) (l : list A) :
  (∀ x, x ∈ l → f x = g x) → sum_list (f <$> l) = sum_list (g <$> l).
Proof.
  intros Hfg. f_equal. apply list_fmap_ext.
  intros i x Hx%list_elem_of_lookup_2. by apply Hfg.
Qed.

Lemma length_filter_pos_le (f : Z → nat) (idx : list Z) :
  (length (filter (λ i, (0 < f i)%nat) idx) ≤ sum_list (f <$> idx))%nat.
Proof.
  induction idx as [|i idx IH]; [done|]. rewrite filter_cons. csimpl.
  destruct (decide (0 < f i)%nat); cbn [length]; lia.
Qed.

Lemma sum_list_pos (f : Z → nat) (idx : list Z) :
  (0 < sum_list (f <$> idx))%nat →
  (0 < length (filter (λ i, (0 < f i)%nat) idx))%nat.
Proof.
  induction idx as [|i idx IH]; csimpl; [lia|]. rewrite filter_cons.
  destruct (decide (0 < f i)%nat); cbn [length]; [lia|].
  intros. apply IH. lia.
Qed.

Lemma length_indices questions :
  length (indices questions) = length questions.
Proof. unfold indices. rewrite length_seqZ. lia. Qed.

(** What a returned statistics record satisfies, whatever the responses. *)
Lemma calculate_flag_statistics_tallied rs questions st :
  calculate_flag_statistics rs questions = Ok st →
  tallied (indices questions) st
  ∧ total_flags st
    = sum_list ((λ r, Analytics.student_flag_count (flags_within questions r))
                  <$> rs)
  ∧ flagged_questions st
    = length (filter (λ i, (0 < flag_count_at st i)%nat) (indices questions)).
Proof.
  unfold calculate_flag_statistics.
  destruct (count_responses rs _) as [st1|e] eqn:Hrun; [|done].
  cbn [bind]. intros [= <-].
  apply (count_responses_total questions) in Hrun as [Hst Htot];
    [|apply tallied_initial].
  split; [|split].
  - destruct Hst as (Hdom & Hsum & Hlen). by split_and!.
  - cbn [total_flags] in *. by rewrite Htot.
  - cbn [flagged_questions].
    by rewrite (count_flagged_indices (indices questions) st1)
      by (done || apply NoDup_indices).
Qed.

(** X19 ([calculate_flag_statistics] against the response headers of
    [view_ticket_analytics]): the total of the flag analysis is the sum,
    over the responses, of the truthy flags whose key denotes a question of
    the ticket; so it is at most the sum of the flag counts shown in the
    response headers, and equal to it when every truthy flag is in range. *)
Theorem X_total_flags_against_headers (rs : list StudentResponse)
    (questions : list question) (st : FlagStats) :
  calculate_flag_statistics rs questions = Ok st →
  total_flags st
  = sum_list ((λ r, Analytics.student_flag_count (flags_within questions r))
                <$> rs)
  ∧ (total_flags st ≤ sum_list (Analytics.student_flag_count <$> rs))%nat
  ∧ (Forall (λ r, forallb (λ e : Py.key * bool,
                             negb e.2 || key_in_range questions e)
                    (flags_of r) = true) rs →
     total_flags st = sum_list (Analytics.student_flag_count <$> rs)).
Proof.
  intros (_ & Htot & _)%calculate_flag_statistics_tallied. split; [done|].
  rewrite Htot. split.
  - apply sum_list_fmap_le. intros r _. apply student_flag_count_within.
  - intros Hall. apply sum_list_fmap_eq. intros r Hr.
    apply student_flag_count_in_range. by eapply Forall_forall in Hall.
Qed.

(** X21 ([calculate_flag_statistics]): the number of flagged questions
    is at most the number of questions and at most the total number of
    flags; one is positive exactly when the other is; and the total is zero
    without responses or without questions. *)
Theorem X_flagged_questions_bounds (rs : list StudentResponse)
    (questions : list question) (st : FlagStats) :
  calculate_flag_statistics rs questions = Ok st →
  (flagged_questions st ≤ length questions)%nat
  ∧ (flagged_questions st ≤ total_flags st)%nat
  ∧ (0 < total_flags st ↔ 0 < flagged_questions st)%nat
  ∧ (rs = [] ∨ questions = [] → total_flags st = 0%nat).
Proof.
  intros Hrun.
  destruct (calculate_flag_statistics_tallied _ _ _ Hrun)
    as ((_ & Hsum & _) & Htot & ->).
  split_and!.
  - rewrite <- (length_indices questions). apply length_filter.
  - rewrite Hsum. apply length_filter_pos_le.
  - split.
    + rewrite Hsum. apply sum_list_pos.
    + pose proof (length_filter_pos_le (flag_count_at st) (indices questions)).
      lia.
  - intros [->| ->]; [by rewrite Htot|]. by rewrite Hsum.
Qed.

(** *** The expanders of the flag section *)









(** *** Flags under keys the detail view does not look up *)

Lemma dict_get_true (d : list (Py.key * bool)) k :
  Py.dict_get d k false = true → (k, true) ∈ d.
Proof.
  induction d as [|[k' v] d IH]; [done|]. cbn [Py.dict_get].
  case_decide as Hk.
  - intros ->. subst k'. by left.
  - intros Hd. right. by apply IH.
Qed.

Lemma show_answer_marks questions student_flags e ls :
  show_answer questions student_flags e = Ok ls →
  (∀ c n a t, AnswerLine c n a t true ∈ ls →
     (Py.KStr (Py.str_of_int (n - 1)), true) ∈ student_flags)
  ∧ (FlagWarning ∈ ls → ∃ c n a t, AnswerLine c n a t true ∈ ls).
Proof.
  unfold show_answer. destruct (Py.int e.1) as [q_idx|]; [|done]. cbn [bind].
  destruct (q_idx <? _).
  2:{ intros [= <-]. split; [intros ???? H|intros H]; by apply elem_of_nil in H. }
  destruct (Py.index questions q_idx) as [question|]; [|done]. cbn [bind].
  destruct (getitem question "correct_answer") as [correct_answer|]; [|done].
  cbn [bind]. destruct (options_of question) as [opts|]; [|done]. cbn [bind].
  set (is_flagged := Py.dict_get student_flags _ false).
  assert (is_flagged = true →
          (Py.KStr (Py.str_of_int q_idx), true) ∈ student_flags) as Hflag
    by apply dict_get_true.
  clearbody is_flagged.
  set (correction := if bool_decide _ then _ else _).
  assert (∀ ls', correction = Ok ls' →
            ∀ l, l ∈ ls' → ∃ c t, l = CorrectLine c t) as Hcorr.
  { subst correction. intros ls'. destruct (bool_decide _).
    - intros [= <-] l H. by apply elem_of_nil in H.
    - destruct correct_answer as [c|]; [|done]. intros [= <-] l H.
      apply list_elem_of_singleton in H. eauto. }
  destruct correction as [ls'|]; [|done]. cbn [bind]. intros [= <-].
  specialize (Hcorr ls' eq_refl). split.
  - intros c n a t [Heq|Hin]%elem_of_cons.
    + injection Heq as -> -> -> -> <-. replace (q_idx + 1 - 1) with q_idx by lia.
      by apply Hflag.
    + apply elem_of_app in Hin as [Hin|Hin].
      * by destruct (Hcorr _ Hin) as (? & ? & ?).
      * destruct is_flagged; [|by apply elem_of_nil in Hin].
        by apply list_elem_of_singleton in Hin.
  - intros [Heq|Hin]%elem_of_cons; [done|].
    apply elem_of_app in Hin as [Hin|Hin].
    + by destruct (Hcorr _ Hin) as (? & ? & ?).
    + destruct is_flagged; [|by apply elem_of_nil in Hin].
      eexists _, _, _, _. left.
Qed.

Lemma show_answers_marks questions student_flags entries : ∀ ls,
  show_answers questions student_flags entries = Ok ls →
  (∀ c n a t, AnswerLine c n a t true ∈ ls →
     (Py.KStr (Py.str_of_int (n - 1)), true) ∈ student_flags)
  ∧ (FlagWarning ∈ ls → ∃ c n a t, AnswerLine c n a t true ∈ ls).
Proof.
  induction entries as [|e entries IH]; intros ls.
  - intros [= <-]. split; [intros ???? H|intros H]; by apply elem_of_nil in H.
  - cbn [show_answers].
    destruct (show_answer questions student_flags e) as [ls1|] eqn:H1; [|done].
    cbn [bind].
    destruct (show_answers questions student_flags entries) as [ls2|]; [|done].
    cbn [bind]. intros [= <-].
    destruct (show_answer_marks _ _ _ _ H1) as [Ha1 Hw1].
    destruct (IH ls2 eq_refl) as [Ha2 Hw2]. split.
    + intros c n a t [Hin|Hin]%elem_of_app; eauto.
    + intros [Hin|Hin]%elem_of_app.
      * destruct (Hw1 Hin) as (c & n & a & t & H). exists c, n, a, t.
        apply elem_of_app. by left.
      * destruct (Hw2 Hin) as (c & n & a & t & H). exists c, n, a, t.
        apply elem_of_app. by right.
Qed.

(** X20 ([calculate_flag_statistics] against the answers of
    [view_ticket_analytics]): flags stored under integer keys are counted
    by the statistics, which always return on them, but the answers of the
    response never mark a question as flagged: the detail view looks flags
    up under [str(q_idx)]. *)
Theorem X_integer_keyed_flags (questions : list question)
    (r : StudentResponse) :
  Forall (λ e : Py.key * bool, ∃ n, e.1 = Py.KInt n) (flags_of r) →
  (∃ st, calculate_flag_statistics [r] questions = Ok st
         ∧ total_flags st
           = Analytics.student_flag_count (flags_within questions r))
  ∧ ∀ ls, response_detail questions r = Ok ls →
      (FlagWarning ∉ ls) ∧ ∀ c n a t, AnswerLine c n a t true ∉ ls.
Proof.
  intros Hkeys. split.
  - assert (decodable_flags [r] = true) as Hok.
    { cbn [decodable_flags forallb]. rewrite andb_true_r.
      apply forallb_forall. intros [k b] Hin%list_elem_of_In.
      eapply Forall_forall in Hkeys as [n Hn]; [|done]. cbn in *. subst k.
      cbn. by rewrite orb_true_r. }
    apply (proj2 (calculate_flag_statistics_returns [r] questions)) in Hok
      as [st Hst].
    exists st. split; [done|].
    destruct (calculate_flag_statistics_tallied _ _ _ Hst) as (_ & -> & _).
    cbn. lia.
  - intros ls [Ha Hw]%show_answers_marks.
    assert (∀ c n a t, AnswerLine c n a t true ∉ ls) as Hnone.
    { intros c n a t Hin%Ha. eapply Forall_forall in Hkeys as [m Hm]; [|done].
      done. }
    split; [|done]. intros (c & n & a & t & Hin)%Hw. by eapply Hnone.
Qed.

(** ** The questions preview *)

Lemma length_substring_le n m s :
  (String.length (substring n m s) ≤ m)%nat.
Proof.
  revert n m. induction s as [|c s IH]; intros [|n] [|m]; cbn; try lia.
  - specialize (IH 0%nat m). lia.
  - apply IH.
  - apply IH.
Qed.

Lemma shorten_text s t :
  Tickets.shorten (FStr s) = Ok t →
  ∃ s', t = FStr s' ∧ (String.length s' ≤ 63)%nat
        ∧ ((String.length s ≤ 60)%nat → s' = s)
        ∧ ((60 < String.length s)%nat → s' = (substring 0 60 s +:+ "...")%string).
Proof.
  cbn [Tickets.shorten]. destruct (Nat.ltb_spec 60 (String.length s)).
  - intros [= <-]. eexists. split; [done|]. split_and!; [|lia|done].
    rewrite length_app_string. pose proof (length_substring_le 0 60 s).
    cbn [String.length]. lia.
  - intros [= <-]. eexists. split; [done|]. split_and!; [lia|done|lia].
Qed.

Lemma preview_lines_spec qs : ∀ i ls,
  Tickets.preview_lines i qs = Ok ls →
  length ls = length qs
  ∧ ∀ k q, qs !! k = Some q →
      ∃ t, ls !! k = Some (Tickets.PreviewQuestion (S (i + k)) t)
           ∧ Tickets.shorten
               (default (FStr "No question text") (q !! "question"%string))
             = Ok t.
Proof.
  induction qs as [|q qs IH]; intros i ls.
  - intros [= <-]. split; [done|]. intros k q Hk. done.
  - cbn [Tickets.preview_lines].
    destruct (Tickets.shorten _) as [t|] eqn:Ht; [|done]. cbn [bind].
    destruct (Tickets.preview_lines (S i) qs) as [ls'|] eqn:Hls; [|done].
    cbn [bind]. intros [= <-]. destruct (IH _ _ Hls) as [Hlen Hk].
    split; [cbn; by rewrite Hlen|]. intros [|k] q' Hq'.
    + injection Hq' as <-. exists t. rewrite Nat.add_0_r. done.
    + destruct (Hk k q' Hq') as (t' & Hl & Ht'). exists t'.
      replace (i + S k)%nat with (S i + k)%nat by lia. done.
Qed.

(** X17 (the questions preview of [view_published_tickets_page]): the
    preview is empty exactly for a ticket without questions and has at most
    four lines; it ends with the number of questions beyond the second
    exactly when there are more than two; the first two questions are shown
    under the numbers 1 and 2, a text of at most 60 characters unchanged and
    a longer one cut to at most 63. *)
Theorem X_questions_preview_lines (questions : list question)
    (ls : list Tickets.preview_line) :
  Tickets.questions_preview questions = Ok ls →
  (questions = [] ↔ ls = [])
  ∧ (length ls ≤ 4)%nat
  ∧ (∀ n, Tickets.PreviewMore n ∈ ls ↔
          (2 < length questions)%nat ∧ n = (length questions - 2)%nat)
  ∧ (∀ k q, (k < 2)%nat → questions !! k = Some q →
       ∃ t, ls !! S k = Some (Tickets.PreviewQuestion (S k) t)
            ∧ ∀ s, q !! "question"%string = Some (FStr s) →
                ∃ s', t = FStr s' ∧ (String.length s' ≤ 63)%nat
                      ∧ ((String.length s ≤ 60)%nat → s' = s)).
Proof.
  unfold Tickets.questions_preview. destruct questions as [|q0 qs].
  { intros [= <-]. split_and!; [done|cbn; lia| |].
    - intros n. split; [intros H; by apply elem_of_nil in H|cbn; lia].
    - intros k q _ Hq. done. }
  set (questions := q0 :: qs) in *.
  assert (questions ≠ []) as Hne by done. clearbody questions.
  destruct (Tickets.preview_lines 0 (take 2 questions)) as [qls|] eqn:Hls;
    [|done].
  cbn [bind]. intros [= <-].
  destruct (preview_lines_spec _ _ _ Hls) as [Hlen Hk].
  rewrite length_take in Hlen.
  split_and!.
  - done.
  - cbn [length]. rewrite length_app, Hlen.
    destruct (2 <? length questions)%nat; cbn [length]; lia.
  - intros n. rewrite elem_of_cons, elem_of_app. split.
    + intros [Hn|[Hn|Hn]]; [done| |].
      * apply list_elem_of_lookup in Hn as [k Hn].
        assert (k < length (take 2 questions))%nat as Hlt
          by (rewrite length_take, <- Hlen; by eapply lookup_lt_Some).
        destruct (lookup_lt_is_Some_2 _ _ Hlt) as [q Hq].
        destruct (Hk k q Hq) as (t & Hl & _). congruence.
      * destruct (Nat.ltb_spec 2 (length questions));
          [|by apply elem_of_nil in Hn].
        apply list_elem_of_singleton in Hn. injection Hn as ->. done.
    + intros [Hlt ->]. right. right.
      rewrite (proj2 (Nat.ltb_lt _ _) Hlt). by left.
  - intros k q Hlt Hq.
    destruct (Hk k q) as (t & Hl & Ht); [by rewrite lookup_take_lt|].
    exists t. split.
    + change ((qls ++ (if (2 <? length questions)%nat
                       then [Tickets.PreviewMore (length questions - 2)]
                       else [])) !! k
              = Some (Tickets.PreviewQuestion (S k) t)).
      rewrite lookup_app_l; [done|]. by eapply lookup_lt_Some.
    + intros s Hs. rewrite Hs in Ht. cbn [default from_option] in Ht.
      destruct (shorten_text _ _ Ht) as (s' & -> & ? & ? & _). eauto.
Qed.

(** ** The published tickets page *)

Section Published.

Import Tickets.

Variable get_all_tickets_by_teacher : list request → string → list Listed.
Variable update_ticket_status : list request → string → string → bool.
Variable get_exit_ticket : list request → string → option (list question).
Variable get_ticket_analytics : list request → string → TicketAnalytics.

#[local] Abbreviation view_ticket_analytics :=
  (Tickets.view_ticket_analytics get_exit_ticket get_ticket_analytics).
#[local] Abbreviation ticket_buttons :=
  (Tickets.ticket_buttons update_ticket_status).
#[local] Abbreviation ticket_expander :=
  (Tickets.ticket_expander update_ticket_status).
#[local] Abbreviation list_tickets :=
  (Tickets.list_tickets update_ticket_status).
#[local] Abbreviation view_published_tickets_page :=
  (Tickets.view_published_tickets_page get_all_tickets_by_teacher
     update_ticket_status get_exit_ticket get_ticket_analytics).

Lemma updates_app rs1 rs2 : updates (rs1 ++ rs2) = updates rs1 ++ updates rs2.
Proof. unfold updates. apply omap_app. Qed.

(** *** The analytics view *)

Lemma show_responses_frame questions rs : ∀ p,
  let r := show_responses questions rs p in
  show_analytics_for r.1 = show_analytics_for p
  ∧ requests r.1 = requests p
  ∧ (r.2 = Continue ∨ r.2 = Aborted)
  ∧ (r.2 = Continue ↔
     Forall (λ x, is_ok (response_detail questions x) = true) rs).
Proof.
  induction rs as [|x rs IH]; intros p; cbn zeta.
  - split_and!; [done|done|by left|]. split; [by constructor|done].
  - cbn [show_responses].
    destruct (response_detail questions x) as [ls|e] eqn:Hx.
    + destruct (IH (printed (ResponseExpander (name_of x)
                               (Analytics.student_flag_count x) ls) p))
        as (H1 & H2 & H3 & H4).
      split_and!; [done|done|done|]. rewrite H4. split.
      * intros H. constructor; [by rewrite Hx|done].
      * by inversion 1.
    + split_and!; [done|done|by right|]. split; [done|].
      inversion 1 as [|?? Hbad]. by rewrite Hx in Hbad.
Qed.

Lemma flag_section_returns total_responses rs questions :
  is_ok (Analytics.flag_section total_responses rs questions) = true
  ↔ total_responses ≤ 0 ∨ decodable_flags rs = true.
Proof.
  unfold Analytics.flag_section.
  destruct (Z.ltb_spec 0 total_responses) as [Hpos|Hle].
  2:{ split; [by left|done]. }
  pose proof (calculate_flag_statistics_returns rs questions) as Hret.
  destruct (calculate_flag_statistics rs questions) as [st|e]; cbn [bind].
  - assert (decodable_flags rs = true) as Hok
      by (apply Hret; apply returns_Ok).
    split; [by right|]. intros _. by destruct (0 <? total_flags st)%nat.
  - split; [done|]. intros [?|Hok]; [lia|].
    apply Hret in Hok. by apply not_returns_Raise in Hok.
Qed.

Lemma view_ticket_analytics_frame ticket_id p :
  let r := view_ticket_analytics ticket_id p in
  show_analytics_for r.1 = show_analytics_for p
  ∧ updates (requests r.1) = updates (requests p)
  ∧ (r.2 = Continue ∨ r.2 = Aborted).
Proof.
  cbn zeta. unfold Tickets.view_ticket_analytics.
  destruct (get_exit_ticket (requests p) ticket_id) as [questions|].
  2:{ cbn. rewrite updates_app. cbn. rewrite app_nil_r. by split_and!; [| |left]. }
  match goal with |- context [Analytics.flag_section ?t ?rs questions] =>
    destruct (Analytics.flag_section t rs questions) as [sec|e] end.
  2:{ cbn. rewrite !updates_app. cbn. rewrite !app_nil_r.
      by split_and!; [| |right]. }
  destruct (0 <? _).
  - match goal with |- context [show_responses questions ?rs ?q] =>
      destruct (show_responses_frame questions rs q) as (H1 & H2 & H3 & _) end.
    rewrite H1, H2. split_and!; [by destruct sec| |done].
    destruct sec; cbn; rewrite !updates_app; cbn; by rewrite !app_nil_r.
  - cbn. split_and!; [by destruct sec| |by left].
    destruct sec; cbn; rewrite !updates_app; cbn; by rewrite !app_nil_r.
Qed.

(** The analytics view returns exactly on a ticket that is not found, has
    no responses, or whose responses can all be shown. *)
Lemma view_ticket_analytics_returns ticket_id p :
  (view_ticket_analytics ticket_id p).2 = Continue
  ↔ match get_exit_ticket (requests p) ticket_id with
    | None => True
    | Some questions =>
        let analytics :=
          get_ticket_analytics (requests p ++ [GetExitTicket ticket_id])
            ticket_id in
        let responses := default [] (stored_responses analytics) in
        total_responses analytics ≤ 0
        ∨ (decodable_flags responses = true
           ∧ Forall (λ x, is_ok (response_detail questions x) = true)
               responses)
    end.
Proof.
  unfold Tickets.view_ticket_analytics.
  destruct (get_exit_ticket (requests p) ticket_id) as [questions|]; [|done].
  cbn [requests requested]. cbn zeta.
  set (analytics := get_ticket_analytics _ ticket_id).
  set (responses := default [] (stored_responses analytics)).
  pose proof (flag_section_returns (total_responses analytics) responses
                questions) as Hsec.
  destruct (Analytics.flag_section _ responses questions) as [sec|e].
  - destruct (Z.ltb_spec 0 (total_responses analytics)) as [Hpos|Hle].
    + match goal with |- context [show_responses questions responses ?q] =>
        destruct (show_responses_frame questions responses q)
          as (_ & _ & _ & ->) end.
      destruct Hsec as [[?|Hok] _]; [done|lia|]. split.
      * intros H. right. by split.
      * intros [?|[_ H]]; [lia|done].
    + split; [by left|done].
  - cbn [snd]. split; [done|]. intros [Hle|[Hok _]].
    + destruct Hsec as [_ Hsec]. by specialize (Hsec (or_introl Hle)).
    + destruct Hsec as [_ Hsec]. by specialize (Hsec (or_intror Hok)).
Qed.

(** *** The list of tickets *)

Lemma updates_snoc_other rs r :
  (∀ ticket_id status, r ≠ UpdateTicketStatus ticket_id status) →
  updates (rs ++ [r]) = updates rs.
Proof.
  intros Hr. rewrite updates_app.
  destruct r as [| | |i s]; cbn; rewrite ?app_nil_r; try done.
  by destruct (Hr i s).
Qed.

Lemma updates_snoc_update rs ticket_id status :
  updates (rs ++ [UpdateTicketStatus ticket_id status])
  = updates rs ++ [(ticket_id, status)].
Proof. by rewrite updates_app. Qed.

(** A button of another ticket, or none: the expander shows the ticket. *)
Lemma ticket_expander_other b idx ticket p :
  pressed b ≠ Some idx →
  ticket_expander b idx ticket p
  = let p := requested (GetTicketAnalytics (listed_id ticket)) p in
    match questions_preview (listed_questions ticket) with
    | Ok [] => (p, Continue)
    | Ok ls => (printed (QuestionsPreview ls) p, Continue)
    | Raise _ => (p, Aborted)
    end.
Proof.
  intros Hb. unfold Tickets.ticket_expander, Tickets.ticket_buttons.
  destruct b as [| |i|i|i|i]; cbn in Hb;
    try (destruct (decide (i = idx)) as [->|Hne]; [by destruct Hb|]);
    by destruct (decide (listed_status ticket = Some "active"%string)).
Qed.

Lemma ticket_expander_view idx ticket p :
  ticket_expander (ViewAnalyticsBtn idx) idx ticket p
  = (set_show_analytics_for (Some (listed_id ticket))
       (requested (GetTicketAnalytics (listed_id ticket)) p), Rerun).
Proof.
  unfold Tickets.ticket_expander, Tickets.ticket_buttons.
  by rewrite decide_True by done.
Qed.

Lemma ticket_expander_effect b idx ticket p :
  let r := ticket_expander b idx ticket p in
  (show_analytics_for r.1
   = if decide (b = ViewAnalyticsBtn idx) then Some (listed_id ticket)
     else show_analytics_for p)
  ∧ ∃ us, updates (requests r.1) = updates (requests p) ++ us
      ∧ (us = []
         ∨ (b = DeactivateBtn idx ∧ listed_status ticket = Some "active"%string
            ∧ us = [(listed_id ticket, "inactive"%string)])
         ∨ (b = ActivateBtn idx ∧ listed_status ticket ≠ Some "active"%string
            ∧ us = [(listed_id ticket, "active"%string)])).
Proof.
  cbn zeta. destruct (decide (pressed b = Some idx)) as [Hb|Hb].
  2:{ rewrite ticket_expander_other by done. cbn zeta.
      rewrite decide_False by (intros ->; by apply Hb).
      assert (updates (requests p ++ [GetTicketAnalytics (listed_id ticket)])
              = updates (requests p) ++ []) as Hu
        by (by rewrite app_nil_r, updates_snoc_other).
      destruct (questions_preview (listed_questions ticket)) as [[|l ls]|e];
        (split; [done|]); exists []; (split; [exact Hu|by left]). }
  unfold Tickets.ticket_expander, Tickets.ticket_buttons.
  destruct b as [| |i|i|i|i]; cbn in Hb; try done; injection Hb as ->;
    (destruct (decide (idx = idx)) as [_|?]; [|done]);
    destruct (decide (listed_status ticket = Some "active"%string)) as [Hs|Hs];
    try destruct (update_ticket_status _ _ _);
    try destruct (questions_preview (listed_questions ticket)) as [[|l ls]|e];
    cbn [fst snd show_analytics_for requests printed requested
         set_show_analytics_for];
    (split; [first [ done | by rewrite decide_True by done
                   | by rewrite decide_False by done ]|]);
    first
      [ by (exists []; split;
              [by rewrite app_nil_r, updates_snoc_other|by left])
      | by (eexists; split;
              [by rewrite updates_snoc_update, updates_snoc_other
              |right; by left])
      | by (eexists; split;
              [by rewrite updates_snoc_update, updates_snoc_other
              |right; by right]) ].
Qed.

Lemma list_tickets_effect b tickets : ∀ idx p,
  let r := list_tickets b idx tickets p in
  (show_analytics_for r.1 = show_analytics_for p
   ∨ ∃ j ticket, tickets !! j = Some ticket
       ∧ b = ViewAnalyticsBtn (idx + j)
       ∧ show_analytics_for r.1 = Some (listed_id ticket))
  ∧ ∃ us, updates (requests r.1) = updates (requests p) ++ us
      ∧ (us = []
         ∨ ∃ j ticket, tickets !! j = Some ticket
             ∧ ((b = DeactivateBtn (idx + j)
                 ∧ listed_status ticket = Some "active"%string
                 ∧ us = [(listed_id ticket, "inactive"%string)])
                ∨ (b = ActivateBtn (idx + j)
                   ∧ listed_status ticket ≠ Some "active"%string
                   ∧ us = [(listed_id ticket, "active"%string)]))).
Proof.
  induction tickets as [|ticket tickets IH]; intros idx p; cbn zeta.
  - split; [by left|]. exists []. by rewrite app_nil_r; split; [|left].
  - cbn [Tickets.list_tickets].
    pose proof (ticket_expander_effect b idx ticket p) as (Hkey & us & Hreq & Hus).
    destruct (decide (pressed b = Some idx)) as [Hb|Hb].
    + (* the pressed button belongs to this ticket: the others are shown *)
      assert (∀ p1, let r := list_tickets b (S idx) tickets p1 in
                show_analytics_for r.1 = show_analytics_for p1
                ∧ updates (requests r.1) = updates (requests p1)) as Hrest.
      { intros p1. destruct (IH (S idx) p1) as (Hk1 & us1 & Hr1 & Hu1). split.
        - destruct Hk1 as [?|(j & t & _ & -> & _)]; [done|].
          cbn in Hb. injection Hb. lia.
        - rewrite Hr1.
          destruct Hu1 as [->|(j & t & _ & [(-> & _)|(-> & _)])];
            [by rewrite app_nil_r|cbn in Hb; injection Hb; lia..]. }
      destruct (ticket_expander b idx ticket p) as [p1 c]. cbn [fst snd] in *.
      assert (∃ r, r = match c with
                       | Continue => list_tickets b (S idx) tickets p1
                       | _ => (p1, c)
                       end
                   ∧ show_analytics_for r.1 = show_analytics_for p1
                   ∧ updates (requests r.1) = updates (requests p1))
        as (r & <- & Hk & Hu).
      { eexists. split; [done|]. destruct c; try done; apply Hrest. }
      rewrite Hk, Hu, Hkey, Hreq. split.
      * case_decide as Hv; [|by left]. right. exists 0%nat, ticket.
        rewrite Nat.add_0_r. by split_and!.
      * exists us. split; [done|].
        destruct Hus as [->|Hus]; [by left|]. right. exists 0%nat, ticket.
        rewrite Nat.add_0_r. split; [done|]. done.
    + clear Hkey us Hreq Hus. rewrite ticket_expander_other by done. cbn zeta.
      set (p0 := requested (GetTicketAnalytics (listed_id ticket)) p).
      assert (∀ p1,
        show_analytics_for p1 = show_analytics_for p →
        updates (requests p1) = updates (requests p) →
        let r := list_tickets b (S idx) tickets p1 in
        (show_analytics_for r.1 = show_analytics_for p
         ∨ ∃ j t, (ticket :: tickets) !! j = Some t
             ∧ b = ViewAnalyticsBtn (idx + j)
             ∧ show_analytics_for r.1 = Some (listed_id t))
        ∧ ∃ us, updates (requests r.1) = updates (requests p) ++ us
            ∧ (us = []
               ∨ ∃ j t, (ticket :: tickets) !! j = Some t
                   ∧ ((b = DeactivateBtn (idx + j)
                       ∧ listed_status t = Some "active"%string
                       ∧ us = [(listed_id t, "inactive"%string)])
                      ∨ (b = ActivateBtn (idx + j)
                         ∧ listed_status t ≠ Some "active"%string
                         ∧ us = [(listed_id t, "active"%string)])))) as Hstep.
      { intros p1 Hk Hu. cbn zeta.
        destruct (IH (S idx) p1) as (Hk1 & us1 & Hr1 & Hu1).
        rewrite Hr1, Hu, <- Hk. split.
        - destruct Hk1 as [->|(j & t & Ht & -> & Hk1)]; [by left|].
          right. exists (S j), t.
          replace (idx + S j)%nat with (S idx + j)%nat by lia. by split_and!.
        - exists us1. split; [done|].
          destruct Hu1 as [->|(j & t & Ht & Hu1)]; [by left|].
          right. exists (S j), t.
          replace (idx + S j)%nat with (S idx + j)%nat by lia. by split. }
      assert (updates (requests p0) = updates (requests p)) as Hu0
        by (by apply updates_snoc_other).
      destruct (questions_preview (listed_questions ticket)) as [[|l ls]|e].
      * by apply Hstep.
      * by apply Hstep.
      * cbn [fst snd]. split; [by left|]. exists []. rewrite app_nil_r.
        by split; [|left].
Qed.

(** The tickets before the one whose button is pressed are shown in full. *)
Lemma list_tickets_app b tickets1 : ∀ idx tickets2 p,
  (∀ j, pressed b = Some j → (idx + length tickets1 ≤ j)%nat) →
  Forall (λ t, is_ok (questions_preview (listed_questions t)) = true) tickets1 →
  ∃ p1, list_tickets b idx (tickets1 ++ tickets2) p
        = list_tickets b (idx + length tickets1) tickets2 p1
        ∧ show_analytics_for p1 = show_analytics_for p
        ∧ requests p1
          = requests p
            ++ ((λ t, GetTicketAnalytics (listed_id t)) <$> tickets1).
Proof.
  induction tickets1 as [|t tickets1 IH]; intros idx tickets2 p Hb Hok.
  - exists p. cbn. by rewrite Nat.add_0_r, app_nil_r.
  - apply Forall_cons in Hok as [Ht Hok]. cbn [app Tickets.list_tickets].
    rewrite ticket_expander_other.
    2:{ intros Hp. apply Hb in Hp. cbn in Hp. lia. }
    cbn zeta.
    assert (∃ p0, match questions_preview (listed_questions t) with
                  | Ok [] =>
                      (requested (GetTicketAnalytics (listed_id t)) p, Continue)
                  | Ok ls =>
                      (printed (QuestionsPreview ls)
                         (requested (GetTicketAnalytics (listed_id t)) p),
                       Continue)
                  | Raise _ =>
                      (requested (GetTicketAnalytics (listed_id t)) p, Aborted)
                  end = (p0, Continue)
                  ∧ show_analytics_for p0 = show_analytics_for p
                  ∧ requests p0
                    = requests p ++ [GetTicketAnalytics (listed_id t)])
      as (p0 & -> & Hk0 & Hr0).
    { destruct (questions_preview (listed_questions t)) as [[|l ls]|e];
        [by eexists..|done]. }
    destruct (IH (S idx) tickets2 p0) as (p1 & -> & Hk1 & Hr1); [|done|].
    { intros j Hj%Hb. cbn in Hj. lia. }
    exists p1. cbn [length]. replace (idx + S (length tickets1))%nat
      with (S idx + length tickets1)%nat by lia.
    split; [done|]. split; [congruence|].
    rewrite Hr1, Hr0, fmap_cons. by rewrite <- app_assoc.
Qed.

(** X13 ([view_published_tickets_page]): a run asks the repository for
    at most one status change.  When it does, the analytics view is closed,
    and the button pressed is the Deactivate button of a listed ticket whose
    status is "active", asked to become "inactive", or the Activate button
    of a listed ticket with any other status, asked to become "active". *)
Theorem X_status_change_requests (b : button) (p : Page) :
  let tickets := get_all_tickets_by_teacher (requests p) "Professor" in
  let p' := (view_published_tickets_page b p).1 in
  ∃ us, updates (requests p') = updates (requests p) ++ us
    ∧ (us = []
       ∨ ∃ idx ticket, tickets !! idx = Some ticket
           ∧ show_analytics_for p = None
           ∧ ((b = DeactivateBtn idx
               ∧ listed_status ticket = Some "active"%string
               ∧ us = [(listed_id ticket, "inactive"%string)])
              ∨ (b = ActivateBtn idx
                 ∧ listed_status ticket ≠ Some "active"%string
                 ∧ us = [(listed_id ticket, "active"%string)]))).
Proof.
  cbn zeta. unfold Tickets.view_published_tickets_page. cbn zeta.
  change (requests (start_run p)) with (requests p).
  set (tickets := get_all_tickets_by_teacher (requests p) "Professor").
  set (p0 := requested (GetAllTickets "Professor") (start_run p)).
  assert (updates (requests p0) = updates (requests p)) as Hu0
    by (by apply updates_snoc_other).
  assert (show_analytics_for p0 = show_analytics_for p) as Hk0 by done.
  destruct tickets as [|t ts] eqn:Hts.
  { exists []. rewrite app_nil_r. by split; [|left]. }
  rewrite <- Hts. rewrite Hk0.
  destruct (show_analytics_for p) as [ticket_id|] eqn:Hkey.
  - pose proof (view_ticket_analytics_frame ticket_id p0) as (_ & Hu & _).
    destruct (view_ticket_analytics ticket_id p0) as [p1 c]. cbn [fst] in *.
    exists []. rewrite app_nil_r. split; [|by left].
    destruct c; try destruct b; cbn [fst requests set_show_analytics_for];
      congruence.
  - destruct (list_tickets_effect b tickets 0 p0) as (_ & us & Hreq & Hus).
    exists us. rewrite Hreq, Hu0. split; [done|].
    destruct Hus as [->|(j & ticket & Ht & Hus)]; [by left|].
    right. exists j, ticket. by split_and!.
Qed.

(** X14 ([view_published_tickets_page], View Analytics): when the
    tickets listed before ticket [idx] can be shown, its View Analytics
    button stores its code under [show_analytics_for] and reruns; by then
    the run has read the analytics of the tickets up to [idx] and of no
    other. *)
Theorem X_view_analytics_opens (idx : nat) (ticket : Listed) (p : Page) :
  let tickets := get_all_tickets_by_teacher (requests p) "Professor" in
  show_analytics_for p = None →
  tickets !! idx = Some ticket →
  Forall (λ t, is_ok (questions_preview (listed_questions t)) = true)
    (take idx tickets) →
  let r := view_published_tickets_page (ViewAnalyticsBtn idx) p in
  r.2 = Rerun
  ∧ show_analytics_for r.1 = Some (listed_id ticket)
  ∧ requests r.1
    = requests p
      ++ GetAllTickets "Professor"
         :: ((λ t, GetTicketAnalytics (listed_id t)) <$> take (S idx) tickets).
Proof.
  cbn zeta. intros Hkey Hticket Hbefore.
  unfold Tickets.view_published_tickets_page. cbn zeta.
  change (requests (start_run p)) with (requests p).
  set (tickets := get_all_tickets_by_teacher (requests p) "Professor") in *.
  set (p0 := requested (GetAllTickets "Professor") (start_run p)).
  change (show_analytics_for p0) with (show_analytics_for p). rewrite Hkey.
  assert (match tickets with
          | [] => (printed InfoNoTickets p0, Return)
          | _ :: _ => list_tickets (ViewAnalyticsBtn idx) 0 tickets p0
          end = list_tickets (ViewAnalyticsBtn idx) 0 tickets p0) as ->.
  { destruct tickets; [done|done]. }
  assert (length (take idx tickets) = idx) as Hlen.
  { rewrite length_take. apply lookup_lt_Some in Hticket. lia. }
  destruct (list_tickets_app (ViewAnalyticsBtn idx) (take idx tickets) 0
              (ticket :: drop (S idx) tickets) p0)
    as (p1 & Hrun & Hk1 & Hr1); [|done|].
  { intros j [= <-]. lia. }
  rewrite (take_drop_middle tickets idx ticket Hticket), Hlen in Hrun.
  rewrite Hrun. cbn [Tickets.list_tickets]. rewrite ticket_expander_view.
  cbn [fst snd show_analytics_for requests set_show_analytics_for requested].
  split_and!; [done..|]. rewrite Hr1. cbn [requests requested p0 start_run].
  rewrite <- !app_assoc. cbn [app]. do 2 f_equal.
  rewrite (take_S_r _ _ _ Hticket), fmap_app. done.
Qed.

(** X15 ([view_published_tickets_page] over [view_ticket_analytics]):
    with the analytics of a ticket open, questions that carry an answer and
    options, flag keys [int] accepts and answer keys that denote
    non-negative integers, the Back button deletes [show_analytics_for] and
    reruns; any other button leaves the analytics open.  No status change is
    requested either way. *)
Theorem X_back_closes_analytics (b : button) (ticket_id : string)
    (questions : list question) (p : Page) :
  let h := requests p ++ [GetAllTickets "Professor"] in
  let analytics :=
    get_ticket_analytics (h ++ [GetExitTicket ticket_id]) ticket_id in
  let responses := default [] (stored_responses analytics) in
  get_all_tickets_by_teacher (requests p) "Professor" ≠ [] →
  show_analytics_for p = Some ticket_id →
  get_exit_ticket h ticket_id = Some questions →
  forallb answerable questions = true →
  decodable_flags responses = true →
  Forall (λ r, forallb natural_key (answers_of r) = true) responses →
  let r := view_published_tickets_page b p in
  updates (requests r.1) = updates (requests p)
  ∧ (b = BackBtn → r.2 = Rerun ∧ show_analytics_for r.1 = None)
  ∧ (b ≠ BackBtn → r.2 = Return ∧ show_analytics_for r.1 = Some ticket_id).
Proof.
  cbn zeta. intros Htickets Hkey Hdata Hquestions Hflags Hanswers.
  unfold Tickets.view_published_tickets_page. cbn zeta.
  change (requests (start_run p)) with (requests p).
  set (p0 := requested (GetAllTickets "Professor") (start_run p)).
  change (show_analytics_for p0) with (show_analytics_for p). rewrite Hkey.
  destruct (get_all_tickets_by_teacher (requests p) "Professor") as [|t ts];
    [done|].
  pose proof (view_ticket_analytics_frame ticket_id p0) as (Hk & Hu & _).
  assert ((view_ticket_analytics ticket_id p0).2 = Continue) as Hc.
  { apply view_ticket_analytics_returns.
    change (requests p0) with (requests p ++ [GetAllTickets "Professor"]).
    rewrite Hdata. cbn zeta. right. split; [done|].
    eapply Forall_impl; [exact Hanswers|]. intros r Hr. cbn beta in Hr.
    destruct (show_answers_within questions (flags_of r) (answers_of r)
                Hquestions Hr) as (ls & Hls & _).
    unfold response_detail. by rewrite Hls. }
  destruct (view_ticket_analytics ticket_id p0) as [p1 c]. cbn [fst snd] in *.
  subst c. change (show_analytics_for p0) with (show_analytics_for p) in Hk.
  assert (updates (requests p0) = updates (requests p)) as Hu0
    by (by apply updates_snoc_other).
  destruct b; cbn [fst snd show_analytics_for requests set_show_analytics_for];
    (split_and!; [congruence|intros; try done|intros; try done]);
    split; congruence.
Qed.

(** X16 ([view_published_tickets_page] over [view_ticket_analytics]):
    when the open ticket has a response with a truthy flag under a key
    [int] rejects, every run of the page stops in the exception before the
    Back button is drawn: [show_analytics_for] keeps its value whatever
    button is pressed. *)
Theorem X_malformed_flag_blocks_back (b : button) (ticket_id : string)
    (questions : list question) (p : Page) :
  let h := requests p ++ [GetAllTickets "Professor"] in
  let analytics :=
    get_ticket_analytics (h ++ [GetExitTicket ticket_id]) ticket_id in
  let responses := default [] (stored_responses analytics) in
  get_all_tickets_by_teacher (requests p) "Professor" ≠ [] →
  show_analytics_for p = Some ticket_id →
  get_exit_ticket h ticket_id = Some questions →
  0 < total_responses analytics →
  decodable_flags responses = false →
  let r := view_published_tickets_page b p in
  r.2 = Aborted
  ∧ show_analytics_for r.1 = Some ticket_id
  ∧ updates (requests r.1) = updates (requests p).
Proof.
  cbn zeta. intros Htickets Hkey Hdata Htotal Hflags.
  unfold Tickets.view_published_tickets_page. cbn zeta.
  change (requests (start_run p)) with (requests p).
  set (p0 := requested (GetAllTickets "Professor") (start_run p)).
  change (show_analytics_for p0) with (show_analytics_for p). rewrite Hkey.
  destruct (get_all_tickets_by_teacher (requests p) "Professor") as [|t ts];
    [done|].
  pose proof (view_ticket_analytics_frame ticket_id p0) as (Hk & Hu & Hc).
  assert ((view_ticket_analytics ticket_id p0).2 ≠ Continue) as Hnc.
  { intros Hret%view_ticket_analytics_returns.
    change (requests p0) with (requests p ++ [GetAllTickets "Professor"])
      in Hret.
    rewrite Hdata in Hret. cbn zeta in Hret.
    destruct Hret as [?|[Hok _]]; [lia|congruence]. }
  destruct (view_ticket_analytics ticket_id p0) as [p1 c]. cbn [fst snd] in *.
  destruct Hc as [->| ->]; [done|].
  change (show_analytics_for p0) with (show_analytics_for p) in Hk.
  assert (updates (requests p0) = updates (requests p)) as Hu0
    by (by apply updates_snoc_other).
  cbn [fst snd]. split_and!; [done|congruence|congruence].
Qed.

End Published.

(** ** The properties above on sample data *)

(** X1 on a reply with a remark before and after the object. *)
Lemma X_extract_json_between_braces_witness :
  Text.occurs "{" "Sure: " = false
  ∧ Text.occurs "}" " done" = false
  ∧ Text.extract_json Scenario.reply_text = "{ questions: [] }"%string.
Proof.
  split; [reflexivity|]. split; [reflexivity|].
  exact (X_extract_json_between_braces "Sure: " " questions: [] " " done"
           eq_refl eq_refl).
Defined.

(** X2 on a reply without braces. *)
Lemma X_extract_json_no_object_witness :
  Text.occurs "}" "No questions today." = false
  ∧ Text.extract_json "No questions today." = ""%string.
Proof.
  split; [reflexivity|].
  exact (proj1 (proj2 (X_extract_json_no_object "No questions today.")) eq_refl).
Defined.

(** X3 with the sample key, a generator that returns three questions and
    a log that accepts them. *)
Lemma X_generate_mcqs_calls_witness :
  let args := {| ga_lecture_topics := "OSI model";
                 ga_ai_instructions := "";
                 ga_num_questions := 3;
                 ga_subject := "Networking" |} in
  let qs := replicate 3 (Sample.mcq "Which protocol is connection-oriented?") in
  let r := generate_mcqs Sample.api_key Sample.obedient Sample.save_ok
             "OSI model" "" 3 "Networking" empty_world in
  Py.truthy_str Sample.api_key = true
  ∧ Sample.obedient (history empty_world) args = ReplyJson (Some qs)
  ∧ history r.1 = history empty_world ++ generation_calls args qs 3
  ∧ r.2 = Some (Some ((λ q, <["subject"%string := FStr "Networking"]> q) <$> qs)).
Proof.
  intros args qs r. split; [reflexivity|]. split; [reflexivity|].
  destruct (X_generate_mcqs_calls Sample.api_key Sample.obedient Sample.save_ok
              "OSI model" "" 3 "Networking" empty_world)
    as (_ & _ & _ & Hcalls).
  destruct (Hcalls eq_refl)
    as (k & _ & Hh & _ & [(-> & _ & Hr)|(j & q & e & _ & _ & Hsave & _)]).
  - split; [exact Hh|exact Hr].
  - discriminate Hsave.
Defined.

(** X7 on the first page, with topics of three spaces. *)
Lemma X_blank_topics_refused_witness :
  let w := Sample.first_page in
  let r := teacher_dashboard Sample.api_key Sample.obedient Sample.save_ok
             Sample.create_ok (Submit Scenario.blank_input) w in
  workflow_state w = Input
  ∧ Text.blank (in_lecture_topics Scenario.blank_input) = true
  ∧ r.2 = Return
  ∧ screen r.1 = [ErrorTopicsMissing]
  ∧ history r.1 = history w.
Proof.
  intros w r. split; [reflexivity|]. split; [reflexivity|].
  destruct (X_blank_topics_refused Sample.api_key Sample.obedient Sample.save_ok
              Sample.create_ok Scenario.blank_input w eq_refl) as [Hblank _].
  destruct (Hblank eq_refl) as (Hc & Hs & Hh & _).
  split; [exact Hc|]. split; [exact Hs|exact Hh].
Defined.

(** X11 on a draft of three questions: the new set has five. *)
Lemma X_generate_new_set_outcome_witness :
  let w := Sample.session [NoEvent; Submit (Sample.input 3)] in
  let r := generate_mcqs Sample.api_key Sample.obedient Sample.save_ok
             "OSI model, TCP handshake" "" 5 "Networking" w in
  let questions := default [] (default None r.2) in
  let w' := generate_new_set Sample.api_key Sample.obedient Sample.save_ok w in
  r.2 = Some (Some questions)
  ∧ length questions = 5%nat
  ∧ all_mcqs w' = Some questions
  ∧ teacher_ready_for_review (session_state w') = Some true.
Proof.
  intros w r questions w'. split; [reflexivity|]. split; [reflexivity|].
  destruct (X_generate_new_set_outcome Sample.api_key Sample.obedient
              Sample.save_ok w) as [Hok _].
  destruct (Hok questions eq_refl) as (Hdraft & _ & Hready & _).
  split; [exact Hdraft|exact Hready].
Defined.

(** X12 on a draft of three questions. *)
Lemma X_publish_sends_current_draft_witness :
  let w := Sample.session [NoEvent; Submit (Sample.input 3)] in
  let qs := default [] (all_mcqs w) in
  workflow_state w = Reviewing
  ∧ all_mcqs w = Some qs
  ∧ length qs = 3%nat
  ∧ history (teacher_dashboard Sample.api_key Sample.obedient Sample.save_ok
               Sample.create_ok PublishBtn w).1
    = history w
      ++ [CreateExitTicket qs "Professor" "Networking"
            "OSI model, TCP handshake"].
Proof.
  intros w qs. split; [reflexivity|]. split; [reflexivity|].
  split; [reflexivity|].
  refine (X_publish_sends_current_draft Sample.api_key Sample.obedient
            Sample.save_ok Sample.create_ok w qs eq_refl eq_refl _ _).
  - intros H. apply (f_equal length) in H. discriminate H.
  - assert (qs = replicate 3 (<["subject"%string := FStr "Networking"]>
                   (Sample.mcq "Which protocol is connection-oriented?")))
      as -> by reflexivity.
    apply Forall_replicate. reflexivity.
Defined.

(** X10 with a generator whose questions have no text. *)
Lemma X_undrawable_question_stops_page_witness :
  let w := interactions Sample.api_key Scenario.careless Sample.save_ok
             Sample.create_ok [NoEvent; Submit (Sample.input 3)] empty_world in
  let qs := default [] (all_mcqs w) in
  let r := teacher_dashboard Sample.api_key Scenario.careless Sample.save_ok
             Sample.create_ok PublishBtn w in
  workflow_state w = Reviewing
  ∧ all_mcqs w = Some qs
  ∧ length qs = 3%nat
  ∧ r.2 = Aborted
  ∧ history r.1 = history w
  ∧ workflow_state r.1 = Reviewing.
Proof.
  intros w qs r. split; [reflexivity|]. split; [reflexivity|].
  split; [reflexivity|].
  destruct (X_undrawable_question_stops_page Sample.api_key Scenario.careless
              Sample.save_ok Sample.create_ok PublishBtn w qs eq_refl eq_refl)
    as (Hc & Hh & _ & Hw).
  - apply Exists_cons_hd. reflexivity.
  - left. reflexivity.
  - split; [exact Hc|]. split; [exact Hh|exact Hw].
Defined.

(** X9 on a draft whose second question is being edited. *)
Lemma X_cancel_keeps_draft_witness :
  let w := Sample.session [NoEvent; Submit (Sample.input 3); EditBtn 1] in
  let r := teacher_dashboard Sample.api_key Sample.obedient Sample.save_ok
             Sample.create_ok (CancelBtn 1) w in
  r.2 = Rerun
  ∧ all_mcqs r.1 = all_mcqs w
  ∧ edit_mode 1 (session_state w) = true
  ∧ edit_mode 1 (session_state r.1) = false.
Proof.
  intros w r.
  destruct (X_cancel_keeps_draft Sample.api_key Sample.obedient Sample.save_ok
              Sample.create_ok 1 w) as (_ & Hdraft & _ & _ & Hflag & _).
  assert (r.2 = Rerun) as Hrerun by reflexivity.
  destruct (Hflag Hrerun) as [Hbefore Hafter].
  split; [exact Hrerun|]. split; [exact Hdraft|].
  split; [exact Hbefore|exact Hafter].
Defined.

(** X8 on the second question of a draft of three. *)
Lemma X_edit_then_save_witness :
  let w := Sample.session [NoEvent; Submit (Sample.input 3)] in
  let qs := default [] (all_mcqs w) in
  let w1 := interact Sample.api_key Sample.obedient Sample.save_ok
              Sample.create_ok (EditBtn 1) w in
  let w2 := interact Sample.api_key Sample.obedient Sample.save_ok
              Sample.create_ok (SaveBtn 1 Sample.edit) w1 in
  workflow_state w = Reviewing
  ∧ all_mcqs w = Some qs
  ∧ length qs = 3%nat
  ∧ edit_mode 1 (session_state w) = false
  ∧ edit_mode 1 (session_state w1) = true
  ∧ edit_mode 1 (session_state w2) = false
  ∧ history w2 = history w
  ∧ ∃ options, all_mcqs w2 = Some (<[1%nat := edited Sample.edit options]> qs).
Proof.
  intros w qs w1 w2. split; [reflexivity|]. split; [reflexivity|].
  split; [reflexivity|]. split; [reflexivity|].
  assert (Forall (λ q, well_formed q = true) qs) as Hqs.
  { assert (qs = replicate 3 (<["subject"%string := FStr "Networking"]>
                   (Sample.mcq "Which protocol is connection-oriented?")))
      as -> by reflexivity.
    apply Forall_replicate. reflexivity. }
  destruct (X_edit_then_save Sample.api_key Sample.obedient Sample.save_ok
              Sample.create_ok 1 Sample.edit w qs
              (<["subject"%string := FStr "Networking"]>
                 (Sample.mcq "Which protocol is connection-oriented?"))
              eq_refl eq_refl Hqs eq_refl eq_refl)
    as (_ & H1 & options & new_options & _ & Hdraft & _ & _ & H2 & _ & Hh).
  split; [exact H1|]. split; [exact H2|]. split; [exact Hh|].
  exists options. exact Hdraft.
Defined.


(** X5 after a request for three questions and a click on Edit. *)
Lemma X_draft_keys_agree_witness :
  let w := Sample.session [NoEvent; Submit (Sample.input 3); EditBtn 0] in
  workflow_state w = Reviewing
  ∧ teacher_mcqs (session_state w) = teacher_all_mcqs (session_state w)
  ∧ is_Some (all_mcqs w).
Proof.
  intros w. split; [reflexivity|].
  destruct (X_draft_keys_agree Sample.api_key Sample.obedient Sample.save_ok
              Sample.create_ok [NoEvent; Submit (Sample.input 3); EditBtn 0])
    as [Hkeys Hdraft].
  split; [exact Hkeys|exact (Hdraft eq_refl)].
Defined.

(** X19 at the flag scenario: the headers show four flags, one of them out
    of range. *)
Lemma X_total_flags_against_headers_witness :
  let rs := [Sample.response_A; Sample.response_B] in
  let questions := Sample.three_questions in
  ∃ st, calculate_flag_statistics rs questions = Ok st
    ∧ sum_list (Analytics.student_flag_count <$> rs) = 4%nat
    ∧ total_flags st = 3%nat.
Proof.
  intros rs questions.
  destruct (proj2 (calculate_flag_statistics_returns rs questions) eq_refl)
    as [st Hst].
  exists st. split; [exact Hst|]. split; [reflexivity|].
  destruct (X_total_flags_against_headers rs questions st Hst) as (-> & _).
  reflexivity.
Defined.

(** X21 at the flag scenario. *)
Lemma X_flagged_questions_bounds_witness :
  let rs := [Sample.response_A; Sample.response_B] in
  let questions := Sample.three_questions in
  ∃ st, calculate_flag_statistics rs questions = Ok st
    ∧ (flagged_questions st ≤ 3)%nat
    ∧ (flagged_questions st ≤ total_flags st)%nat.
Proof.
  intros rs questions.
  destruct (proj2 (calculate_flag_statistics_returns rs questions) eq_refl)
    as [st Hst].
  exists st. split; [exact Hst|].
  destruct (X_flagged_questions_bounds rs questions st Hst) as (H1 & H2 & _).
  split; [exact H1|exact H2].
Defined.


(** X20 on a response that flags the second question under the key 1. *)
Lemma X_integer_keyed_flags_witness :
  let questions := Sample.three_questions in
  let r := Scenario.response_C in
  Analytics.student_flag_count r = 1%nat
  ∧ (∃ st, calculate_flag_statistics [r] questions = Ok st
           ∧ total_flags st = 1%nat)
  ∧ ∃ ls, response_detail questions r = Ok ls ∧ FlagWarning ∉ ls.
Proof.
  intros questions r. split; [reflexivity|].
  assert (Forall (λ e : Py.key * bool, ∃ n, e.1 = Py.KInt n) (flags_of r))
    as Hkeys.
  { constructor; [by exists 1|constructor]. }
  destruct (X_integer_keyed_flags questions r Hkeys)
    as [(st & Hst & Htotal) Hdetail].
  split.
  - exists st. split; [exact Hst|]. rewrite Htotal. reflexivity.
  - assert (∃ ls, response_detail questions r = Ok ls) as [ls Hls]
      by (eexists; reflexivity).
    exists ls. split; [exact Hls|]. exact (proj1 (Hdetail ls Hls)).
Defined.

(** X17 on a ticket of three questions. *)
Lemma X_questions_preview_lines_witness :
  let questions := Sample.three_questions in
  ∃ ls, Tickets.questions_preview questions = Ok ls
    ∧ (length ls ≤ 4)%nat
    ∧ Tickets.PreviewMore 1 ∈ ls.
Proof.
  intros questions.
  assert (∃ ls, Tickets.questions_preview questions = Ok ls) as [ls Hls]
    by (eexists; reflexivity).
  exists ls. split; [exact Hls|].
  destruct (X_questions_preview_lines questions ls Hls) as (_ & Hlen & Hmore & _).
  split; [exact Hlen|]. apply Hmore. split; [cbn; lia|reflexivity].
Defined.

(** X14 on the second of two listed tickets. *)
Lemma X_view_analytics_opens_witness :
  let r := Tickets.view_published_tickets_page Scenario.all_tickets
             Scenario.update_ok Scenario.exit_ticket
             (Scenario.analytics_of [Sample.response_A])
             (Tickets.ViewAnalyticsBtn 1) Scenario.list_page in
  r.2 = Rerun ∧ Tickets.show_analytics_for r.1 = Some "XYZ789"%string.
Proof.
  intros r.
  destruct (X_view_analytics_opens Scenario.all_tickets Scenario.update_ok
              Scenario.exit_ticket (Scenario.analytics_of [Sample.response_A])
              1 {| Tickets.listed_id := "XYZ789";
                   Tickets.listed_status := Some "inactive"%string;
                   Tickets.listed_questions := [] |}
              Scenario.list_page eq_refl eq_refl)
    as (Hc & Hkey & _).
  - constructor; [reflexivity|constructor].
  - split; [exact Hc|exact Hkey].
Defined.

(** X15 with the analytics of the first ticket open and one response. *)
Lemma X_back_closes_analytics_witness :
  let r := Tickets.view_published_tickets_page Scenario.all_tickets
             Scenario.update_ok Scenario.exit_ticket
             (Scenario.analytics_of [Sample.response_A])
             Tickets.BackBtn Scenario.analytics_page in
  r.2 = Rerun ∧ Tickets.show_analytics_for r.1 = None.
Proof.
  intros r.
  refine (proj1 (proj2
    (X_back_closes_analytics Scenario.all_tickets Scenario.update_ok
       Scenario.exit_ticket (Scenario.analytics_of [Sample.response_A])
       Tickets.BackBtn "ABC123" Sample.three_questions Scenario.analytics_page
       _ eq_refl eq_refl eq_refl eq_refl _)) eq_refl).
  - intros H. discriminate H.
  - constructor; [reflexivity|constructor].
Defined.

(** X16 with a response whose flag key is not a number. *)
Lemma X_malformed_flag_blocks_back_witness :
  let r := Tickets.view_published_tickets_page Scenario.all_tickets
             Scenario.update_ok Scenario.exit_ticket
             (Scenario.analytics_of [Sample.response_malformed])
             Tickets.BackBtn Scenario.analytics_page in
  r.2 = Aborted ∧ Tickets.show_analytics_for r.1 = Some "ABC123"%string.
Proof.
  intros r.
  destruct (X_malformed_flag_blocks_back Scenario.all_tickets Scenario.update_ok
              Scenario.exit_ticket
              (Scenario.analytics_of [Sample.response_malformed])
              Tickets.BackBtn "ABC123" Sample.three_questions
              Scenario.analytics_page)
    as (Hc & Hkey & _).
  - intros H. discriminate H.
  - reflexivity.
  - reflexivity.
  - cbn. lia.
  - reflexivity.
  - split; [exact Hc|exact Hkey].
Defined.
